(** * Ethernet Connection Manager (cy_ecm.c): a shallow embedding

    The connection manager keeps its state in file-scope statics and talks
    to three collaborators: the RTOS (mutexes, threads, delays), the network
    stack (the cy_network functions) and the PHY driver (the callback table
    stored in the handle).  Each API function is embedded as a pure function
    from

      - the answers the collaborators give during the call,
      - the statics before the call,
      - the arguments (a NULL pointer is [None]),

    to the returned [cy_rslt_t], the statics after the call, the objects
    written through pointer arguments, and the chronological list of
    collaborator calls that were made.  Log statements are dropped; they
    compile to nothing unless ENABLE_ECM_LOGS is set. *)

From stdpp Require Import base list numbers.

Local Open Scope Z_scope.

(** ** Result codes *)

(** The codes of cy_ecm_error.h that cy_ecm.c returns, the two codes of the
    network stack that [cy_ecm_connect] translates, and any other code a
    collaborator may hand back. *)
Inductive cy_rslt_t : Type :=
  | CY_RSLT_SUCCESS
  | CY_RSLT_MODULE_ECM_BADARG
  | CY_RSLT_MODULE_ECM_NOT_INITIALIZED
  | CY_RSLT_ECM_INIT_ERROR
  | CY_RSLT_ECM_NW_INIT_ERROR
  | CY_RSLT_ECM_MUTEX_ERROR
  | CY_RSLT_ECM_ERROR_NOMEM
  | CY_RSLT_ECM_ERROR
  | CY_RSLT_MODULE_ECM_ALREADY_CONNECTED
  | CY_RSLT_MODULE_ECM_NOT_CONNECTED
  | CY_RSLT_ECM_STATIC_IP_NOT_SUPPORTED
  | CY_RSLT_ECM_INTERFACE_ERROR
  | CY_RSLT_MODULE_ECM_ERROR_STARTING_DHCP
  | CY_RSLT_ECM_DHCP_TIMEOUT
  | CY_RSLT_ECM_IP_ADDR_ERROR
  | CY_RSLT_NETWORK_ERROR_STARTING_DHCP
  | CY_RSLT_NETWORK_DHCP_WAIT_TIMEOUT
  | CY_RSLT_COLLABORATOR (code : Z).

#[global] Instance cy_rslt_eq_dec : EqDecision cy_rslt_t.
Proof. solve_decision. Defined.

(** [result == CY_RSLT_SUCCESS] *)
Definition succeeded (r : cy_rslt_t) : bool := bool_decide (r = CY_RSLT_SUCCESS).

(** ** Macros of cy_ecm.c and eth_internal.h *)

Definition DHCP_TIMEOUT_COUNT : Z := 6000.
Definition CY_ECM_ETH_INTERFACE_MAX : nat := 2.
Definition CY_POLL_ETHERNET_PHY_STATUS_TIME : Z := 1000.
Definition WAIT_CHECK_ETHERNET_PHY_STATUS : Z := 100.
Definition RETRY_WAIT_TIME_GET_IP_ADDR : Z := 10.
Definition CY_ECM_MAXIMUM_CALLBACKS_COUNT : nat := 3.
Definition MAX_WAIT_ETHERNET_PHY_STATUS : Z := 10000.

(** Unsigned machine arithmetic: [uint32_t] and [uint8_t] additions wrap. *)
Definition wrap32 (z : Z) : Z := z mod 2 ^ 32.
Definition wrap8 (z : Z) : Z := z mod 2 ^ 8.

(** ** Data model *)

(** [cy_ecm_interface_t]; the two real interfaces index the flag arrays. *)
Inductive cy_ecm_interface_t : Type :=
  | CY_ECM_INTERFACE_ETH0
  | CY_ECM_INTERFACE_ETH1
  | CY_ECM_INTERFACE_INVALID.

#[global] Instance cy_ecm_interface_eq_dec : EqDecision cy_ecm_interface_t.
Proof. solve_decision. Defined.

Definition idx (i : cy_ecm_interface_t) : nat :=
  match i with
  | CY_ECM_INTERFACE_ETH0 => 0%nat
  | CY_ECM_INTERFACE_ETH1 => 1%nat
  | CY_ECM_INTERFACE_INVALID => 2%nat
  end.

(** [cy_ecm_event_t] *)
Inductive cy_ecm_event_t : Type :=
  | CY_ECM_EVENT_CONNECTED
  | CY_ECM_EVENT_DISCONNECTED
  | CY_ECM_EVENT_IP_CHANGED.

(** A function pointer is known by its address only. *)
Abbreviation fnptr := positive (only parsing).

(** [cy_ecm_event_callback_t]; [None] is the NULL pointer. *)
Abbreviation cy_ecm_event_callback_t := (option fnptr) (only parsing).

(** The register block an interface is bound to ([ETH_Type *]). *)
Inductive ETH_Type : Type := ETH0 | ETH1.

(** An interface context handed out by the network stack. *)
Abbreviation cy_network_interface_context := positive (only parsing).

(** [cy_ecm_phy_callbacks_t]: nine function pointers, each possibly NULL. *)
Record cy_ecm_phy_callbacks_t : Type := {
  phy_init : option fnptr;
  phy_configure : option fnptr;
  phy_enable_ext_reg : option fnptr;
  phy_discover : option fnptr;
  phy_get_auto_neg_status : option fnptr;
  phy_get_link_partner_cap : option fnptr;
  phy_get_linkspeed : option fnptr;
  phy_get_linkstatus : option fnptr;
  phy_reset : option fnptr
}.

(** [cy_ecm_object_t], the object behind a [cy_ecm_t] handle.  The object
    mutex is a resource: its creation and destruction show in the trace. *)
Record cy_ecm_object_t : Type := {
  eth_idx : cy_ecm_interface_t;
  eth_base_type : ETH_Type;
  iface_context : option cy_network_interface_context;
  eth_phy_cb : cy_ecm_phy_callbacks_t;
  isobjinitialized : bool;
  network_up : bool;
  mac_address : list Z
}.

(** [cy_ecm_ip_address_t]: a version tag and a union of one IPv4 word and
    four IPv6 words; the IPv4 word is word 0 of the union. *)
Record cy_ecm_ip_address_t : Type := {
  version : Z;
  ip : list Z
}.

(** [memset( ip_addr, 0, sizeof( cy_ecm_ip_address_t ) )] *)
Definition zeroed_ip_address : cy_ecm_ip_address_t :=
  {| version := 0; ip := [0; 0; 0; 0] |}.

(** [ip_addr->ip.v4 = v] *)
Definition set_v4 (a : cy_ecm_ip_address_t) (ver v : Z) : cy_ecm_ip_address_t :=
  {| version := ver; ip := <[0%nat := v]> (ip a) |}.

(** [cy_ecm_ip_setting_t]: the three addresses of a static configuration. *)
Record cy_ecm_ip_setting_t : Type := {
  ip_address : cy_ecm_ip_address_t;
  gateway : cy_ecm_ip_address_t;
  netmask : cy_ecm_ip_address_t
}.

(** The static variables of cy_ecm.c.  [ecm_mutex] is a resource and shows
    in the trace; [ecm_event_thread] is NULL or a running thread. *)
Record globals : Type := {
  is_ecm_initialized : bool;
  is_tcp_initialized : bool;
  ecm_event_thread : bool;
  ecm_event_handler : list cy_ecm_event_callback_t;
  is_ethernet_initiated : list bool;
  is_ethernet_link_up : list bool;
  is_ecm_thread_created : Z
}.

(** The program starts with every static zeroed. *)
Definition initial_globals : globals :=
  {| is_ecm_initialized := false;
     is_tcp_initialized := false;
     ecm_event_thread := false;
     ecm_event_handler := [None; None; None];
     is_ethernet_initiated := [false; false];
     is_ethernet_link_up := [false; false];
     is_ecm_thread_created := 0 |}.

(** The arrays keep their declared sizes. *)
Definition well_sized (g : globals) : Prop :=
  length (ecm_event_handler g) = CY_ECM_MAXIMUM_CALLBACKS_COUNT
  /\ length (is_ethernet_initiated g) = CY_ECM_ETH_INTERFACE_MAX
  /\ length (is_ethernet_link_up g) = CY_ECM_ETH_INTERFACE_MAX.

(** [a[i]] for a flag array.  The code only indexes with the interface of
    a handle, which [cy_ecm_ethif_init] restricts to ETH0 and ETH1. *)
Definition flag (a : list bool) (i : cy_ecm_interface_t) : bool :=
  default false (a !! idx i).

Definition set_is_ecm_initialized (g : globals) (b : bool) : globals :=
  {| is_ecm_initialized := b;
     is_tcp_initialized := is_tcp_initialized g;
     ecm_event_thread := ecm_event_thread g;
     ecm_event_handler := ecm_event_handler g;
     is_ethernet_initiated := is_ethernet_initiated g;
     is_ethernet_link_up := is_ethernet_link_up g;
     is_ecm_thread_created := is_ecm_thread_created g |}.

Definition set_is_tcp_initialized (g : globals) (b : bool) : globals :=
  {| is_ecm_initialized := is_ecm_initialized g;
     is_tcp_initialized := b;
     ecm_event_thread := ecm_event_thread g;
     ecm_event_handler := ecm_event_handler g;
     is_ethernet_initiated := is_ethernet_initiated g;
     is_ethernet_link_up := is_ethernet_link_up g;
     is_ecm_thread_created := is_ecm_thread_created g |}.

Definition set_ecm_event_thread (g : globals) (b : bool) : globals :=
  {| is_ecm_initialized := is_ecm_initialized g;
     is_tcp_initialized := is_tcp_initialized g;
     ecm_event_thread := b;
     ecm_event_handler := ecm_event_handler g;
     is_ethernet_initiated := is_ethernet_initiated g;
     is_ethernet_link_up := is_ethernet_link_up g;
     is_ecm_thread_created := is_ecm_thread_created g |}.

Definition set_ecm_event_handler (g : globals)
    (h : list cy_ecm_event_callback_t) : globals :=
  {| is_ecm_initialized := is_ecm_initialized g;
     is_tcp_initialized := is_tcp_initialized g;
     ecm_event_thread := ecm_event_thread g;
     ecm_event_handler := h;
     is_ethernet_initiated := is_ethernet_initiated g;
     is_ethernet_link_up := is_ethernet_link_up g;
     is_ecm_thread_created := is_ecm_thread_created g |}.

Definition set_is_ethernet_initiated (g : globals) (a : list bool) : globals :=
  {| is_ecm_initialized := is_ecm_initialized g;
     is_tcp_initialized := is_tcp_initialized g;
     ecm_event_thread := ecm_event_thread g;
     ecm_event_handler := ecm_event_handler g;
     is_ethernet_initiated := a;
     is_ethernet_link_up := is_ethernet_link_up g;
     is_ecm_thread_created := is_ecm_thread_created g |}.

Definition set_is_ethernet_link_up (g : globals) (a : list bool) : globals :=
  {| is_ecm_initialized := is_ecm_initialized g;
     is_tcp_initialized := is_tcp_initialized g;
     ecm_event_thread := ecm_event_thread g;
     ecm_event_handler := ecm_event_handler g;
     is_ethernet_initiated := is_ethernet_initiated g;
     is_ethernet_link_up := a;
     is_ecm_thread_created := is_ecm_thread_created g |}.

Definition set_is_ecm_thread_created (g : globals) (n : Z) : globals :=
  {| is_ecm_initialized := is_ecm_initialized g;
     is_tcp_initialized := is_tcp_initialized g;
     ecm_event_thread := ecm_event_thread g;
     ecm_event_handler := ecm_event_handler g;
     is_ethernet_initiated := is_ethernet_initiated g;
     is_ethernet_link_up := is_ethernet_link_up g;
     is_ecm_thread_created := n |}.

(** ** Collaborator calls *)

(** One entry per call that leaves cy_ecm.c. *)
Inductive event : Type :=
  | Ev_cy_rtos_init_mutex2
  | Ev_cy_rtos_deinit_mutex
  | Ev_cy_rtos_get_mutex
  | Ev_cy_rtos_set_mutex
  | Ev_obj_mutex_init
  | Ev_obj_mutex_deinit
  | Ev_malloc
  | Ev_free
  | Ev_cyhal_syspm_lock_deepsleep
  | Ev_cyhal_syspm_unlock_deepsleep
  | Ev_cy_eth_driver_initialization (i : cy_ecm_interface_t)
  | Ev_Cy_ETHIF_SetPromiscuousMode (base : ETH_Type) (on : bool)
  | Ev_Cy_ETHIF_SetNoBroadCast (base : ETH_Type) (on : bool)
  | Ev_cy_rtos_create_thread
  | Ev_cy_rtos_delay_milliseconds (ms : Z)
  | Ev_cy_network_init
  | Ev_cy_network_deinit
  | Ev_cy_network_add_nw_interface (i : cy_ecm_interface_t)
      (static_ipaddr : option (Z * Z * Z))
  | Ev_cy_network_remove_nw_interface
  | Ev_cy_network_register_ip_change_cb (subscribe : bool)
  | Ev_cy_network_ip_up
  | Ev_cy_network_ip_down
  | Ev_cy_network_get_ip_address
  | Ev_phy_get_linkstatus (i : cy_ecm_interface_t)
  | Ev_phy_get_linkspeed (i : cy_ecm_interface_t)
  | Ev_app_callback (cb : fnptr) (event_type : cy_ecm_event_t).

#[global] Instance cy_ecm_event_eq_dec : EqDecision cy_ecm_event_t.
Proof. solve_decision. Defined.

#[global] Instance ETH_Type_eq_dec : EqDecision ETH_Type.
Proof. solve_decision. Defined.

#[global] Instance event_eq_dec : EqDecision event.
Proof. solve_decision. Defined.

(** Calls into the network stack that act on an interface. *)
Definition is_network_stack_call (e : event) : bool :=
  match e with
  | Ev_cy_network_init | Ev_cy_network_deinit
  | Ev_cy_network_add_nw_interface _ _ | Ev_cy_network_remove_nw_interface
  | Ev_cy_network_register_ip_change_cb _
  | Ev_cy_network_ip_up | Ev_cy_network_ip_down
  | Ev_cy_network_get_ip_address => true
  | _ => false
  end.

(** ** Event dispatcher *)

(** [invoke_app_callbacks]: the loop [for (i = 0; i < 3; i++)], with [n]
    iterations left at index [i]. *)
Fixpoint invoke_app_callbacks_from (n : nat) (i : nat)
    (handlers : list cy_ecm_event_callback_t) (event_type : cy_ecm_event_t)
    : list event :=
  match n with
  | O => []
  | S n' =>
      match handlers !! i with
      | Some (Some cb) =>
          Ev_app_callback cb event_type
            :: invoke_app_callbacks_from n' (S i) handlers event_type
      | _ => invoke_app_callbacks_from n' (S i) handlers event_type
      end
  end.

Definition invoke_app_callbacks (handlers : list cy_ecm_event_callback_t)
    (event_type : cy_ecm_event_t) : list event :=
  invoke_app_callbacks_from CY_ECM_MAXIMUM_CALLBACKS_COUNT 0 handlers event_type.

(** ** Link monitor *)

(** One turn of the [while( true )] loop of [ecm_event_thread_func], up to
    the closing delay.  [phy] is what the PHY answers to a link-status
    query on an interface in this turn: the result code and the value
    stored in [linkstatus]. *)
Definition monitor_interface (phy : cy_ecm_interface_t -> cy_rslt_t * Z)
    (i : cy_ecm_interface_t) (g : globals) : globals * list event :=
  let '(result, linkstatus) := phy i in
  if succeeded result then
    if bool_decide (linkstatus = 1) then
      if negb (flag (is_ethernet_link_up g) i) then
        (set_is_ethernet_link_up g (<[idx i := true]> (is_ethernet_link_up g)),
         Ev_phy_get_linkstatus i
           :: invoke_app_callbacks (ecm_event_handler g) CY_ECM_EVENT_CONNECTED)
      else (g, [Ev_phy_get_linkstatus i])
    else
      if flag (is_ethernet_link_up g) i then
        (set_is_ethernet_link_up g (<[idx i := false]> (is_ethernet_link_up g)),
         Ev_phy_get_linkstatus i
           :: invoke_app_callbacks (ecm_event_handler g) CY_ECM_EVENT_DISCONNECTED)
      else (g, [Ev_phy_get_linkstatus i])
  else (g, [Ev_phy_get_linkstatus i]).

Definition ecm_event_thread_iteration (phy : cy_ecm_interface_t -> cy_rslt_t * Z)
    (g : globals) : globals * list event :=
  let '(g', tr) :=
    if flag (is_ethernet_initiated g) CY_ECM_INTERFACE_ETH0 then
      monitor_interface phy CY_ECM_INTERFACE_ETH0 g
    else if flag (is_ethernet_initiated g) CY_ECM_INTERFACE_ETH1 then
      monitor_interface phy CY_ECM_INTERFACE_ETH1 g
    else (g, [])
  in (g', tr ++ [Ev_cy_rtos_delay_milliseconds CY_POLL_ETHERNET_PHY_STATUS_TIME]).

(** ** What the collaborators answer during one API call *)

(** Every API function calls each collaborator at most once, except for the
    polls inside its wait loops; a poll made in turn [n] of a loop (from 0)
    gets the [n]-th answer.  A link-status query answers with the result
    code and the value it stores in [linkstatus], a link-speed query with the
    result code, the mode and the speed, an address query with the result
    code and the IPv4 word. *)
Record collaborators : Type := {
  on_cy_network_init : cy_rslt_t;
  on_cy_rtos_init_mutex2 : cy_rslt_t;
  on_cy_rtos_get_mutex : cy_rslt_t;
  on_cy_rtos_set_mutex : cy_rslt_t;
  on_malloc : bool;
  on_obj_mutex_init : cy_rslt_t;
  on_cy_eth_driver_initialization : cy_rslt_t;
  on_cy_rtos_create_thread : cy_rslt_t;
  on_cy_network_add_nw_interface :
    cy_rslt_t * option cy_network_interface_context;
  on_cy_network_ip_up : cy_rslt_t;
  on_cy_network_remove_nw_interface : cy_rslt_t;
  on_cy_network_get_ip_address : nat -> cy_rslt_t * Z;
  on_phy_get_linkstatus : nat -> cy_ecm_interface_t -> cy_rslt_t * Z;
  on_phy_get_linkspeed : nat -> cy_ecm_interface_t -> cy_rslt_t * Z * Z
}.

(** What the headers outside cy_ecm.c fix at build time: the configurator
    output (cycfg.h), the device header and the enum value of cy_ecm.h. *)
Record platform : Type := {
  eth_0_ENABLED : bool;
  eth_1_ENABLED : bool;
  eth_0_MAC_ADDR : list Z;
  eth_1_MAC_ADDR : list Z;
  eth_0_PROMISCUOUS_MODE : bool;
  eth_0_ACCEPT_BROADCASR_FRAMES : bool;
  eth_1_PROMISCUOUS_MODE : bool;
  eth_1_ACCEPT_BROADCASR_FRAMES : bool;
  CY_IP_MXETH_INSTANCES : Z;
  CY_ECM_IP_VER_V4 : Z
}.

(** The release of the global mutex that ends most API functions:
    [if( cy_rtos_set_mutex( &ecm_mutex ) ) result = CY_RSLT_ECM_MUTEX_ERROR]. *)
Definition release (E : collaborators) (result : cy_rslt_t) : cy_rslt_t :=
  if succeeded (on_cy_rtos_set_mutex E) then result else CY_RSLT_ECM_MUTEX_ERROR.

(** ** cy_ecm_init, cy_ecm_deinit *)

Definition cy_ecm_init (E : collaborators) (g : globals)
    : cy_rslt_t * globals * list event :=
  if is_ecm_initialized g then (CY_RSLT_ECM_INIT_ERROR, g, [])
  else if negb (is_tcp_initialized g) && negb (succeeded (on_cy_network_init E))
  then (CY_RSLT_ECM_NW_INIT_ERROR, g, [Ev_cy_network_init])
  else
    let tr_nw := if is_tcp_initialized g then [] else [Ev_cy_network_init] in
    let g1 := set_is_tcp_initialized g true in
    if negb (succeeded (on_cy_rtos_init_mutex2 E)) then
      let g2 := set_is_tcp_initialized g1 false in
      (* exit: *)
      (CY_RSLT_ECM_MUTEX_ERROR, g2,
       tr_nw ++ [Ev_cy_rtos_init_mutex2]
         ++ (if negb (is_tcp_initialized g2) then [Ev_cy_network_deinit] else []))
    else
      (CY_RSLT_SUCCESS, set_is_ecm_initialized g1 true,
       tr_nw ++ [Ev_cy_rtos_init_mutex2]).

Definition cy_ecm_deinit (g : globals) : cy_rslt_t * globals * list event :=
  if negb (is_ecm_initialized g) then (CY_RSLT_MODULE_ECM_NOT_INITIALIZED, g, [])
  else
    (CY_RSLT_SUCCESS,
     set_is_tcp_initialized (set_is_ecm_initialized g false) false,
     [Ev_cy_network_deinit; Ev_cy_rtos_deinit_mutex]).

(** ** Callback registry *)

(** The scan of [cy_ecm_register_event_callback]: the first NULL slot takes
    the callback and the loop breaks. *)
Fixpoint register_scan (n : nat) (i : nat)
    (handlers : list cy_ecm_event_callback_t) (event_callback : fnptr)
    : list cy_ecm_event_callback_t :=
  match n with
  | O => handlers
  | S n' =>
      match handlers !! i with
      | Some None => <[i := Some event_callback]> handlers
      | _ => register_scan n' (S i) handlers event_callback
      end
  end.

Definition cy_ecm_register_event_callback (E : collaborators) (g : globals)
    (ecm_handle : option cy_ecm_object_t)
    (event_callback : cy_ecm_event_callback_t)
    : cy_rslt_t * globals * list event :=
  match ecm_handle, event_callback with
  | Some ecm_obj, Some cb =>
      if negb (is_ecm_initialized g)
      then (CY_RSLT_MODULE_ECM_NOT_INITIALIZED, g, [])
      else if negb (succeeded (on_cy_rtos_get_mutex E))
      then (CY_RSLT_ECM_MUTEX_ERROR, g, [Ev_cy_rtos_get_mutex])
      else
        let g' :=
          if negb (isobjinitialized ecm_obj) then g
          else set_ecm_event_handler g
                 (register_scan CY_ECM_MAXIMUM_CALLBACKS_COUNT 0
                    (ecm_event_handler g) cb) in
        (* exit: result = cy_rtos_set_mutex( &ecm_mutex ) *)
        (release E CY_RSLT_SUCCESS, g',
         [Ev_cy_rtos_get_mutex; Ev_cy_rtos_set_mutex])
  | _, _ => (CY_RSLT_MODULE_ECM_BADARG, g, [])
  end.

(** The scan of [cy_ecm_deregister_event_callback]: the first slot holding
    the callback is cleared and the loop is left. *)
Fixpoint deregister_scan (n : nat) (i : nat)
    (handlers : list cy_ecm_event_callback_t) (event_callback : fnptr)
    : list cy_ecm_event_callback_t :=
  match n with
  | O => handlers
  | S n' =>
      if bool_decide (handlers !! i = Some (Some event_callback))
      then <[i := None]> handlers
      else deregister_scan n' (S i) handlers event_callback
  end.

Definition cy_ecm_deregister_event_callback (E : collaborators) (g : globals)
    (ecm_handle : option cy_ecm_object_t)
    (event_callback : cy_ecm_event_callback_t)
    : cy_rslt_t * globals * list event :=
  match ecm_handle, event_callback with
  | Some ecm_obj, Some cb =>
      if negb (is_ecm_initialized g)
      then (CY_RSLT_MODULE_ECM_NOT_INITIALIZED, g, [])
      else if negb (succeeded (on_cy_rtos_get_mutex E))
      then (CY_RSLT_ECM_MUTEX_ERROR, g, [Ev_cy_rtos_get_mutex])
      else
        let g' :=
          if negb (isobjinitialized ecm_obj) then g
          else set_ecm_event_handler g
                 (deregister_scan CY_ECM_MAXIMUM_CALLBACKS_COUNT 0
                    (ecm_event_handler g) cb) in
        (* exit: result = cy_rtos_set_mutex( &ecm_mutex ) *)
        (release E CY_RSLT_SUCCESS, g',
         [Ev_cy_rtos_get_mutex; Ev_cy_rtos_set_mutex])
  | _, _ => (CY_RSLT_MODULE_ECM_BADARG, g, [])
  end.

(** ** cy_ecm_get_ip_address *)

(** [ip_addr] is the caller's structure ([None] for a NULL pointer); the
    second component of the result is the structure after the call. *)
Definition cy_ecm_get_ip_address (cfg : platform) (E : collaborators)
    (g : globals) (ecm_handle : option cy_ecm_object_t)
    (ip_addr : option cy_ecm_ip_address_t)
    : cy_rslt_t * option cy_ecm_ip_address_t * list event :=
  match ecm_handle, ip_addr with
  | Some ecm_obj, Some a =>
      if negb (is_ecm_initialized g)
      then (CY_RSLT_MODULE_ECM_NOT_INITIALIZED, ip_addr, [])
      else if negb (succeeded (on_cy_rtos_get_mutex E))
      then (CY_RSLT_ECM_MUTEX_ERROR, ip_addr, [Ev_cy_rtos_get_mutex])
      else if negb (network_up ecm_obj) then
        (release E CY_RSLT_MODULE_ECM_NOT_CONNECTED, Some zeroed_ip_address,
         [Ev_cy_rtos_get_mutex; Ev_cy_rtos_set_mutex])
      else
        let '(result, v4) := on_cy_network_get_ip_address E 0%nat in
        if negb (succeeded result) then
          (release E CY_RSLT_ECM_IP_ADDR_ERROR, ip_addr,
           [Ev_cy_rtos_get_mutex; Ev_cy_network_get_ip_address;
            Ev_cy_rtos_set_mutex])
        else
          (release E result, Some (set_v4 a (CY_ECM_IP_VER_V4 cfg) v4),
           [Ev_cy_rtos_get_mutex; Ev_cy_network_get_ip_address;
            Ev_cy_rtos_set_mutex])
  | _, _ => (CY_RSLT_MODULE_ECM_BADARG, ip_addr, [])
  end.

(** ** cy_ecm_get_link_status *)

(** The wait loop of [cy_ecm_get_link_status], entered with [n] polls done.
    It yields [total_wait_time], [result] and [*status] as they are when
    the loop is left, and the calls made.  One unit of [fuel] pays for one
    turn of the loop; [None] means the fuel ran out first. *)
Fixpoint get_link_status_wait (fuel : nat) (E : collaborators)
    (i : cy_ecm_interface_t) (n : nat) (total_wait_time : Z)
    (result : cy_rslt_t) (status : bool)
    : option (Z * cy_rslt_t * bool * list event) :=
  if bool_decide (total_wait_time < MAX_WAIT_ETHERNET_PHY_STATUS) then
    match fuel with
    | O => None
    | S fuel' =>
        let '(r, linkstatus) := on_phy_get_linkstatus E n i in
        if succeeded r && bool_decide (linkstatus = 1) then
          Some (total_wait_time, r, true, [Ev_phy_get_linkstatus i])
        else
          '(t, r', s, tr) ←
            get_link_status_wait fuel' E i (S n)
              (wrap32 (total_wait_time + WAIT_CHECK_ETHERNET_PHY_STATUS)) r status;
          Some (t, r', s,
                Ev_phy_get_linkstatus i
                  :: Ev_cy_rtos_delay_milliseconds WAIT_CHECK_ETHERNET_PHY_STATUS
                  :: tr)
    end
  else Some (total_wait_time, result, status, []).

(** [status] is the caller's flag ([None] for a NULL pointer); the second
    component of the result is the flag after the call. *)
Definition cy_ecm_get_link_status (fuel : nat) (E : collaborators)
    (g : globals) (ecm_handle : option cy_ecm_object_t) (status : option bool)
    : option (cy_rslt_t * option bool * list event) :=
  match ecm_handle, status with
  | Some ecm_obj, Some st =>
      if negb (is_ecm_initialized g)
      then Some (CY_RSLT_MODULE_ECM_NOT_INITIALIZED, status, [])
      else if negb (succeeded (on_cy_rtos_get_mutex E))
      then Some (CY_RSLT_ECM_MUTEX_ERROR, status, [Ev_cy_rtos_get_mutex])
      else
        '(total_wait_time, result, st', tr) ←
          get_link_status_wait fuel E (eth_idx ecm_obj) 0 0 CY_RSLT_SUCCESS st;
        let '(result, st') :=
          if bool_decide (total_wait_time >= MAX_WAIT_ETHERNET_PHY_STATUS)
          then (CY_RSLT_SUCCESS, false) else (result, st') in
        Some (release E result, Some st',
              Ev_cy_rtos_get_mutex :: tr ++ [Ev_cy_rtos_set_mutex])
  | _, _ => Some (CY_RSLT_MODULE_ECM_BADARG, status, [])
  end.

(** ** cy_ecm_get_link_speed *)

(** The wait loop of [cy_ecm_get_link_speed]; [Some (mode, phy_speed)] in
    the result is the [goto exit] taken after a successful speed query,
    [None] is the loop running to its end. *)
Fixpoint get_link_speed_wait (fuel : nat) (E : collaborators)
    (i : cy_ecm_interface_t) (n : nat) (total_wait_time : Z)
    : option (option (Z * Z) * list event) :=
  if bool_decide (total_wait_time < MAX_WAIT_ETHERNET_PHY_STATUS) then
    match fuel with
    | O => None
    | S fuel' =>
        let '(r, link_status) := on_phy_get_linkstatus E n i in
        let again (tr0 : list event) :=
          '(out, tr) ←
            get_link_speed_wait fuel' E i (S n)
              (wrap32 (total_wait_time + WAIT_CHECK_ETHERNET_PHY_STATUS));
          Some (out,
                tr0 ++ Ev_cy_rtos_delay_milliseconds WAIT_CHECK_ETHERNET_PHY_STATUS
                    :: tr) in
        if succeeded r && bool_decide (link_status = 1) then
          let '(r2, mode, phy_speed) := on_phy_get_linkspeed E n i in
          if succeeded r2 then
            Some (Some (mode, phy_speed),
                  [Ev_phy_get_linkstatus i; Ev_phy_get_linkspeed i])
          else again [Ev_phy_get_linkstatus i; Ev_phy_get_linkspeed i]
        else again [Ev_phy_get_linkstatus i]
    end
  else Some (None, []).

(** [duplex] and [speed] are the caller's variables; the result carries
    their contents after the call. *)
Definition cy_ecm_get_link_speed (fuel : nat) (E : collaborators)
    (g : globals) (ecm_handle : option cy_ecm_object_t)
    (duplex speed : option Z)
    : option (cy_rslt_t * option Z * option Z * list event) :=
  match ecm_handle, duplex, speed with
  | Some ecm_obj, Some _, Some _ =>
      if negb (is_ecm_initialized g)
      then Some (CY_RSLT_MODULE_ECM_NOT_INITIALIZED, duplex, speed, [])
      else if negb (succeeded (on_cy_rtos_get_mutex E))
      then Some (CY_RSLT_ECM_MUTEX_ERROR, duplex, speed, [Ev_cy_rtos_get_mutex])
      else
        '(out, tr) ← get_link_speed_wait fuel E (eth_idx ecm_obj) 0 0;
        match out with
        | Some (mode, phy_speed) =>
            Some (release E CY_RSLT_SUCCESS, Some mode, Some phy_speed,
                  Ev_cy_rtos_get_mutex :: tr ++ [Ev_cy_rtos_set_mutex])
        | None =>
            Some (release E CY_RSLT_ECM_ERROR, duplex, speed,
                  Ev_cy_rtos_get_mutex :: tr ++ [Ev_cy_rtos_set_mutex])
        end
  | _, _, _ => Some (CY_RSLT_MODULE_ECM_BADARG, duplex, speed, [])
  end.

(** ** cy_ecm_connect *)

(** [a->ip.v4] *)
Definition v4 (a : cy_ecm_ip_address_t) : Z := default 0 (ip a !! 0%nat).

Definition set_iface_context (o : cy_ecm_object_t)
    (c : option cy_network_interface_context) : cy_ecm_object_t :=
  {| eth_idx := eth_idx o;
     eth_base_type := eth_base_type o;
     iface_context := c;
     eth_phy_cb := eth_phy_cb o;
     isobjinitialized := isobjinitialized o;
     network_up := network_up o;
     mac_address := mac_address o |}.

Definition set_network_up (o : cy_ecm_object_t) (b : bool) : cy_ecm_object_t :=
  {| eth_idx := eth_idx o;
     eth_base_type := eth_base_type o;
     iface_context := iface_context o;
     eth_phy_cb := eth_phy_cb o;
     isobjinitialized := isobjinitialized o;
     network_up := b;
     mac_address := mac_address o |}.

(** The link wait of [cy_ecm_connect], entered with [n] polls done; it
    yields [total_wait_time] and [result] as they are when the loop is
    left. *)
Fixpoint connect_link_wait (fuel : nat) (E : collaborators)
    (i : cy_ecm_interface_t) (n : nat) (total_wait_time : Z)
    (result : cy_rslt_t) : option (Z * cy_rslt_t * list event) :=
  if bool_decide (total_wait_time < MAX_WAIT_ETHERNET_PHY_STATUS) then
    match fuel with
    | O => None
    | S fuel' =>
        let '(r, linkstatus) := on_phy_get_linkstatus E n i in
        if succeeded r && bool_decide (linkstatus = 1) then
          Some (total_wait_time, r, [Ev_phy_get_linkstatus i])
        else
          '(t, r', tr) ←
            connect_link_wait fuel' E i (S n)
              (wrap32 (total_wait_time + WAIT_CHECK_ETHERNET_PHY_STATUS)) r;
          Some (t, r',
                Ev_phy_get_linkstatus i
                  :: Ev_cy_rtos_delay_milliseconds WAIT_CHECK_ETHERNET_PHY_STATUS
                  :: tr)
    end
  else Some (total_wait_time, result, []).

(** The address wait of [cy_ecm_connect], a [while ( true )] whose only way
    out is the [break] after a successful address query.  It yields
    [total_wait_time], the result of the last query and the caller's
    [ip_addr]. *)
Fixpoint connect_dhcp_wait (fuel : nat) (cfg : platform) (E : collaborators)
    (n : nat) (total_wait_time : Z) (ip_addr : option cy_ecm_ip_address_t)
    : option (Z * cy_rslt_t * option cy_ecm_ip_address_t * list event) :=
  match fuel with
  | O => None
  | S fuel' =>
      let '(r, ipv4_addr) := on_cy_network_get_ip_address E n in
      if succeeded r then
        Some (total_wait_time, r,
              (fun a => set_v4 a (CY_ECM_IP_VER_V4 cfg) ipv4_addr) <$> ip_addr,
              [Ev_cy_network_get_ip_address])
      else
        '(t, r', a, tr) ←
          connect_dhcp_wait fuel' cfg E (S n)
            (wrap32 (total_wait_time + RETRY_WAIT_TIME_GET_IP_ADDR)) ip_addr;
        Some (t, r', a,
              Ev_cy_network_get_ip_address
                :: Ev_cy_rtos_delay_milliseconds RETRY_WAIT_TIME_GET_IP_ADDR
                :: tr)
  end.

(** What a call of [cy_ecm_connect] leaves behind. *)
Record connect_outcome : Type := {
  co_result : cy_rslt_t;
  co_globals : globals;
  co_object : cy_ecm_object_t;
  co_ip_addr : option cy_ecm_ip_address_t;
  co_trace : list event
}.

(** From the IP bring-up to the [exit] label. *)
Definition connect_ip_up (fuel : nat) (cfg : platform) (E : collaborators)
    (g : globals) (ecm_obj : cy_ecm_object_t)
    (ip_addr : option cy_ecm_ip_address_t) (tr0 : list event)
    : option connect_outcome :=
  let result := on_cy_network_ip_up E in
  if negb (succeeded result) then
    let result :=
      if bool_decide (result = CY_RSLT_NETWORK_ERROR_STARTING_DHCP)
      then CY_RSLT_MODULE_ECM_ERROR_STARTING_DHCP
      else if bool_decide (result = CY_RSLT_NETWORK_DHCP_WAIT_TIMEOUT)
      then CY_RSLT_ECM_DHCP_TIMEOUT
      else result in
    Some {| co_result := result; co_globals := g; co_object := ecm_obj;
            co_ip_addr := ip_addr;
            co_trace := tr0 ++ [Ev_cy_network_ip_up;
                                Ev_cy_network_remove_nw_interface] |}
  else
    '(total_wait_time, result, ip_addr', tr) ←
      connect_dhcp_wait fuel cfg E 0 0 ip_addr;
    if bool_decide (total_wait_time > DHCP_TIMEOUT_COUNT) then
      Some {| co_result := CY_RSLT_ECM_DHCP_TIMEOUT; co_globals := g;
              co_object := ecm_obj; co_ip_addr := ip_addr';
              co_trace := tr0 ++ Ev_cy_network_ip_up :: tr
                            ++ [Ev_cy_network_ip_down;
                                Ev_cy_network_remove_nw_interface] |}
    else
      Some {| co_result := result; co_globals := g;
              co_object := set_network_up ecm_obj true; co_ip_addr := ip_addr';
              co_trace := tr0 ++ Ev_cy_network_ip_up :: tr |}.

(** From the attachment to the network stack to the [exit] label;
    [static_ipaddr] is NULL or the address, netmask and gateway words. *)
Definition connect_attach (fuel : nat) (cfg : platform) (E : collaborators)
    (g : globals) (ecm_obj : cy_ecm_object_t)
    (static_ipaddr : option (Z * Z * Z))
    (ip_addr : option cy_ecm_ip_address_t) : option connect_outcome :=
  let stop (result : cy_rslt_t) (o : cy_ecm_object_t) (tr : list event) :=
    Some {| co_result := result; co_globals := g; co_object := o;
            co_ip_addr := ip_addr; co_trace := tr |} in
  let add := Ev_cy_network_add_nw_interface (eth_idx ecm_obj) static_ipaddr in
  let '(result, ctx) := on_cy_network_add_nw_interface E in
  let ecm_obj := set_iface_context ecm_obj ctx in
  if negb (succeeded result) then
    stop CY_RSLT_ECM_INTERFACE_ERROR ecm_obj [add]
  else
    let tr0 := [add; Ev_cy_network_register_ip_change_cb true] in
    if negb (flag (is_ethernet_link_up g) (eth_idx ecm_obj)) then
      '(total_wait_time, result, tr) ←
        connect_link_wait fuel E (eth_idx ecm_obj) 0 0 result;
      if bool_decide (total_wait_time >= MAX_WAIT_ETHERNET_PHY_STATUS) then
        stop CY_RSLT_ECM_ERROR ecm_obj (tr0 ++ tr)
      else
        connect_ip_up fuel cfg E
          (set_is_ethernet_link_up g
             (<[idx (eth_idx ecm_obj) := true]> (is_ethernet_link_up g)))
          ecm_obj ip_addr (tr0 ++ tr)
    else connect_ip_up fuel cfg E g ecm_obj ip_addr tr0.

(** From the check of [isobjinitialized] to the [exit] label, with the
    global mutex held. *)
Definition connect_locked (fuel : nat) (cfg : platform) (E : collaborators)
    (g : globals) (ecm_obj : cy_ecm_object_t)
    (ecm_static_ip_addr : option cy_ecm_ip_setting_t)
    (ip_addr : option cy_ecm_ip_address_t) : option connect_outcome :=
  let stop (result : cy_rslt_t) :=
    Some {| co_result := result; co_globals := g; co_object := ecm_obj;
            co_ip_addr := ip_addr; co_trace := [] |} in
  if negb (isobjinitialized ecm_obj) then
    stop CY_RSLT_MODULE_ECM_NOT_INITIALIZED
  else if network_up ecm_obj then
    stop CY_RSLT_MODULE_ECM_ALREADY_CONNECTED
  else
    match ecm_static_ip_addr with
    | Some s =>
        if bool_decide (version (gateway s) = CY_ECM_IP_VER_V4 cfg) then
          connect_attach fuel cfg E g ecm_obj
            (Some (v4 (ip_address s), v4 (netmask s), v4 (gateway s))) ip_addr
        else stop CY_RSLT_ECM_STATIC_IP_NOT_SUPPORTED
    | None => connect_attach fuel cfg E g ecm_obj None ip_addr
    end.

(** [ecm_handle] is the object behind the handle ([None] for NULL);
    [ecm_static_ip_addr] and [ip_addr] are the caller's structures.  [None]
    as a result means that the call has not returned within [fuel] turns of
    its wait loops. *)
Definition cy_ecm_connect (fuel : nat) (cfg : platform) (E : collaborators)
    (g : globals) (ecm_handle : option cy_ecm_object_t)
    (ecm_static_ip_addr : option cy_ecm_ip_setting_t)
    (ip_addr : option cy_ecm_ip_address_t)
    : option (cy_rslt_t * globals * option cy_ecm_object_t
              * option cy_ecm_ip_address_t * list event) :=
  match ecm_handle with
  | None => Some (CY_RSLT_MODULE_ECM_BADARG, g, None, ip_addr, [])
  | Some ecm_obj =>
      if negb (is_ecm_initialized g)
      then Some (CY_RSLT_MODULE_ECM_NOT_INITIALIZED, g, ecm_handle, ip_addr, [])
      else if negb (succeeded (on_cy_rtos_get_mutex E))
      then Some (CY_RSLT_ECM_MUTEX_ERROR, g, ecm_handle, ip_addr,
                 [Ev_cy_rtos_get_mutex])
      else
        co ← connect_locked fuel cfg E g ecm_obj ecm_static_ip_addr ip_addr;
        (* exit: *)
        Some (release E (co_result co), co_globals co, Some (co_object co),
              co_ip_addr co,
              Ev_cy_rtos_get_mutex :: co_trace co ++ [Ev_cy_rtos_set_mutex])
  end.

(** ** cy_ecm_ethif_init *)

(** What the caller's [cy_ecm_t] holds after [cy_ecm_ethif_init]. *)
Inductive handle_slot : Type :=
  | slot_unchanged
  | slot_object (o : cy_ecm_object_t)
  | slot_dangling.

Definition all_phy_callbacks_present (cb : cy_ecm_phy_callbacks_t) : bool :=
  negb (bool_decide (phy_init cb = None) || bool_decide (phy_configure cb = None)
        || bool_decide (phy_discover cb = None)
        || bool_decide (phy_enable_ext_reg cb = None)
        || bool_decide (phy_get_auto_neg_status cb = None)
        || bool_decide (phy_get_link_partner_cap cb = None)
        || bool_decide (phy_get_linkspeed cb = None)
        || bool_decide (phy_get_linkstatus cb = None)
        || bool_decide (phy_reset cb = None)).

(** The macro [ETH_INTERFACE_TYPE] of eth_internal.h, read right after
    [eth_index_internal = eth_idx]. *)
Definition ETH_INTERFACE_TYPE (cfg : platform) (eth_index_internal : cy_ecm_interface_t)
    : ETH_Type :=
  if bool_decide (CY_IP_MXETH_INSTANCES cfg > 1) then
    if bool_decide (eth_index_internal = CY_ECM_INTERFACE_ETH1) then ETH1 else ETH0
  else ETH0.

(** The MAC address of the configurator for an enabled interface, over the
    zeroes left by the [memset]. *)
Definition configured_mac (cfg : platform) (i : cy_ecm_interface_t) : list Z :=
  let zero := [0; 0; 0; 0; 0; 0] in
  let m1 :=
    if bool_decide (i = CY_ECM_INTERFACE_ETH1) && eth_1_ENABLED cfg
    then eth_1_MAC_ADDR cfg else zero in
  if bool_decide (i = CY_ECM_INTERFACE_ETH0) && eth_0_ENABLED cfg
  then eth_0_MAC_ADDR cfg else m1.

(** The promiscuous and broadcast settings compiled in for the enabled
    interfaces. *)
Definition configured_modes (cfg : platform) (base : ETH_Type) : list event :=
  (if eth_0_ENABLED cfg then
     (if eth_0_PROMISCUOUS_MODE cfg
      then [Ev_Cy_ETHIF_SetPromiscuousMode base true] else [])
     ++ (if negb (eth_0_ACCEPT_BROADCASR_FRAMES cfg)
         then [Ev_Cy_ETHIF_SetNoBroadCast base true] else [])
   else [])
  ++ (if eth_1_ENABLED cfg then
        (if eth_1_PROMISCUOUS_MODE cfg
         then [Ev_Cy_ETHIF_SetPromiscuousMode base true] else [])
        ++ (if negb (eth_1_ACCEPT_BROADCASR_FRAMES cfg)
            then [Ev_Cy_ETHIF_SetNoBroadCast base true] else [])
      else []).

(** The [exit] label of [cy_ecm_ethif_init]: the object, when allocated, is
    freed, after its mutex when that was created; the global mutex is
    released.  Nothing else is undone here. *)
Definition ethif_init_exit (E : collaborators) (result : cy_rslt_t)
    (ecm_obj_allocated obj_mutex_init_status : bool) : cy_rslt_t * list event :=
  (release E result,
   (if ecm_obj_allocated then
      (if obj_mutex_init_status then [Ev_obj_mutex_deinit] else []) ++ [Ev_free]
    else [])
   ++ [Ev_cy_rtos_set_mutex]).

(** From the check of [is_ethernet_initiated] to either return, with the
    global mutex held. *)
Definition ethif_init_locked (cfg : platform) (E : collaborators) (g : globals)
    (eth_idx : cy_ecm_interface_t) (phy_callbacks : cy_ecm_phy_callbacks_t)
    : cy_rslt_t * globals * handle_slot * list event :=
  if flag (is_ethernet_initiated g) eth_idx then
    let '(result, tr) := ethif_init_exit E CY_RSLT_ECM_INIT_ERROR false false in
    (result, g, slot_unchanged, tr)
  else if negb (on_malloc E) then
    let '(result, tr) := ethif_init_exit E CY_RSLT_ECM_ERROR_NOMEM false false in
    (result, g, slot_unchanged, Ev_malloc :: tr)
  else if negb (succeeded (on_obj_mutex_init E)) then
    let '(result, tr) := ethif_init_exit E CY_RSLT_ECM_MUTEX_ERROR true false in
    (result, g, slot_unchanged, Ev_malloc :: Ev_obj_mutex_init :: tr)
  else
    let ecm_obj :=
      {| eth_idx := eth_idx;
         eth_base_type := ETH_INTERFACE_TYPE cfg eth_idx;
         iface_context := None;
         eth_phy_cb := phy_callbacks;
         isobjinitialized := true;
         network_up := false;
         mac_address := configured_mac cfg eth_idx |} in
    let tr1 :=
      [Ev_malloc; Ev_obj_mutex_init; Ev_cyhal_syspm_lock_deepsleep;
       Ev_cy_eth_driver_initialization eth_idx] in
    if negb (succeeded (on_cy_eth_driver_initialization E)) then
      let '(result, tr) := ethif_init_exit E CY_RSLT_ECM_ERROR true true in
      (result, g, slot_dangling,
       tr1 ++ Ev_cyhal_syspm_unlock_deepsleep :: tr)
    else
      let g1 :=
        set_is_ethernet_initiated g
          (<[idx eth_idx := true]> (is_ethernet_initiated g)) in
      let tr2 :=
        tr1 ++ configured_modes cfg (eth_base_type ecm_obj)
            ++ [Ev_cyhal_syspm_unlock_deepsleep] in
      if bool_decide (is_ecm_thread_created g1 = 0)
         && negb (succeeded (on_cy_rtos_create_thread E)) then
        let '(result, tr) := ethif_init_exit E CY_RSLT_ECM_ERROR true true in
        (result, g1, slot_dangling, tr2 ++ Ev_cy_rtos_create_thread :: tr)
      else
        let started := bool_decide (is_ecm_thread_created g1 = 0) in
        let g2 := if started then set_ecm_event_thread g1 true else g1 in
        let g3 :=
          set_is_ecm_thread_created g2 (wrap8 (is_ecm_thread_created g2 + 1)) in
        (release E CY_RSLT_SUCCESS, g3, slot_object ecm_obj,
         tr2 ++ (if started then [Ev_cy_rtos_create_thread] else [])
             ++ [Ev_cy_rtos_set_mutex]).

(** [ecm_handle] is the address of the caller's [cy_ecm_t] ([None] for
    NULL), [phy_callbacks] the caller's table ([None] for NULL). *)
Definition cy_ecm_ethif_init (cfg : platform) (E : collaborators) (g : globals)
    (eth_idx : cy_ecm_interface_t)
    (phy_callbacks : option cy_ecm_phy_callbacks_t) (ecm_handle : option unit)
    : cy_rslt_t * globals * handle_slot * list event :=
  let badarg := (CY_RSLT_MODULE_ECM_BADARG, g, slot_unchanged, []) in
  if bool_decide (ecm_handle = None)
     || bool_decide (eth_idx = CY_ECM_INTERFACE_INVALID) then badarg
  else if negb (if bool_decide (eth_idx = CY_ECM_INTERFACE_ETH1)
                then eth_1_ENABLED cfg else eth_0_ENABLED cfg) then badarg
  else
    match phy_callbacks with
    | None => badarg
    | Some cb =>
        if negb (all_phy_callbacks_present cb) then badarg
        else if negb (is_ecm_initialized g)
        then (CY_RSLT_MODULE_ECM_NOT_INITIALIZED, g, slot_unchanged, [])
        else if negb (succeeded (on_cy_rtos_get_mutex E))
        then (CY_RSLT_ECM_MUTEX_ERROR, g, slot_unchanged, [Ev_cy_rtos_get_mutex])
        else
          let '(result, g', slot, tr) := ethif_init_locked cfg E g eth_idx cb in
          (result, g', slot, Ev_cy_rtos_get_mutex :: tr)
    end.

(** * The remaining functions of cy_ecm.c *)

(** ** Further calls, answers and result codes *)

(** The calls that only the functions below make; [Ev e] is one of the
    calls listed before. *)
Inductive call : Type :=
  | Ev (e : event)
  | Ev_cy_rtos_terminate_thread
  | Ev_cy_rtos_join_thread
  | Ev_deregister_cb (base : ETH_Type)
  | Ev_Cy_ETHIF_SetFilterAddress (base : ETH_Type) (filter_num : Z)
      (typeFilter : Z) (filterAddr : list Z) (ignoreBytes : Z)
  | Ev_cy_network_get_gateway_ip_address
  | Ev_cy_network_get_netmask_address
  | Ev_cy_network_get_gateway_mac_address
  | Ev_cy_network_get_ipv6_address
  | Ev_cy_network_ping (timeout_ms : Z).

#[global] Instance call_eq_dec : EqDecision call.
Proof. solve_decision. Defined.

(** What the collaborators answer to those calls, where the code looks at
    the answer.  The [n]-th filter (from 0) of one call of
    [cy_ecm_set_filter_address] is accepted or not. *)
Record more_collaborators : Type := {
  on_Cy_ETHIF_SetFilterAddress : nat -> bool;
  on_cy_network_get_gateway_ip_address : cy_rslt_t * Z;
  on_cy_network_get_netmask_address : cy_rslt_t * Z;
  on_cy_network_get_gateway_mac_address : cy_rslt_t * list Z;
  on_cy_network_get_ipv6_address : cy_rslt_t * list Z;
  on_cy_network_ping : cy_rslt_t * Z
}.

(** The result codes that only the address queries and the ping return,
    beside the codes listed before. *)
Inductive ecm_rslt : Type :=
  | Rslt (r : cy_rslt_t)
  | CY_RSLT_ECM_GATEWAY_ADDR_ERROR
  | CY_RSLT_ECM_IPV6_GLOBAL_ADDRESS_NOT_SUPPORTED
  | CY_RSLT_ECM_IPV6_INTERFACE_NOT_READY
  | CY_RSLT_ECM_PING_FAILURE.

#[global] Instance ecm_rslt_eq_dec : EqDecision ecm_rslt.
Proof. solve_decision. Defined.

(** The release of the global mutex, for those codes. *)
Definition release_more (E : collaborators) (result : ecm_rslt) : ecm_rslt :=
  if succeeded (on_cy_rtos_set_mutex E) then result
  else Rslt CY_RSLT_ECM_MUTEX_ERROR.

(** ** cy_ecm_ethif_deinit *)

(** [ecm_handle] is the address of the caller's [cy_ecm_t]: [None] for a
    NULL address, [Some None] for a NULL handle, [Some (Some o)] for a
    handle with the object [o] behind it.  The third component of the
    result is the caller's handle after the call.  What the thread and
    object-mutex calls return is logged and dropped: [result] is
    overwritten by the release of the global mutex. *)
Definition cy_ecm_ethif_deinit (E : collaborators) (g : globals) (ecm_handle : option (option cy_ecm_object_t))
    : cy_rslt_t * globals * option (option cy_ecm_object_t) * list call :=
  match ecm_handle with
  | Some (Some ecm_obj) =>
      if negb (isobjinitialized ecm_obj)
      then (CY_RSLT_MODULE_ECM_NOT_INITIALIZED, g, ecm_handle, [])
      else if negb (succeeded (on_cy_rtos_get_mutex E))
      then (CY_RSLT_ECM_MUTEX_ERROR, g, ecm_handle, [Ev Ev_cy_rtos_get_mutex])
      else
        let g1 :=
          set_is_ecm_thread_created g (wrap8 (is_ecm_thread_created g - 1)) in
        let stop_thread :=
          bool_decide (is_ecm_thread_created g1 = 0) && ecm_event_thread g1 in
        let g2 := if stop_thread then set_ecm_event_thread g1 false else g1 in
        let g3 :=
          set_is_ethernet_initiated g2
            (<[idx (eth_idx ecm_obj) := false]> (is_ethernet_initiated g2)) in
        (release E CY_RSLT_SUCCESS, g3, Some None,
         Ev Ev_cy_rtos_get_mutex
           :: (if stop_thread
               then [Ev_cy_rtos_terminate_thread; Ev_cy_rtos_join_thread]
               else [])
           ++ [Ev Ev_obj_mutex_deinit; Ev_deregister_cb (eth_base_type ecm_obj);
               Ev Ev_free; Ev Ev_cy_rtos_set_mutex])
  | _ => (CY_RSLT_MODULE_ECM_BADARG, g, ecm_handle, [])
  end.

(** ** cy_ecm_set_promiscuous_mode, cy_ecm_broadcast_disable *)

(** The two functions differ in the one hardware call [hw] they make. *)
Definition hardware_setting (E : collaborators) (g : globals)
    (ecm_handle : option cy_ecm_object_t) (hw : ETH_Type -> event)
    : cy_rslt_t * list event :=
  match ecm_handle with
  | None => (CY_RSLT_MODULE_ECM_BADARG, [])
  | Some ecm_obj =>
      if negb (is_ecm_initialized g)
      then (CY_RSLT_MODULE_ECM_NOT_INITIALIZED, [])
      else if negb (succeeded (on_cy_rtos_get_mutex E))
      then (CY_RSLT_ECM_MUTEX_ERROR, [Ev_cy_rtos_get_mutex])
      else if negb (isobjinitialized ecm_obj)
              || negb (flag (is_ethernet_initiated g) (eth_idx ecm_obj))
      then (release E CY_RSLT_MODULE_ECM_NOT_INITIALIZED,
            [Ev_cy_rtos_get_mutex; Ev_cy_rtos_set_mutex])
      else (release E CY_RSLT_SUCCESS,
            [Ev_cy_rtos_get_mutex; hw (eth_base_type ecm_obj);
             Ev_cy_rtos_set_mutex])
  end.

Definition cy_ecm_set_promiscuous_mode (E : collaborators) (g : globals)
    (ecm_handle : option cy_ecm_object_t) (is_promiscuous_mode : bool)
    : cy_rslt_t * list event :=
  hardware_setting E g ecm_handle
    (fun base => Ev_Cy_ETHIF_SetPromiscuousMode base is_promiscuous_mode).

Definition cy_ecm_broadcast_disable (E : collaborators) (g : globals)
    (ecm_handle : option cy_ecm_object_t) (is_broadcast_disable : bool)
    : cy_rslt_t * list event :=
  hardware_setting E g ecm_handle
    (fun base => Ev_Cy_ETHIF_SetNoBroadCast base is_broadcast_disable).

(** ** cy_ecm_set_filter_address *)

(** [cy_ecm_filter_address_t] *)
Record cy_ecm_filter_address_t : Type := {
  filter_type : Z;
  filter_addr : list Z;
  ignoreBytes : Z
}.

(** The loop over the entries, at entry [i] with [n] entries to go.  Each
    entry gives its type and address to filter number [i + 1]; the ignore
    mask is read through [filter_address->ignoreBytes], that is from entry
    0, for every filter.  The loop stops at the first filter the hardware
    refuses.  [None] stands for a read past the end of the caller's array. *)
Fixpoint set_filter_loop (M : more_collaborators) (base : ETH_Type)
    (filter_address : list cy_ecm_filter_address_t) (n : nat) (i : nat)
    : option (cy_rslt_t * list call) :=
  match n with
  | O => Some (CY_RSLT_SUCCESS, [])
  | S n' =>
      entry ← filter_address !! i;
      first ← filter_address !! 0%nat;
      let set :=
        Ev_Cy_ETHIF_SetFilterAddress base (Z.of_nat i + 1) (filter_type entry)
          (filter_addr entry) (ignoreBytes first) in
      if negb (on_Cy_ETHIF_SetFilterAddress M i)
      then Some (CY_RSLT_ECM_ERROR, [set])
      else
        '(result, tr) ← set_filter_loop M base filter_address n' (S i);
        Some (result, set :: tr)
  end.

(** [filter_address] is the caller's array ([None] for NULL) and
    [filter_address_count] the value of the [uint8_t] parameter, a number
    from 0 to 255: what the function sees after the conversion of the
    caller's argument, which happens at the call and is not part of the
    function.  [CY_ECM_MAX_FILTER_ADDRESS] is the bound of cy_ecm.h. *)
Definition cy_ecm_set_filter_address (CY_ECM_MAX_FILTER_ADDRESS : Z)
    (E : collaborators) (M : more_collaborators) (g : globals)
    (ecm_handle : option cy_ecm_object_t)
    (filter_address : option (list cy_ecm_filter_address_t))
    (filter_address_count : Z) : option (cy_rslt_t * list call) :=
  match ecm_handle, filter_address with
  | Some ecm_obj, Some entries =>
      if bool_decide (filter_address_count = 0)
         || bool_decide (filter_address_count > CY_ECM_MAX_FILTER_ADDRESS)
      then Some (CY_RSLT_MODULE_ECM_BADARG, [])
      else if negb (is_ecm_initialized g)
      then Some (CY_RSLT_MODULE_ECM_NOT_INITIALIZED, [])
      else if negb (succeeded (on_cy_rtos_get_mutex E))
      then Some (CY_RSLT_ECM_MUTEX_ERROR, [Ev Ev_cy_rtos_get_mutex])
      else if negb (isobjinitialized ecm_obj)
              || negb (flag (is_ethernet_initiated g) (eth_idx ecm_obj))
      then Some (release E CY_RSLT_MODULE_ECM_NOT_INITIALIZED,
                 [Ev Ev_cy_rtos_get_mutex; Ev Ev_cy_rtos_set_mutex])
      else
        '(result, tr) ←
          set_filter_loop M (eth_base_type ecm_obj) entries
            (Z.to_nat filter_address_count) 0;
        Some (release E result,
              Ev Ev_cy_rtos_get_mutex :: tr ++ [Ev Ev_cy_rtos_set_mutex])
  | _, _ => Some (CY_RSLT_MODULE_ECM_BADARG, [])
  end.

(** ** cy_ecm_disconnect *)

(** No static is written; the second component of the result is the object
    behind the handle after the call. *)
Definition cy_ecm_disconnect (E : collaborators) (g : globals)
    (ecm_handle : option cy_ecm_object_t)
    : cy_rslt_t * option cy_ecm_object_t * list event :=
  match ecm_handle with
  | None => (CY_RSLT_MODULE_ECM_BADARG, None, [])
  | Some ecm_obj =>
      if negb (is_ecm_initialized g)
      then (CY_RSLT_MODULE_ECM_NOT_INITIALIZED, ecm_handle, [])
      else if negb (succeeded (on_cy_rtos_get_mutex E))
      then (CY_RSLT_ECM_MUTEX_ERROR, ecm_handle, [Ev_cy_rtos_get_mutex])
      else if negb (isobjinitialized ecm_obj)
      then (release E CY_RSLT_MODULE_ECM_NOT_INITIALIZED, ecm_handle,
            [Ev_cy_rtos_get_mutex; Ev_cy_rtos_set_mutex])
      else if negb (network_up ecm_obj)
      then (release E CY_RSLT_MODULE_ECM_NOT_CONNECTED, ecm_handle,
            [Ev_cy_rtos_get_mutex; Ev_cy_rtos_set_mutex])
      else
        (release E CY_RSLT_SUCCESS, Some (set_network_up ecm_obj false),
         [Ev_cy_rtos_get_mutex; Ev_cy_network_register_ip_change_cb false;
          Ev_cy_network_ip_down; Ev_cy_network_remove_nw_interface;
          Ev_cy_rtos_set_mutex])
  end.

(** ** ip_change_callback *)

(** The callback the network stack runs on an address change: the event
    data handed to the subscribers ([None] when nothing is dispatched) and
    the calls made. *)
Definition ip_change_callback (cfg : platform) (E : collaborators) (g : globals)
    : option cy_ecm_ip_address_t * list event :=
  let '(res, ipv4_addr) := on_cy_network_get_ip_address E 0%nat in
  if succeeded res then
    (Some (set_v4 zeroed_ip_address (CY_ECM_IP_VER_V4 cfg) ipv4_addr),
     Ev_cy_network_get_ip_address
       :: invoke_app_callbacks (ecm_event_handler g) CY_ECM_EVENT_IP_CHANGED)
  else (None, [Ev_cy_network_get_ip_address]).


(** ** cy_ecm_get_gateway_address, cy_ecm_get_netmask_address *)

(** The two functions differ in the query they make: [answer] is what the
    network stack returns to it and [query] the call itself.  Both report a
    failed query as CY_RSLT_ECM_GATEWAY_ADDR_ERROR. *)
Definition v4_address_query (cfg : platform) (E : collaborators) (g : globals)
    (ecm_handle : option cy_ecm_object_t) (addr : option cy_ecm_ip_address_t)
    (answer : cy_rslt_t * Z) (query : call)
    : ecm_rslt * option cy_ecm_ip_address_t * list call :=
  match ecm_handle, addr with
  | Some ecm_obj, Some a =>
      if negb (is_ecm_initialized g)
      then (Rslt CY_RSLT_MODULE_ECM_NOT_INITIALIZED, addr, [])
      else if negb (succeeded (on_cy_rtos_get_mutex E))
      then (Rslt CY_RSLT_ECM_MUTEX_ERROR, addr, [Ev Ev_cy_rtos_get_mutex])
      else if negb (network_up ecm_obj) then
        (release_more E (Rslt CY_RSLT_MODULE_ECM_NOT_CONNECTED),
         Some zeroed_ip_address,
         [Ev Ev_cy_rtos_get_mutex; Ev Ev_cy_rtos_set_mutex])
      else
        let '(result, ipv4_addr) := answer in
        if negb (succeeded result) then
          (release_more E CY_RSLT_ECM_GATEWAY_ADDR_ERROR, addr,
           [Ev Ev_cy_rtos_get_mutex; query; Ev Ev_cy_rtos_set_mutex])
        else
          (release_more E (Rslt result),
           Some (set_v4 a (CY_ECM_IP_VER_V4 cfg) ipv4_addr),
           [Ev Ev_cy_rtos_get_mutex; query; Ev Ev_cy_rtos_set_mutex])
  | _, _ => (Rslt CY_RSLT_MODULE_ECM_BADARG, addr, [])
  end.

Definition cy_ecm_get_gateway_address (cfg : platform) (E : collaborators)
    (M : more_collaborators) (g : globals)
    (ecm_handle : option cy_ecm_object_t)
    (gateway_addr : option cy_ecm_ip_address_t)
    : ecm_rslt * option cy_ecm_ip_address_t * list call :=
  v4_address_query cfg E g ecm_handle gateway_addr
    (on_cy_network_get_gateway_ip_address M) Ev_cy_network_get_gateway_ip_address.

Definition cy_ecm_get_netmask_address (cfg : platform) (E : collaborators)
    (M : more_collaborators) (g : globals)
    (ecm_handle : option cy_ecm_object_t)
    (net_mask_addr : option cy_ecm_ip_address_t)
    : ecm_rslt * option cy_ecm_ip_address_t * list call :=
  v4_address_query cfg E g ecm_handle net_mask_addr
    (on_cy_network_get_netmask_address M) Ev_cy_network_get_netmask_address.

(** ** cy_ecm_get_mac_address *)

(** [mac_addr] is the caller's six bytes.  A failed acquisition of the
    global mutex goes to the [exit] label here, so the mutex is released
    all the same. *)
Definition cy_ecm_get_mac_address (E : collaborators) (M : more_collaborators)
    (g : globals) (ecm_handle : option cy_ecm_object_t)
    (mac_addr : option (list Z)) : ecm_rslt * option (list Z) * list call :=
  match ecm_handle, mac_addr with
  | Some ecm_obj, Some _ =>
      if negb (is_ecm_initialized g)
      then (Rslt CY_RSLT_MODULE_ECM_NOT_INITIALIZED, mac_addr, [])
      else if negb (succeeded (on_cy_rtos_get_mutex E)) then
        (release_more E (Rslt CY_RSLT_ECM_MUTEX_ERROR), mac_addr,
         [Ev Ev_cy_rtos_get_mutex; Ev Ev_cy_rtos_set_mutex])
      else if negb (network_up ecm_obj) then
        (release_more E (Rslt CY_RSLT_MODULE_ECM_NOT_CONNECTED),
         Some [0; 0; 0; 0; 0; 0],
         [Ev Ev_cy_rtos_get_mutex; Ev Ev_cy_rtos_set_mutex])
      else
        let '(result, nw_mac_addr) := on_cy_network_get_gateway_mac_address M in
        if negb (succeeded result) then
          (release_more E CY_RSLT_ECM_GATEWAY_ADDR_ERROR, mac_addr,
           [Ev Ev_cy_rtos_get_mutex; Ev_cy_network_get_gateway_mac_address;
            Ev Ev_cy_rtos_set_mutex])
        else
          (release_more E (Rslt result), Some (take 6 nw_mac_addr),
           [Ev Ev_cy_rtos_get_mutex; Ev_cy_network_get_gateway_mac_address;
            Ev Ev_cy_rtos_set_mutex])
  | _, _ => (Rslt CY_RSLT_MODULE_ECM_BADARG, mac_addr, [])
  end.

(** ** cy_ecm_get_ipv6_address *)

(** [cy_ecm_ipv6_type_t] *)
Inductive cy_ecm_ipv6_type_t : Type :=
  | CY_ECM_IPV6_LINK_LOCAL
  | CY_ECM_IPV6_GLOBAL.

(** [CY_ECM_IP_VER_V6] is the enum value of cy_ecm.h.  A failed query
    zeroes the caller's structure. *)
Definition cy_ecm_get_ipv6_address (CY_ECM_IP_VER_V6 : Z) (E : collaborators)
    (M : more_collaborators) (g : globals)
    (ecm_handle : option cy_ecm_object_t) (ipv6_addr_type : cy_ecm_ipv6_type_t)
    (ip_addr : option cy_ecm_ip_address_t)
    : ecm_rslt * option cy_ecm_ip_address_t * list call :=
  match ecm_handle, ip_addr with
  | Some ecm_obj, Some _ =>
      if negb (is_ecm_initialized g)
      then (Rslt CY_RSLT_MODULE_ECM_NOT_INITIALIZED, ip_addr, [])
      else
        match ipv6_addr_type with
        | CY_ECM_IPV6_GLOBAL =>
            (CY_RSLT_ECM_IPV6_GLOBAL_ADDRESS_NOT_SUPPORTED, ip_addr, [])
        | CY_ECM_IPV6_LINK_LOCAL =>
            if negb (succeeded (on_cy_rtos_get_mutex E))
            then (Rslt CY_RSLT_ECM_MUTEX_ERROR, ip_addr,
                  [Ev Ev_cy_rtos_get_mutex])
            else if negb (network_up ecm_obj) then
              (release_more E (Rslt CY_RSLT_MODULE_ECM_NOT_CONNECTED),
               Some zeroed_ip_address,
               [Ev Ev_cy_rtos_get_mutex; Ev Ev_cy_rtos_set_mutex])
            else
              let '(result, v6) := on_cy_network_get_ipv6_address M in
              if succeeded result then
                (release_more E (Rslt result),
                 Some {| version := CY_ECM_IP_VER_V6; ip := take 4 v6 |},
                 [Ev Ev_cy_rtos_get_mutex; Ev_cy_network_get_ipv6_address;
                  Ev Ev_cy_rtos_set_mutex])
              else
                (release_more E CY_RSLT_ECM_IPV6_INTERFACE_NOT_READY,
                 Some zeroed_ip_address,
                 [Ev Ev_cy_rtos_get_mutex; Ev_cy_network_get_ipv6_address;
                  Ev Ev_cy_rtos_set_mutex])
        end
  | _, _ => (Rslt CY_RSLT_MODULE_ECM_BADARG, ip_addr, [])
  end.

(** ** cy_ecm_ping *)

(** [address] and [elapsed_time_ms] are the caller's; the second component
    of the result is [*elapsed_time_ms] after the call. *)
Definition cy_ecm_ping (E : collaborators) (M : more_collaborators)
    (g : globals) (ecm_handle : option cy_ecm_object_t)
    (address : option cy_ecm_ip_address_t) (timeout_ms : Z)
    (elapsed_time_ms : option Z) : ecm_rslt * option Z * list call :=
  match ecm_handle, address, elapsed_time_ms with
  | Some ecm_obj, Some _, Some _ =>
      if negb (is_ecm_initialized g)
      then (Rslt CY_RSLT_MODULE_ECM_NOT_INITIALIZED, elapsed_time_ms, [])
      else if negb (succeeded (on_cy_rtos_get_mutex E))
      then (Rslt CY_RSLT_ECM_MUTEX_ERROR, elapsed_time_ms,
            [Ev Ev_cy_rtos_get_mutex])
      else if negb (network_up ecm_obj) then
        (release_more E (Rslt CY_RSLT_MODULE_ECM_NOT_CONNECTED), elapsed_time_ms,
         [Ev Ev_cy_rtos_get_mutex; Ev Ev_cy_rtos_set_mutex])
      else
        let '(result, elapsed) := on_cy_network_ping M in
        (release_more E
           (if succeeded result then Rslt result else CY_RSLT_ECM_PING_FAILURE),
         Some elapsed,
         [Ev Ev_cy_rtos_get_mutex; Ev_cy_network_ping timeout_ms;
          Ev Ev_cy_rtos_set_mutex])
  | _, _, _ => (Rslt CY_RSLT_MODULE_ECM_BADARG, elapsed_time_ms, [])
  end.

(** ** ecm_event_thread_func *)

(** The [while( true )] loop of the link-monitor thread over as many turns
    as [phys] has answers of the PHY, with no API call in between: the
    statics after the last turn and the calls of all turns. *)
Fixpoint ecm_event_thread_func
    (phys : list (cy_ecm_interface_t -> cy_rslt_t * Z)) (g : globals)
    : globals * list event :=
  match phys with
  | [] => (g, [])
  | phy :: rest =>
      let '(g1, tr1) := ecm_event_thread_iteration phy g in
      let '(g2, tr2) := ecm_event_thread_func rest g1 in
      (g2, tr1 ++ tr2)
  end.


(** * eth_internal.c *)

(** ** Header values, statics, calls and answers *)

(** The enum values of cy_ecm.h and of the Ethernet driver's header that
    eth_internal.c compares and casts, the reference clocks of the
    configurator and the two build switches the file tests. *)
Record driver_headers : Type := {
  CY_ECM_SPEED_TYPE_MII : Z;
  CY_ECM_SPEED_TYPE_GMII : Z;
  CY_ECM_SPEED_TYPE_RGMII : Z;
  CY_ECM_PHY_SPEED_10M : Z;
  CY_ECM_PHY_SPEED_100M : Z;
  CY_ECM_PHY_SPEED_1000M : Z;
  CY_ECM_PHY_SPEED_AUTO : Z;
  CY_ECM_DUPLEX_AUTO : Z;
  CY_ETHIF_CTL_MII_10 : Z;
  CY_ETHIF_CTL_MII_100 : Z;
  CY_ETHIF_CTL_GMII_1000 : Z;
  CY_ETHIF_CTL_RGMII_10 : Z;
  CY_ETHIF_CTL_RGMII_100 : Z;
  CY_ETHIF_CTL_RGMII_1000 : Z;
  CY_ETHIF_CTL_RMII_10 : Z;
  CY_ETHIF_CTL_RMII_100 : Z;
  eth_0_MAC_CLOCK : Z;
  eth_1_MAC_CLOCK : Z;
  CY_IP_M7CPUSS : bool;
  CYCFG_XMC7100_DEFINED : bool
}.

Definition SLEEP_ETHERNET_PHY_STATUS : Z := 1.

(** [cy_ecm_phy_config_t], with its enums as their values. *)
Record cy_ecm_phy_config_t : Type := {
  interface_speed_type : Z;
  phy_speed : Z;
  mode : Z
}.

Definition set_speed_and_mode (config : cy_ecm_phy_config_t) (speed duplex : Z)
    : cy_ecm_phy_config_t :=
  {| interface_speed_type := interface_speed_type config;
     phy_speed := speed;
     mode := duplex |}.

(** The statics of eth_internal.c that its functions write:
    [is_driver_configured], whether [stcInterruptCB.rxframecb] holds the
    receive callback (or NULL), and the three fields of [stcWrapperConfig].
    The buffer-pool pointers stored in [stcENETConfig] are the same
    constants in every call and are left out. *)
Record driver_statics : Type := {
  is_driver_configured : bool;
  rxframecb : bool;
  stcInterfaceSel : Z;
  bRefClockSource : Z;
  u8RefClkDiv : Z
}.

(** The statics at program start. *)
Definition initial_driver_statics : driver_statics :=
  {| is_driver_configured := false;
     rxframecb := true;
     stcInterfaceSel := 0;
     bRefClockSource := 0;
     u8RefClkDiv := 0 |}.

Definition set_is_driver_configured (s : driver_statics) (b : bool)
    : driver_statics :=
  {| is_driver_configured := b;
     rxframecb := rxframecb s;
     stcInterfaceSel := stcInterfaceSel s;
     bRefClockSource := bRefClockSource s;
     u8RefClkDiv := u8RefClkDiv s |}.

Definition set_rxframecb (s : driver_statics) (b : bool) : driver_statics :=
  {| is_driver_configured := is_driver_configured s;
     rxframecb := b;
     stcInterfaceSel := stcInterfaceSel s;
     bRefClockSource := bRefClockSource s;
     u8RefClkDiv := u8RefClkDiv s |}.

(** The calls of eth_internal.c; [Dv e] is one of the calls listed for
    cy_ecm.c.  The interrupt calls carry the interface whose configuration
    they use, [Ev_Cy_ETHIF_RegisterCallbacks] whether the receive callback
    is set in the table it passes. *)
Inductive driver_call : Type :=
  | Dv (e : event)
  | Ev_Cy_SysInt_Init (i : cy_ecm_interface_t) (queue : Z)
  | Ev_NVIC_EnableIRQ_intrSrc_Q0 (i : cy_ecm_interface_t)
  | Ev_NVIC_ClearPendingIRQ_INTRMUXNUMBER (i : cy_ecm_interface_t)
  | Ev_NVIC_EnableIRQ_INTRMUXNUMBER (i : cy_ecm_interface_t)
  | Ev_phy_init (i : cy_ecm_interface_t) (base : ETH_Type)
  | Ev_phy_configure (i : cy_ecm_interface_t) (duplex speed : Z)
  | Ev_phy_reset (i : cy_ecm_interface_t) (base : ETH_Type)
  | Ev_phy_discover (i : cy_ecm_interface_t)
  | Ev_phy_enable_ext_reg (base : ETH_Type) (speed : Z)
  | Ev_phy_get_auto_neg_status (i : cy_ecm_interface_t)
  | Ev_phy_get_link_partner_cap (i : cy_ecm_interface_t)
  | Ev_Cy_ETHIF_MdioInit (base : ETH_Type)
  | Ev_Cy_ETHIF_Init (base : ETH_Type)
  | Ev_Cy_ETHIF_RegisterCallbacks (base : ETH_Type) (rx : bool).

#[global] Instance driver_call_eq_dec : EqDecision driver_call.
Proof. solve_decision. Defined.

(** What the driver and the PHY answer where the code looks at it: whether
    the two initializations return CY_ETHIF_SUCCESS, the [n]-th answer (from
    0) to the auto-negotiation query with the value it stores in
    [neg_status], and the answer to the link-partner query with the duplex
    mode and the speed it stores.  Link status and link speed are answered
    as for cy_ecm.c. *)
Record driver_collaborators : Type := {
  on_Cy_ETHIF_MdioInit : bool;
  on_Cy_ETHIF_Init : bool;
  on_phy_get_auto_neg_status : nat -> cy_rslt_t * Z;
  on_phy_get_link_partner_cap : cy_rslt_t * Z * Z
}.

(** ** ecm_config_to_speed_sel, eth_clock_config *)

(** The first branch is the cast of [config->phy_speed] to the driver's
    enum. *)
Definition ecm_config_to_speed_sel (H : driver_headers)
    (config : cy_ecm_phy_config_t) : Z :=
  if bool_decide (interface_speed_type config = CY_ECM_SPEED_TYPE_MII H) then
    phy_speed config
  else if bool_decide (interface_speed_type config = CY_ECM_SPEED_TYPE_GMII H)
  then CY_ETHIF_CTL_GMII_1000 H
  else if bool_decide (interface_speed_type config = CY_ECM_SPEED_TYPE_RGMII H)
  then
    if bool_decide (phy_speed config = CY_ECM_PHY_SPEED_10M H)
    then CY_ETHIF_CTL_RGMII_10 H
    else if bool_decide (phy_speed config = CY_ECM_PHY_SPEED_100M H)
    then CY_ETHIF_CTL_RGMII_100 H
    else CY_ETHIF_CTL_RGMII_1000 H
  else
    if bool_decide (phy_speed config = CY_ECM_PHY_SPEED_10M H)
    then CY_ETHIF_CTL_RMII_10 H
    else CY_ETHIF_CTL_RMII_100 H.

Definition eth_clock_config (cfg : platform) (H : driver_headers)
    (s : driver_statics) (eth_idx : cy_ecm_interface_t) (speed_sel speed : Z)
    : driver_statics :=
  let agree (sel spd : Z) := bool_decide (speed_sel = sel) && bool_decide (speed = spd) in
  {| is_driver_configured := is_driver_configured s;
     rxframecb := rxframecb s;
     stcInterfaceSel :=
       if agree (CY_ETHIF_CTL_MII_10 H) (CY_ECM_PHY_SPEED_10M H)
       then CY_ETHIF_CTL_MII_10 H
       else if agree (CY_ETHIF_CTL_MII_100 H) (CY_ECM_PHY_SPEED_100M H)
       then CY_ETHIF_CTL_MII_100 H
       else if agree (CY_ETHIF_CTL_GMII_1000 H) (CY_ECM_PHY_SPEED_1000M H)
       then CY_ETHIF_CTL_GMII_1000 H
       else if agree (CY_ETHIF_CTL_RGMII_10 H) (CY_ECM_PHY_SPEED_10M H)
       then CY_ETHIF_CTL_RGMII_10 H
       else if agree (CY_ETHIF_CTL_RGMII_100 H) (CY_ECM_PHY_SPEED_100M H)
       then CY_ETHIF_CTL_RGMII_100 H
       else if agree (CY_ETHIF_CTL_RGMII_1000 H) (CY_ECM_PHY_SPEED_1000M H)
       then CY_ETHIF_CTL_RGMII_1000 H
       else if agree (CY_ETHIF_CTL_RMII_10 H) (CY_ECM_PHY_SPEED_10M H)
       then CY_ETHIF_CTL_RMII_10 H
       else if agree (CY_ETHIF_CTL_RMII_100 H) (CY_ECM_PHY_SPEED_100M H)
       then CY_ETHIF_CTL_RMII_100 H
       else CY_ETHIF_CTL_RGMII_1000 H;
     bRefClockSource :=
       if bool_decide (eth_idx = CY_ECM_INTERFACE_ETH0) then
         if eth_0_ENABLED cfg then eth_0_MAC_CLOCK H else bRefClockSource s
       else if bool_decide (eth_idx = CY_ECM_INTERFACE_ETH1) then
         if eth_1_ENABLED cfg then eth_1_MAC_CLOCK H else bRefClockSource s
       else bRefClockSource s;
     u8RefClkDiv :=
       if bool_decide (speed = CY_ECM_PHY_SPEED_10M H) then
         if CYCFG_XMC7100_DEFINED H then 1 else 10
       else 1 |}.

(** ** cy_eth_phy_initialization *)

(** [ecm_phy_config->phy_speed == CY_ECM_PHY_SPEED_AUTO ||
    ecm_phy_config->mode == CY_ECM_DUPLEX_AUTO], the test the function makes
    in three places. *)
Definition auto_negotiation_enabled (H : driver_headers)
    (config : cy_ecm_phy_config_t) : bool :=
  bool_decide (phy_speed config = CY_ECM_PHY_SPEED_AUTO H)
  || bool_decide (mode config = CY_ECM_DUPLEX_AUTO H).

(** The [do ... while( neg_status == 0 )] loop, entered with [n] queries
    done: a delay and a query per turn, left when the query fails or stores
    a status other than 0.  [None] means the fuel ran out first. *)
Fixpoint auto_negotiation_wait (fuel : nat) (D : driver_collaborators)
    (eth_idx : cy_ecm_interface_t) (n : nat) : option (list driver_call) :=
  match fuel with
  | O => None
  | S fuel' =>
      let '(result, neg_status) := on_phy_get_auto_neg_status D n in
      let turn := [Dv (Ev_cy_rtos_delay_milliseconds 100);
                   Ev_phy_get_auto_neg_status eth_idx] in
      if negb (succeeded result) then Some turn
      else if bool_decide (neg_status = 0) then
        tr ← auto_negotiation_wait fuel' D eth_idx (S n);
        Some (turn ++ tr)
      else Some turn
  end.

(** From [stcInterruptCB.rxframecb = cy_process_ethernet_data_cb] to the end
    of the function. *)
Definition phy_bring_up (s : driver_statics) (eth_idx : cy_ecm_interface_t)
    (reg_base : ETH_Type) (config : cy_ecm_phy_config_t)
    : driver_statics * list driver_call :=
  (set_rxframecb s true,
   [Ev_phy_reset eth_idx reg_base; Ev_phy_discover eth_idx;
    Ev_phy_configure eth_idx (mode config) (phy_speed config);
    Ev_phy_enable_ext_reg reg_base (phy_speed config)]).

(** The function is [void]: the two early returns, after a failed
    [Cy_ETHIF_MdioInit] and after a failed [Cy_ETHIF_Init], are not told to
    the caller.  The result is the statics, the caller's configuration as
    the function leaves it and the calls made. *)
Definition cy_eth_phy_initialization (fuel : nat) (cfg : platform)
    (H : driver_headers) (E : collaborators) (D : driver_collaborators)
    (s : driver_statics) (eth_idx : cy_ecm_interface_t) (reg_base : ETH_Type)
    (ecm_phy_config : cy_ecm_phy_config_t)
    : option (driver_statics * cy_ecm_phy_config_t * list driver_call) :=
  if is_driver_configured s then
    let '(config, tr1) :=
      if auto_negotiation_enabled H ecm_phy_config then
        let '(result, duplex, speed) := on_phy_get_linkspeed E 0%nat eth_idx in
        (if succeeded result
         then set_speed_and_mode ecm_phy_config speed duplex
         else ecm_phy_config,
         [Ev_phy_init eth_idx reg_base; Dv (Ev_phy_get_linkspeed eth_idx)])
      else (ecm_phy_config, [Ev_phy_init eth_idx reg_base]) in
    let '(s', tr2) := phy_bring_up s eth_idx reg_base config in
    Some (s', config, tr1 ++ tr2)
  else
    let configure (config : cy_ecm_phy_config_t) (tr1 : list driver_call) :=
      let speed_sel := ecm_config_to_speed_sel H config in
      let s1 := eth_clock_config cfg H s eth_idx speed_sel (phy_speed config) in
      if negb (on_Cy_ETHIF_Init D) then
        Some (s1, config, tr1 ++ [Ev_Cy_ETHIF_Init reg_base])
      else
        let tr2 :=
          if negb (auto_negotiation_enabled H config)
          then [Ev_phy_init eth_idx reg_base] else [] in
        let '(s2, tr3) :=
          phy_bring_up (set_is_driver_configured s1 true) eth_idx reg_base
            config in
        Some (s2, config, tr1 ++ Ev_Cy_ETHIF_Init reg_base :: tr2 ++ tr3) in
    if auto_negotiation_enabled H ecm_phy_config then
      if negb (on_Cy_ETHIF_MdioInit D) then
        Some (s, ecm_phy_config, [Ev_Cy_ETHIF_MdioInit reg_base])
      else
        tr ← auto_negotiation_wait fuel D eth_idx 0;
        let '(result, duplex, speed) := on_phy_get_link_partner_cap D in
        configure
          (if succeeded result
           then set_speed_and_mode ecm_phy_config speed duplex
           else ecm_phy_config)
          ([Ev_Cy_ETHIF_MdioInit reg_base; Ev_phy_init eth_idx reg_base;
            Ev_phy_configure eth_idx (CY_ECM_DUPLEX_AUTO H)
              (CY_ECM_PHY_SPEED_AUTO H);
            Dv (Ev_cy_rtos_delay_milliseconds 100)]
           ++ tr ++ [Ev_phy_get_link_partner_cap eth_idx])
    else configure ecm_phy_config [].

(** ** cy_eth_driver_initialization, deregister_cb *)

(** The interrupt set-up compiled in for the interface. *)
Definition interrupt_setup (cfg : platform) (H : driver_headers)
    (eth_idx : cy_ecm_interface_t) : list driver_call :=
  if bool_decide (eth_idx = CY_ECM_INTERFACE_ETH0) then
    if eth_0_ENABLED cfg then
      [Ev_Cy_SysInt_Init CY_ECM_INTERFACE_ETH0 0;
       Ev_Cy_SysInt_Init CY_ECM_INTERFACE_ETH0 1;
       Ev_Cy_SysInt_Init CY_ECM_INTERFACE_ETH0 2]
      ++ (if negb (CY_IP_M7CPUSS H) then
            [Ev_NVIC_EnableIRQ_intrSrc_Q0 CY_ECM_INTERFACE_ETH0;
             Ev_NVIC_EnableIRQ_intrSrc_Q0 CY_ECM_INTERFACE_ETH0;
             Ev_NVIC_EnableIRQ_intrSrc_Q0 CY_ECM_INTERFACE_ETH0]
          else
            [Ev_NVIC_ClearPendingIRQ_INTRMUXNUMBER CY_ECM_INTERFACE_ETH0;
             Ev_NVIC_EnableIRQ_INTRMUXNUMBER CY_ECM_INTERFACE_ETH0])
    else []
  else
    if eth_1_ENABLED cfg then
      [Ev_Cy_SysInt_Init CY_ECM_INTERFACE_ETH1 0;
       Ev_Cy_SysInt_Init CY_ECM_INTERFACE_ETH1 1;
       Ev_Cy_SysInt_Init CY_ECM_INTERFACE_ETH1 2;
       Ev_NVIC_ClearPendingIRQ_INTRMUXNUMBER CY_ECM_INTERFACE_ETH1;
       Ev_NVIC_EnableIRQ_INTRMUXNUMBER CY_ECM_INTERFACE_ETH1]
    else [].

(** The link wait, entered with [n] queries done; it yields [retry_count]
    and [result] as they are when the loop is left. *)
Fixpoint driver_link_wait (fuel : nat) (E : collaborators)
    (eth_idx : cy_ecm_interface_t) (n : nat) (retry_count : Z)
    (result : cy_rslt_t) : option (Z * cy_rslt_t * list driver_call) :=
  if bool_decide (retry_count < MAX_WAIT_ETHERNET_PHY_STATUS) then
    match fuel with
    | O => None
    | S fuel' =>
        let '(r, link_status) := on_phy_get_linkstatus E n eth_idx in
        if succeeded r && bool_decide (link_status = 1) then
          Some (retry_count, CY_RSLT_SUCCESS,
                [Dv (Ev_phy_get_linkstatus eth_idx)])
        else
          '(t, r', tr) ←
            driver_link_wait fuel' E eth_idx (S n)
              (wrap32 (retry_count + SLEEP_ETHERNET_PHY_STATUS)) r;
          Some (t, r',
                Dv (Ev_phy_get_linkstatus eth_idx)
                  :: Dv (Ev_cy_rtos_delay_milliseconds SLEEP_ETHERNET_PHY_STATUS)
                  :: tr)
    end
  else Some (retry_count, result, []).

(** [None] as a result means that the call has not returned within [fuel]
    turns of its wait loops. *)
Definition cy_eth_driver_initialization (fuel : nat) (cfg : platform)
    (H : driver_headers) (E : collaborators) (D : driver_collaborators)
    (s : driver_statics) (eth_idx : cy_ecm_interface_t) (reg_base : ETH_Type)
    (ecm_phy_config : cy_ecm_phy_config_t)
    : option (cy_rslt_t * driver_statics * cy_ecm_phy_config_t
              * list driver_call) :=
  '(s1, config, tr1) ←
    cy_eth_phy_initialization fuel cfg H E D s eth_idx reg_base ecm_phy_config;
  '(retry_count, result, tr2) ←
    driver_link_wait fuel E eth_idx 0 0 CY_RSLT_SUCCESS;
  let result :=
    if bool_decide (retry_count > MAX_WAIT_ETHERNET_PHY_STATUS)
    then CY_RSLT_ECM_ERROR else result in
  Some (result, s1, config,
        interrupt_setup cfg H eth_idx ++ tr1 ++ tr2
          ++ [Ev_Cy_ETHIF_RegisterCallbacks reg_base (rxframecb s1)]).

Definition deregister_cb (s : driver_statics) (reg_base : ETH_Type)
    : driver_statics * list driver_call :=
  (set_rxframecb s false, [Ev_Cy_ETHIF_RegisterCallbacks reg_base false]).


(** ** Vocabulary of the statements *)

(** The callbacks currently registered, in slot order. *)
Definition registered (g : globals) : list fnptr :=
  omap id (ecm_event_handler g).

(** One delivery of [event_type] to each callback of [cbs], in order. *)
Definition delivery (cbs : list fnptr) (event_type : cy_ecm_event_t) : list event :=
  (fun cb => Ev_app_callback cb event_type) <$> cbs.

(** The interface a turn of the link monitor looks at: ETH0 when it is
    initiated, otherwise ETH1 when that one is. *)
Definition evaluated_in (g : globals) (i : cy_ecm_interface_t) : Prop :=
  (i = CY_ECM_INTERFACE_ETH0
   /\ flag (is_ethernet_initiated g) CY_ECM_INTERFACE_ETH0 = true)
  \/ (i = CY_ECM_INTERFACE_ETH1
      /\ flag (is_ethernet_initiated g) CY_ECM_INTERFACE_ETH0 = false
      /\ flag (is_ethernet_initiated g) CY_ECM_INTERFACE_ETH1 = true).

(** The interfaces whose link status a trace queries, in order. *)
Definition queried (tr : list event) : list cy_ecm_interface_t :=
  omap (fun e => match e with Ev_phy_get_linkstatus i => Some i | _ => None end) tr.

(** A call that gets past the entry checks of an API function working on
    the object [o]: the manager is active, the global mutex is acquired and
    the object is initialized. *)
Definition admitted (E : collaborators) (g : globals) (o : cy_ecm_object_t) : Prop :=
  is_ecm_initialized g = true
  /\ on_cy_rtos_get_mutex E = CY_RSLT_SUCCESS
  /\ isobjinitialized o = true.

(** Slot [i] is the first free slot of the registry. *)
Definition first_free (handlers : list cy_ecm_event_callback_t) (i : nat) : Prop :=
  handlers !! i = Some None
  /\ forall j, (j < i)%nat -> handlers !! j <> Some None.

(** The flag that tracks the network stack is only ever set together with
    the manager's own: between API calls it is never true on its own. *)
Definition tcp_follows_ecm (g : globals) : Prop :=
  is_tcp_initialized g = true -> is_ecm_initialized g = true.

(** The PHY never reports link up on interface [i] during a call. *)
Definition link_never_up (E : collaborators) (i : cy_ecm_interface_t) : Prop :=
  forall n, ~ ((on_phy_get_linkstatus E n i).1 = CY_RSLT_SUCCESS
               /\ (on_phy_get_linkstatus E n i).2 = 1).

(** The network stack never reports an assigned address during a call. *)
Definition address_never_assigned (E : collaborators) : Prop :=
  forall n, (on_cy_network_get_ip_address E n).1 <> CY_RSLT_SUCCESS.

(** [k] turns of a link wait on interface [i]: a query, then the delay. *)
Fixpoint link_polls (i : cy_ecm_interface_t) (k : nat) : list event :=
  match k with
  | O => []
  | S k' =>
      Ev_phy_get_linkstatus i
        :: Ev_cy_rtos_delay_milliseconds WAIT_CHECK_ETHERNET_PHY_STATUS
        :: link_polls i k'
  end.

(** The number of turns after which a link wait gives up. *)
Definition link_wait_turns : nat :=
  Z.to_nat (MAX_WAIT_ETHERNET_PHY_STATUS / WAIT_CHECK_ETHERNET_PHY_STATUS).

(** The static configuration is one [cy_ecm_connect] accepts: absent, or
    tagged IPv4. *)
Definition static_supported (cfg : platform)
    (ecm_static_ip_addr : option cy_ecm_ip_setting_t) : Prop :=
  match ecm_static_ip_addr with
  | None => True
  | Some s => version (gateway s) = CY_ECM_IP_VER_V4 cfg
  end.

(** The static addresses [cy_ecm_connect] hands to the network stack. *)
Definition static_words (ecm_static_ip_addr : option cy_ecm_ip_setting_t)
    : option (Z * Z * Z) :=
  (fun s => (v4 (ip_address s), v4 (netmask s), v4 (gateway s)))
    <$> ecm_static_ip_addr.

(** The arguments [cy_ecm_ethif_init] accepts for interface [i]. *)
Definition interface_enabled (cfg : platform) (i : cy_ecm_interface_t) : Prop :=
  (i = CY_ECM_INTERFACE_ETH0 /\ eth_0_ENABLED cfg = true)
  \/ (i = CY_ECM_INTERFACE_ETH1 /\ eth_1_ENABLED cfg = true).

(** The code returned by [cy_ecm_connect] and [is_ethernet_initiated]
    after it, when the call returned. *)
Definition code_and_initiated
    (r : option (cy_rslt_t * globals * option cy_ecm_object_t
                 * option cy_ecm_ip_address_t * list event))
    : option (cy_rslt_t * list bool) :=
  (fun x => (x.1.1.1.1, is_ethernet_initiated x.1.1.1.2)) <$> r.

(** ** Sample inputs *)

(** A platform with both interfaces enabled. *)
Definition sample_platform : platform :=
  {| eth_0_ENABLED := true;
     eth_1_ENABLED := true;
     eth_0_MAC_ADDR := [0; 3; 25; 69; 0; 0];
     eth_1_MAC_ADDR := [0; 3; 25; 69; 0; 1];
     eth_0_PROMISCUOUS_MODE := false;
     eth_0_ACCEPT_BROADCASR_FRAMES := true;
     eth_1_PROMISCUOUS_MODE := false;
     eth_1_ACCEPT_BROADCASR_FRAMES := true;
     CY_IP_MXETH_INSTANCES := 2;
     CY_ECM_IP_VER_V4 := 4 |}.

(** A complete PHY table. *)
Definition sample_phy_callbacks : cy_ecm_phy_callbacks_t :=
  {| phy_init := Some 1%positive;
     phy_configure := Some 2%positive;
     phy_enable_ext_reg := Some 3%positive;
     phy_discover := Some 4%positive;
     phy_get_auto_neg_status := Some 5%positive;
     phy_get_link_partner_cap := Some 6%positive;
     phy_get_linkspeed := Some 7%positive;
     phy_get_linkstatus := Some 8%positive;
     phy_reset := Some 9%positive |}.

(** An initialized, unconnected object for ETH0. *)
Definition sample_object : cy_ecm_object_t :=
  {| eth_idx := CY_ECM_INTERFACE_ETH0;
     eth_base_type := ETH0;
     iface_context := None;
     eth_phy_cb := sample_phy_callbacks;
     isobjinitialized := true;
     network_up := false;
     mac_address := [0; 3; 25; 69; 0; 0] |}.

(** The manager active, ETH0 initiated with its link down, two
    callbacks registered in slots 0 and 2. *)
Definition sample_globals : globals :=
  {| is_ecm_initialized := true;
     is_tcp_initialized := true;
     ecm_event_thread := true;
     ecm_event_handler := [Some 7%positive; None; Some 9%positive];
     is_ethernet_initiated := [true; false];
     is_ethernet_link_up := [false; false];
     is_ecm_thread_created := 1 |}.

(** [sample_globals] with every callback slot taken. *)
Definition full_globals : globals :=
  set_ecm_event_handler sample_globals
    [Some 1%positive; Some 2%positive; Some 3%positive].

(** [sample_globals] with the link of ETH0 already seen up. *)
Definition link_up_globals : globals :=
  set_is_ethernet_link_up sample_globals [true; false].

(** The manager after a successful [cy_ecm_init], nothing else done. *)
Definition active_globals : globals :=
  set_is_ecm_initialized (set_is_tcp_initialized initial_globals true) true.

(** Collaborators that always succeed, with the link up and an address
    assigned at once. *)
Definition cooperative : collaborators :=
  {| on_cy_network_init := CY_RSLT_SUCCESS;
     on_cy_rtos_init_mutex2 := CY_RSLT_SUCCESS;
     on_cy_rtos_get_mutex := CY_RSLT_SUCCESS;
     on_cy_rtos_set_mutex := CY_RSLT_SUCCESS;
     on_malloc := true;
     on_obj_mutex_init := CY_RSLT_SUCCESS;
     on_cy_eth_driver_initialization := CY_RSLT_SUCCESS;
     on_cy_rtos_create_thread := CY_RSLT_SUCCESS;
     on_cy_network_add_nw_interface := (CY_RSLT_SUCCESS, Some 1%positive);
     on_cy_network_ip_up := CY_RSLT_SUCCESS;
     on_cy_network_remove_nw_interface := CY_RSLT_SUCCESS;
     on_cy_network_get_ip_address := fun _ => (CY_RSLT_SUCCESS, 3232235778);
     on_phy_get_linkstatus := fun _ _ => (CY_RSLT_SUCCESS, 1);
     on_phy_get_linkspeed := fun _ _ => (CY_RSLT_SUCCESS, 1, 100) |}.

(** Collaborators with one answer replaced: that of the PHY, of the address
    query, of the mutex constructor or of the thread constructor. *)
Definition with_linkstatus (E : collaborators)
    (f : nat -> cy_ecm_interface_t -> cy_rslt_t * Z) : collaborators :=
  {| on_cy_network_init := on_cy_network_init E;
     on_cy_rtos_init_mutex2 := on_cy_rtos_init_mutex2 E;
     on_cy_rtos_get_mutex := on_cy_rtos_get_mutex E;
     on_cy_rtos_set_mutex := on_cy_rtos_set_mutex E;
     on_malloc := on_malloc E;
     on_obj_mutex_init := on_obj_mutex_init E;
     on_cy_eth_driver_initialization := on_cy_eth_driver_initialization E;
     on_cy_rtos_create_thread := on_cy_rtos_create_thread E;
     on_cy_network_add_nw_interface := on_cy_network_add_nw_interface E;
     on_cy_network_ip_up := on_cy_network_ip_up E;
     on_cy_network_remove_nw_interface := on_cy_network_remove_nw_interface E;
     on_cy_network_get_ip_address := on_cy_network_get_ip_address E;
     on_phy_get_linkstatus := f;
     on_phy_get_linkspeed := on_phy_get_linkspeed E |}.

Definition with_get_ip_address (E : collaborators)
    (f : nat -> cy_rslt_t * Z) : collaborators :=
  {| on_cy_network_init := on_cy_network_init E;
     on_cy_rtos_init_mutex2 := on_cy_rtos_init_mutex2 E;
     on_cy_rtos_get_mutex := on_cy_rtos_get_mutex E;
     on_cy_rtos_set_mutex := on_cy_rtos_set_mutex E;
     on_malloc := on_malloc E;
     on_obj_mutex_init := on_obj_mutex_init E;
     on_cy_eth_driver_initialization := on_cy_eth_driver_initialization E;
     on_cy_rtos_create_thread := on_cy_rtos_create_thread E;
     on_cy_network_add_nw_interface := on_cy_network_add_nw_interface E;
     on_cy_network_ip_up := on_cy_network_ip_up E;
     on_cy_network_remove_nw_interface := on_cy_network_remove_nw_interface E;
     on_cy_network_get_ip_address := f;
     on_phy_get_linkstatus := on_phy_get_linkstatus E;
     on_phy_get_linkspeed := on_phy_get_linkspeed E |}.

Definition with_init_mutex2 (E : collaborators) (r : cy_rslt_t) : collaborators :=
  {| on_cy_network_init := on_cy_network_init E;
     on_cy_rtos_init_mutex2 := r;
     on_cy_rtos_get_mutex := on_cy_rtos_get_mutex E;
     on_cy_rtos_set_mutex := on_cy_rtos_set_mutex E;
     on_malloc := on_malloc E;
     on_obj_mutex_init := on_obj_mutex_init E;
     on_cy_eth_driver_initialization := on_cy_eth_driver_initialization E;
     on_cy_rtos_create_thread := on_cy_rtos_create_thread E;
     on_cy_network_add_nw_interface := on_cy_network_add_nw_interface E;
     on_cy_network_ip_up := on_cy_network_ip_up E;
     on_cy_network_remove_nw_interface := on_cy_network_remove_nw_interface E;
     on_cy_network_get_ip_address := on_cy_network_get_ip_address E;
     on_phy_get_linkstatus := on_phy_get_linkstatus E;
     on_phy_get_linkspeed := on_phy_get_linkspeed E |}.

Definition with_create_thread (E : collaborators) (r : cy_rslt_t) : collaborators :=
  {| on_cy_network_init := on_cy_network_init E;
     on_cy_rtos_init_mutex2 := on_cy_rtos_init_mutex2 E;
     on_cy_rtos_get_mutex := on_cy_rtos_get_mutex E;
     on_cy_rtos_set_mutex := on_cy_rtos_set_mutex E;
     on_malloc := on_malloc E;
     on_obj_mutex_init := on_obj_mutex_init E;
     on_cy_eth_driver_initialization := on_cy_eth_driver_initialization E;
     on_cy_rtos_create_thread := r;
     on_cy_network_add_nw_interface := on_cy_network_add_nw_interface E;
     on_cy_network_ip_up := on_cy_network_ip_up E;
     on_cy_network_remove_nw_interface := on_cy_network_remove_nw_interface E;
     on_cy_network_get_ip_address := on_cy_network_get_ip_address E;
     on_phy_get_linkstatus := on_phy_get_linkstatus E;
     on_phy_get_linkspeed := on_phy_get_linkspeed E |}.

(** The PHY answers every query with link down. *)
Definition link_down : collaborators :=
  with_linkstatus cooperative (fun _ _ => (CY_RSLT_SUCCESS, 0)).

(** Every address query fails. *)
Definition no_address : collaborators :=
  with_get_ip_address cooperative (fun _ => (CY_RSLT_COLLABORATOR 1, 0)).

(** [cooperative], except that the first [k] address queries fail. *)
Definition address_after (k : nat) : collaborators :=
  with_get_ip_address cooperative
    (fun n => if (n <? k)%nat then (CY_RSLT_COLLABORATOR 1, 0)
              else (CY_RSLT_SUCCESS, 3232235778)).

(** [cooperative], except that the link-monitor thread cannot be created. *)
Definition no_thread : collaborators :=
  with_create_thread cooperative (CY_RSLT_COLLABORATOR 1).

(** ** Further vocabulary *)

(** One API call or one turn of the link monitor takes the statics from
    [g] to [g']; the arguments and the collaborators' answers are
    arbitrary.  The functions left out write no static. *)
Inductive api_step (g : globals) : globals -> Prop :=
  | step_init E :
      api_step g (cy_ecm_init E g).1.2
  | step_deinit :
      api_step g (cy_ecm_deinit g).1.2
  | step_ethif_init cfg E eth_idx phy_callbacks ecm_handle :
      api_step g (cy_ecm_ethif_init cfg E g eth_idx phy_callbacks ecm_handle).1.1.2
  | step_ethif_deinit E ecm_handle :
      api_step g (cy_ecm_ethif_deinit E g ecm_handle).1.1.2
  | step_connect fuel cfg E ecm_handle ecm_static_ip_addr ip_addr out :
      cy_ecm_connect fuel cfg E g ecm_handle ecm_static_ip_addr ip_addr = Some out ->
      api_step g out.1.1.1.2
  | step_register E ecm_handle event_callback :
      api_step g (cy_ecm_register_event_callback E g ecm_handle event_callback).1.2
  | step_deregister E ecm_handle event_callback :
      api_step g (cy_ecm_deregister_event_callback E g ecm_handle event_callback).1.2
  | step_monitor phy :
      api_step g (ecm_event_thread_iteration phy g).1.

(** The statics the program can get to from its start. *)
Inductive reachable : globals -> Prop :=
  | reachable_start : reachable initial_globals
  | reachable_step g g' : reachable g -> api_step g g' -> reachable g'.

(** What holds of the statics between calls. *)
Definition sound (g : globals) : Prop :=
  well_sized g
  /\ tcp_follows_ecm g
  /\ 0 <= is_ecm_thread_created g < 256.

(** The two hardware settings compiled into [cy_ecm_ethif_init]. *)
Definition is_mode_setting (e : event) : bool :=
  match e with
  | Ev_Cy_ETHIF_SetPromiscuousMode _ _ | Ev_Cy_ETHIF_SetNoBroadCast _ _ => true
  | _ => false
  end.

(** [sample_globals] as a second handle sees them: ETH0 initiated and
    counted, ETH1 free. *)
Definition sample_object_eth1 : cy_ecm_object_t :=
  {| eth_idx := CY_ECM_INTERFACE_ETH1;
     eth_base_type := ETH1;
     iface_context := None;
     eth_phy_cb := sample_phy_callbacks;
     isobjinitialized := true;
     network_up := false;
     mac_address := [0; 3; 25; 69; 0; 1] |}.

(** The PHY reports link up on interface [i] in its answer number [n]. *)
Definition link_up_at (E : collaborators) (i : cy_ecm_interface_t) (n : nat)
    : Prop :=
  (on_phy_get_linkstatus E n i).1 = CY_RSLT_SUCCESS
  /\ (on_phy_get_linkstatus E n i).2 = 1.

(** Answer number [k] is the first to report link up. *)
Definition link_first_up_at (E : collaborators) (i : cy_ecm_interface_t)
    (k : nat) : Prop :=
  link_up_at E i k /\ forall n, (n < k)%nat -> ~ link_up_at E i n.

(** How the link wait of [cy_ecm_connect] goes when the link is there:
    either the cached flag is set and the PHY is not asked, or the flag is
    clear, the PHY first reports link up in answer [j], before the ceiling,
    and the flag gets set.  The two indices are the calls made and the
    statics afterwards. *)
Inductive link_found (E : collaborators) (g : globals) (i : cy_ecm_interface_t)
    : list event -> globals -> Prop :=
  | link_cached :
      flag (is_ethernet_link_up g) i = true ->
      link_found E g i [] g
  | link_waited j :
      flag (is_ethernet_link_up g) i = false ->
      link_first_up_at E i j ->
      (j < link_wait_turns)%nat ->
      link_found E g i
        (link_polls i j ++ [Ev_phy_get_linkstatus i])
        (set_is_ethernet_link_up g
           (<[idx i := true]> (is_ethernet_link_up g))).

(** The network stack reports the address [w] in answer number [k] and
    fails in the answers before. *)
Definition address_assigned_after (E : collaborators) (k : nat) (w : Z) : Prop :=
  on_cy_network_get_ip_address E k = (CY_RSLT_SUCCESS, w)
  /\ forall n, (n < k)%nat ->
       (on_cy_network_get_ip_address E n).1 <> CY_RSLT_SUCCESS.

(** An address wait with [k] failed queries, each followed by the delay,
    and the successful one. *)
Fixpoint address_polls (k : nat) : list event :=
  match k with
  | O => [Ev_cy_network_get_ip_address]
  | S k' =>
      Ev_cy_network_get_ip_address
        :: Ev_cy_rtos_delay_milliseconds RETRY_WAIT_TIME_GET_IP_ADDR
        :: address_polls k'
  end.

(** The code [cy_ecm_connect] returns for a failed IP bring-up. *)
Definition ip_up_error (r : cy_rslt_t) : cy_rslt_t :=
  match r with
  | CY_RSLT_NETWORK_ERROR_STARTING_DHCP => CY_RSLT_MODULE_ECM_ERROR_STARTING_DHCP
  | CY_RSLT_NETWORK_DHCP_WAIT_TIMEOUT => CY_RSLT_ECM_DHCP_TIMEOUT
  | _ => r
  end.

(** [cooperative], except that the PHY reports link up from answer [j] on. *)
Definition link_after (j : nat) : collaborators :=
  with_linkstatus cooperative
    (fun n _ => if (n <? j)%nat then (CY_RSLT_SUCCESS, 0) else (CY_RSLT_SUCCESS, 1)).

(** [link_after 3], except that the address query fails five times before
    it reports an address. *)
Definition slow_start : collaborators :=
  with_get_ip_address (link_after 3)
    (fun n => if (n <? 5)%nat then (CY_RSLT_COLLABORATOR 1, 0)
              else (CY_RSLT_SUCCESS, 3232235778)).

(** [cooperative], except that the IP bring-up fails with the code [r]. *)
Definition ip_up_fails (r : cy_rslt_t) : collaborators :=
  {| on_cy_network_init := CY_RSLT_SUCCESS;
     on_cy_rtos_init_mutex2 := CY_RSLT_SUCCESS;
     on_cy_rtos_get_mutex := CY_RSLT_SUCCESS;
     on_cy_rtos_set_mutex := CY_RSLT_SUCCESS;
     on_malloc := true;
     on_obj_mutex_init := CY_RSLT_SUCCESS;
     on_cy_eth_driver_initialization := CY_RSLT_SUCCESS;
     on_cy_rtos_create_thread := CY_RSLT_SUCCESS;
     on_cy_network_add_nw_interface := (CY_RSLT_SUCCESS, Some 1%positive);
     on_cy_network_ip_up := r;
     on_cy_network_remove_nw_interface := CY_RSLT_SUCCESS;
     on_cy_network_get_ip_address := fun _ => (CY_RSLT_SUCCESS, 3232235778);
     on_phy_get_linkstatus := fun _ _ => (CY_RSLT_SUCCESS, 1);
     on_phy_get_linkspeed := fun _ _ => (CY_RSLT_SUCCESS, 1, 100) |}.

(** [cooperative], except that the release of the global mutex fails. *)
Definition release_fails : collaborators :=
  {| on_cy_network_init := CY_RSLT_SUCCESS;
     on_cy_rtos_init_mutex2 := CY_RSLT_SUCCESS;
     on_cy_rtos_get_mutex := CY_RSLT_SUCCESS;
     on_cy_rtos_set_mutex := CY_RSLT_COLLABORATOR 1;
     on_malloc := true;
     on_obj_mutex_init := CY_RSLT_SUCCESS;
     on_cy_eth_driver_initialization := CY_RSLT_SUCCESS;
     on_cy_rtos_create_thread := CY_RSLT_SUCCESS;
     on_cy_network_add_nw_interface := (CY_RSLT_SUCCESS, Some 1%positive);
     on_cy_network_ip_up := CY_RSLT_SUCCESS;
     on_cy_network_remove_nw_interface := CY_RSLT_SUCCESS;
     on_cy_network_get_ip_address := fun _ => (CY_RSLT_SUCCESS, 3232235778);
     on_phy_get_linkstatus := fun _ _ => (CY_RSLT_SUCCESS, 1);
     on_phy_get_linkspeed := fun _ _ => (CY_RSLT_SUCCESS, 1, 100) |}.

(** A call of [cy_ecm_connect] that stops at one of its checks, before it
    asks anything of the network stack. *)
Definition refused_at_entry (cfg : platform) (E : collaborators) (g : globals)
    (ecm_handle : option cy_ecm_object_t)
    (ecm_static_ip_addr : option cy_ecm_ip_setting_t) : Prop :=
  is_ecm_initialized g = false
  \/ on_cy_rtos_get_mutex E <> CY_RSLT_SUCCESS
  \/ ~ static_supported cfg ecm_static_ip_addr
  \/ match ecm_handle with
     | None => True
     | Some o => isobjinitialized o = false \/ network_up o = true
     end.

(** The number of slots of the registry that hold the callback [cb]. *)
Definition slots_of (cb : fnptr) (g : globals) : nat :=
  count_occ Pos.eq_dec (registered g) cb.

(** The statics a registration and a deregistration leave behind. *)
Definition after_register (E : collaborators) (g : globals)
    (o : cy_ecm_object_t) (cb : fnptr) : globals :=
  (cy_ecm_register_event_callback E g (Some o) (Some cb)).1.2.

Definition after_deregister (E : collaborators) (g : globals)
    (o : cy_ecm_object_t) (cb : fnptr) : globals :=
  (cy_ecm_deregister_event_callback E g (Some o) (Some cb)).1.2.

(** Everything a call of the registry needs in order to report success. *)
Definition registry_call_passes (E : collaborators) (g : globals)
    (ecm_handle : option cy_ecm_object_t)
    (event_callback : cy_ecm_event_callback_t) : Prop :=
  ecm_handle <> None
  /\ event_callback <> None
  /\ is_ecm_initialized g = true
  /\ on_cy_rtos_get_mutex E = CY_RSLT_SUCCESS
  /\ on_cy_rtos_set_mutex E = CY_RSLT_SUCCESS.

(** The hardware calls that program filters 1 to [k] from the first [k]
    entries of the caller's array: each filter gets the type and the address
    of its own entry and the ignore mask of the first entry. *)
Definition filters_programmed (base : ETH_Type)
    (entries : list cy_ecm_filter_address_t) (k : nat) : list call :=
  match entries with
  | [] => []
  | first :: _ =>
      imap (fun i e =>
              Ev_Cy_ETHIF_SetFilterAddress base (Z.of_nat i + 1)
                (filter_type e) (filter_addr e) (ignoreBytes first))
           (take k entries)
  end.

(** The hardware accepts the first [k] filters of a call. *)
Definition filters_accepted (M : more_collaborators) (k : nat) : Prop :=
  forall i, (i < k)%nat -> on_Cy_ETHIF_SetFilterAddress M i = true.

Definition is_filter_setting (c : call) : bool :=
  match c with
  | Ev_Cy_ETHIF_SetFilterAddress _ _ _ _ _ => true
  | Ev e => is_mode_setting e
  | _ => false
  end.

(** Answers to the further calls: every filter but the one with index [k]
    is accepted, the address queries and the ping succeed. *)
Definition refusing_filter (k : nat) : more_collaborators :=
  {| on_Cy_ETHIF_SetFilterAddress := fun i => negb (i =? k)%nat;
     on_cy_network_get_gateway_ip_address := (CY_RSLT_SUCCESS, 3232235777);
     on_cy_network_get_netmask_address := (CY_RSLT_SUCCESS, 4294967040);
     on_cy_network_get_gateway_mac_address := (CY_RSLT_SUCCESS, [0; 3; 25; 69; 0; 1]);
     on_cy_network_get_ipv6_address := (CY_RSLT_SUCCESS, [4269801472; 0; 0; 1]);
     on_cy_network_ping := (CY_RSLT_SUCCESS, 5) |}.

(** Three filter entries with three different ignore masks. *)
Definition sample_filters : list cy_ecm_filter_address_t :=
  [ {| filter_type := 0; filter_addr := [1; 2; 3; 4; 5; 6]; ignoreBytes := 1 |};
    {| filter_type := 1; filter_addr := [6; 5; 4; 3; 2; 1]; ignoreBytes := 2 |};
    {| filter_type := 0; filter_addr := [9; 9; 9; 9; 9; 9]; ignoreBytes := 4 |} ].

(** The event types a trace delivers to the callback [cb], in order. *)
Definition notifications (cb : fnptr) (tr : list event) : list cy_ecm_event_t :=
  omap (fun e => match e with
                 | Ev_app_callback c t => if Pos.eq_dec c cb then Some t else None
                 | _ => None
                 end) tr.

(** Link events that alternate, starting with the one that ends the link
    state [up]. *)
Fixpoint alternating (up : bool) (l : list cy_ecm_event_t) : Prop :=
  match l with
  | [] => True
  | t :: l' =>
      t = (if up then CY_ECM_EVENT_DISCONNECTED else CY_ECM_EVENT_CONNECTED)
      /\ alternating (negb up) l'
  end.

(** The link state after [l] alternating link events. *)
Definition link_state_after (up : bool) (l : list cy_ecm_event_t) : bool :=
  if Nat.even (length l) then up else negb up.

(** What a call does to the global mutex: [Some true] is an acquisition,
    [Some false] a release. *)
Definition mutex_op (c : call) : option bool :=
  match c with
  | Ev Ev_cy_rtos_get_mutex => Some true
  | Ev Ev_cy_rtos_set_mutex => Some false
  | _ => None
  end.

Definition mutex_ops (tr : list call) : list bool := omap mutex_op tr.

Definition mutex_ops_of (tr : list event) : list bool := mutex_ops (Ev <$> tr).

(** The global mutex is left alone, or its acquisition failed and nothing
    followed, or it was acquired and then released, once each. *)
Definition bracketed (E : collaborators) (ops : list bool) : Prop :=
  ops = []
  \/ (on_cy_rtos_get_mutex E <> CY_RSLT_SUCCESS /\ ops = [true])
  \/ (on_cy_rtos_get_mutex E = CY_RSLT_SUCCESS /\ ops = [true; false]).

(** [cooperative], except that the global mutex cannot be acquired. *)
Definition no_mutex : collaborators :=
  {| on_cy_network_init := CY_RSLT_SUCCESS;
     on_cy_rtos_init_mutex2 := CY_RSLT_SUCCESS;
     on_cy_rtos_get_mutex := CY_RSLT_COLLABORATOR 1;
     on_cy_rtos_set_mutex := CY_RSLT_SUCCESS;
     on_malloc := true;
     on_obj_mutex_init := CY_RSLT_SUCCESS;
     on_cy_eth_driver_initialization := CY_RSLT_SUCCESS;
     on_cy_rtos_create_thread := CY_RSLT_SUCCESS;
     on_cy_network_add_nw_interface := (CY_RSLT_SUCCESS, Some 1%positive);
     on_cy_network_ip_up := CY_RSLT_SUCCESS;
     on_cy_network_remove_nw_interface := CY_RSLT_SUCCESS;
     on_cy_network_get_ip_address := fun _ => (CY_RSLT_SUCCESS, 3232235778);
     on_phy_get_linkstatus := fun _ _ => (CY_RSLT_SUCCESS, 1);
     on_phy_get_linkspeed := fun _ _ => (CY_RSLT_SUCCESS, 1, 100) |}.

(** [k] turns of the link wait of [cy_eth_driver_initialization]: a query,
    then the delay of 1 ms. *)
Fixpoint driver_polls (i : cy_ecm_interface_t) (k : nat) : list driver_call :=
  match k with
  | O => []
  | S k' =>
      Dv (Ev_phy_get_linkstatus i)
        :: Dv (Ev_cy_rtos_delay_milliseconds SLEEP_ETHERNET_PHY_STATUS)
        :: driver_polls i k'
  end.

(** The number of turns after which that link wait is left. *)
Definition driver_wait_turns : nat :=
  Z.to_nat (MAX_WAIT_ETHERNET_PHY_STATUS / SLEEP_ETHERNET_PHY_STATUS).

(** The code [r] is CY_RSLT_SUCCESS or what a link-status query of the PHY
    returned. *)
Definition success_or_phy_code (E : collaborators) (i : cy_ecm_interface_t)
    (r : cy_rslt_t) : Prop :=
  r = CY_RSLT_SUCCESS \/ exists m, r = (on_phy_get_linkstatus E m i).1.


(** The enum constants of the driver's interface selection are pairwise
    different. *)
Definition headers_distinct (H : driver_headers) : Prop :=
  NoDup [CY_ETHIF_CTL_MII_10 H; CY_ETHIF_CTL_MII_100 H; CY_ETHIF_CTL_GMII_1000 H;
         CY_ETHIF_CTL_RGMII_10 H; CY_ETHIF_CTL_RGMII_100 H;
         CY_ETHIF_CTL_RGMII_1000 H; CY_ETHIF_CTL_RMII_10 H;
         CY_ETHIF_CTL_RMII_100 H].

(** The interface selection [eth_clock_config] stores for the configuration
    [config], fed with the selection [ecm_config_to_speed_sel] makes for it,
    as [cy_eth_phy_initialization] does. *)
Definition interface_selected (cfg : platform) (H : driver_headers)
    (s : driver_statics) (i : cy_ecm_interface_t) (config : cy_ecm_phy_config_t)
    : Z :=
  stcInterfaceSel
    (eth_clock_config cfg H s i (ecm_config_to_speed_sel H config)
       (phy_speed config)).

Definition is_mac_initialization (c : driver_call) : bool :=
  match c with
  | Ev_Cy_ETHIF_MdioInit _ | Ev_Cy_ETHIF_Init _ => true
  | _ => false
  end.

Definition is_phy_bring_up (c : driver_call) : bool :=
  match c with
  | Ev_phy_reset _ _ | Ev_phy_discover _ | Ev_phy_enable_ext_reg _ _ => true
  | _ => false
  end.

(** Sample header values, with the constants of each enum numbered from 0,
    a 100 Mbit/s full-duplex RMII configuration, and a driver whose
    initializations succeed and whose auto-negotiation is done at the third
    query. *)
Definition sample_headers : driver_headers :=
  {| CY_ECM_SPEED_TYPE_MII := 0;
     CY_ECM_SPEED_TYPE_GMII := 1;
     CY_ECM_SPEED_TYPE_RGMII := 2;
     CY_ECM_PHY_SPEED_10M := 0;
     CY_ECM_PHY_SPEED_100M := 1;
     CY_ECM_PHY_SPEED_1000M := 2;
     CY_ECM_PHY_SPEED_AUTO := 3;
     CY_ECM_DUPLEX_AUTO := 2;
     CY_ETHIF_CTL_MII_10 := 0;
     CY_ETHIF_CTL_MII_100 := 1;
     CY_ETHIF_CTL_GMII_1000 := 2;
     CY_ETHIF_CTL_RGMII_10 := 3;
     CY_ETHIF_CTL_RGMII_100 := 4;
     CY_ETHIF_CTL_RGMII_1000 := 5;
     CY_ETHIF_CTL_RMII_10 := 6;
     CY_ETHIF_CTL_RMII_100 := 7;
     eth_0_MAC_CLOCK := 1;
     eth_1_MAC_CLOCK := 1;
     CY_IP_M7CPUSS := true;
     CYCFG_XMC7100_DEFINED := false |}.

Definition sample_phy_config : cy_ecm_phy_config_t :=
  {| interface_speed_type := 3; phy_speed := 1; mode := 1 |}.

Definition auto_phy_config : cy_ecm_phy_config_t :=
  {| interface_speed_type := 3; phy_speed := 3; mode := 2 |}.

Definition sample_driver : driver_collaborators :=
  {| on_Cy_ETHIF_MdioInit := true;
     on_Cy_ETHIF_Init := true;
     on_phy_get_auto_neg_status :=
       fun n => (CY_RSLT_SUCCESS, if (n <? 2)%nat then 0 else 1);
     on_phy_get_link_partner_cap := (CY_RSLT_SUCCESS, 1, 1) |}.


(** [sample_driver], except that the MAC initialization fails. *)
Definition failing_driver : driver_collaborators :=
  {| on_Cy_ETHIF_MdioInit := true;
     on_Cy_ETHIF_Init := false;
     on_phy_get_auto_neg_status := fun _ => (CY_RSLT_SUCCESS, 1);
     on_phy_get_link_partner_cap := (CY_RSLT_SUCCESS, 1, 1) |}.

(** The driver statics after a first successful initialization. *)
Definition configured_statics : driver_statics :=
  {| is_driver_configured := true;
     rxframecb := true;
     stcInterfaceSel := 7;
     bRefClockSource := 1;
     u8RefClkDiv := 1 |}.

(** [release_fails], with a PHY that never reports link up. *)
Definition link_down_release_fails : collaborators :=
  with_linkstatus release_fails (fun _ _ => (CY_RSLT_SUCCESS, 0)).

(** The auto-negotiation wait is left at query [n]: the query fails or stores
    a status other than 0. *)
Definition negotiation_ends_at (D : driver_collaborators) (n : nat) : Prop :=
  (on_phy_get_auto_neg_status D n).1 <> CY_RSLT_SUCCESS
  \/ (on_phy_get_auto_neg_status D n).2 <> 0.

(** [cy_eth_phy_initialization] does not enter its auto-negotiation wait (the
    driver is configured already, no auto-negotiation is asked for, or
    [Cy_ETHIF_MdioInit] fails), or one of the first [fuel] queries of the
    wait ends it. *)
Definition negotiation_wait_ends (fuel : nat) (H : driver_headers)
    (D : driver_collaborators) (s : driver_statics)
    (config : cy_ecm_phy_config_t) : Prop :=
  is_driver_configured s = true
  \/ auto_negotiation_enabled H config = false
  \/ on_Cy_ETHIF_MdioInit D = false
  \/ exists n, (n < fuel)%nat /\ negotiation_ends_at D n.

(** * Properties *)

(** ** Event dispatcher *)

Lemma invoke_app_callbacks_delivery (handlers : list cy_ecm_event_callback_t)
    (event_type : cy_ecm_event_t) :
  length handlers = CY_ECM_MAXIMUM_CALLBACKS_COUNT ->
  invoke_app_callbacks handlers event_type
  = delivery (omap id handlers) event_type.
Proof.
  intros Hlen.
  destruct handlers as [|a [|b [|c [|d l]]]]; try discriminate Hlen.
  destruct a, b, c; reflexivity.
Qed.

Lemma flag_insert_eq (a : list bool) (i : cy_ecm_interface_t) (b : bool) :
  (idx i < length a)%nat -> flag (<[idx i := b]> a) i = b.
Proof.
  intros Hlt. unfold flag. by rewrite list_lookup_insert_eq.
Qed.

(** ** Link monitor *)

Lemma ecm_event_thread_iteration_evaluated (phy : cy_ecm_interface_t -> cy_rslt_t * Z)
    (g : globals) (i : cy_ecm_interface_t) :
  evaluated_in g i ->
  ecm_event_thread_iteration phy g
  = ((monitor_interface phy i g).1,
     (monitor_interface phy i g).2
       ++ [Ev_cy_rtos_delay_milliseconds CY_POLL_ETHERNET_PHY_STATUS_TIME]).
Proof.
  unfold ecm_event_thread_iteration.
  intros [[-> H0] | (-> & H0 & H1)].
  - rewrite H0. by destruct (monitor_interface _ _ _).
  - rewrite H0, H1. by destruct (monitor_interface _ _ _).
Qed.

(** C5.  In a turn of the link monitor, for the interface [i] it evaluates:
    when the PHY reports link up (success, status 1) and the cached flag is
    false, the flag becomes true and one CONNECTED event goes to every
    registered callback in slot order; when the PHY reports link down
    (success, status other than 1) and the flag is true, the flag becomes
    false and DISCONNECTED is delivered likewise; when the status is
    unchanged or the query fails, the statics are unchanged and nothing is
    delivered.  Only [is_ethernet_link_up[i]] is ever written. *)
Theorem monitor_iteration_edge_triggered
    (phy : cy_ecm_interface_t -> cy_rslt_t * Z) (g : globals)
    (i : cy_ecm_interface_t) (result : cy_rslt_t) (linkstatus : Z) :
  well_sized g ->
  evaluated_in g i ->
  phy i = (result, linkstatus) ->
  let g' := (ecm_event_thread_iteration phy g).1 in
  let tr := (ecm_event_thread_iteration phy g).2 in
  let query := Ev_phy_get_linkstatus i in
  let pause := Ev_cy_rtos_delay_milliseconds CY_POLL_ETHERNET_PHY_STATUS_TIME in
  let cached := flag (is_ethernet_link_up g) i in
  (result = CY_RSLT_SUCCESS -> linkstatus = 1 -> cached = false ->
     flag (is_ethernet_link_up g') i = true
     /\ g' = set_is_ethernet_link_up g (<[idx i := true]> (is_ethernet_link_up g))
     /\ tr = query :: delivery (registered g) CY_ECM_EVENT_CONNECTED ++ [pause])
  /\ (result = CY_RSLT_SUCCESS -> linkstatus <> 1 -> cached = true ->
        flag (is_ethernet_link_up g') i = false
        /\ g' = set_is_ethernet_link_up g (<[idx i := false]> (is_ethernet_link_up g))
        /\ tr = query :: delivery (registered g) CY_ECM_EVENT_DISCONNECTED ++ [pause])
  /\ (result = CY_RSLT_SUCCESS -> linkstatus = 1 -> cached = true ->
        g' = g /\ tr = [query; pause])
  /\ (result = CY_RSLT_SUCCESS -> linkstatus <> 1 -> cached = false ->
        g' = g /\ tr = [query; pause])
  /\ (result <> CY_RSLT_SUCCESS -> g' = g /\ tr = [query; pause]).
Proof.
  intros (Hh & Hi & Hl) Hev Hphy. simpl.
  assert (Hidx : (idx i < length (is_ethernet_link_up g))%nat).
  { rewrite Hl. destruct Hev as [[-> _] | (-> & _)]; simpl;
      unfold CY_ECM_ETH_INTERFACE_MAX; lia. }
  rewrite (ecm_event_thread_iteration_evaluated phy g i Hev).
  unfold monitor_interface, succeeded. rewrite Hphy. simpl.
  split; [|split; [|split; [|split]]].
  - intros -> -> Hc. rewrite Hc. simpl.
    rewrite invoke_app_callbacks_delivery by done.
    split; [by apply flag_insert_eq | split; reflexivity].
  - intros -> Hne Hc. rewrite Hc, (bool_decide_false (linkstatus = 1)) by done. simpl.
    rewrite invoke_app_callbacks_delivery by done.
    split; [by apply flag_insert_eq | split; reflexivity].
  - intros -> -> Hc. by rewrite Hc.
  - intros -> Hne Hc. by rewrite Hc, (bool_decide_false (linkstatus = 1)) by done.
  - intros Hne. by rewrite (bool_decide_false (result = _)) by done.
Qed.

Lemma monitor_iteration_edge_triggered_witness :
  well_sized sample_globals
  /\ evaluated_in sample_globals CY_ECM_INTERFACE_ETH0
  /\ (ecm_event_thread_iteration (fun _ => (CY_RSLT_SUCCESS, 1)) sample_globals).2
     = [Ev_phy_get_linkstatus CY_ECM_INTERFACE_ETH0;
        Ev_app_callback 7%positive CY_ECM_EVENT_CONNECTED;
        Ev_app_callback 9%positive CY_ECM_EVENT_CONNECTED;
        Ev_cy_rtos_delay_milliseconds 1000].
Proof.
  assert (Hw : well_sized sample_globals) by (repeat split).
  assert (He : evaluated_in sample_globals CY_ECM_INTERFACE_ETH0)
    by (left; split; reflexivity).
  split; [exact Hw|]. split; [exact He|].
  destruct (monitor_iteration_edge_triggered (fun _ => (CY_RSLT_SUCCESS, 1))
              sample_globals CY_ECM_INTERFACE_ETH0 CY_RSLT_SUCCESS 1 Hw He eq_refl)
    as (Hup & _).
  destruct (Hup eq_refl eq_refl eq_refl) as (_ & _ & Htr).
  exact Htr.
Defined.

Lemma queried_invoke_app_callbacks_from (n i : nat)
    (handlers : list cy_ecm_event_callback_t) (event_type : cy_ecm_event_t) :
  queried (invoke_app_callbacks_from n i handlers event_type) = [].
Proof.
  revert i. induction n as [|n IH]; intros i; simpl; [done|].
  destruct (handlers !! i) as [[cb|]|]; simpl; apply IH.
Qed.

Lemma queried_cons_query (i : cy_ecm_interface_t) (tr : list event) :
  queried (Ev_phy_get_linkstatus i :: tr) = i :: queried tr.
Proof. reflexivity. Qed.

Lemma queried_monitor_interface (phy : cy_ecm_interface_t -> cy_rslt_t * Z)
    (i : cy_ecm_interface_t) (g : globals) :
  queried (monitor_interface phy i g).2 = [i].
Proof.
  unfold monitor_interface.
  destruct (phy i) as [result linkstatus].
  destruct (succeeded result); [|done].
  destruct (bool_decide (linkstatus = 1));
    destruct (flag (is_ethernet_link_up g) i); try done;
    cbn [negb snd]; unfold invoke_app_callbacks;
    by rewrite queried_cons_query, queried_invoke_app_callbacks_from.
Qed.

(** C6.  A turn of the link monitor queries the link status of at most one
    interface; when ETH0 is initiated the only query is for ETH0, so ETH1 is
    not queried in that turn, whether or not it is initiated too. *)
Theorem monitor_iteration_queries_one_interface
    (phy : cy_ecm_interface_t -> cy_rslt_t * Z) (g : globals) :
  let tr := (ecm_event_thread_iteration phy g).2 in
  (length (queried tr) <= 1)%nat
  /\ (flag (is_ethernet_initiated g) CY_ECM_INTERFACE_ETH0 = true ->
      queried tr = [CY_ECM_INTERFACE_ETH0]
      /\ Ev_phy_get_linkstatus CY_ECM_INTERFACE_ETH1 ∉ tr).
Proof.
  simpl. unfold ecm_event_thread_iteration.
  destruct (flag (is_ethernet_initiated g) CY_ECM_INTERFACE_ETH0) eqn:H0.
  - pose proof (queried_monitor_interface phy CY_ECM_INTERFACE_ETH0 g) as Hq.
    destruct (monitor_interface phy CY_ECM_INTERFACE_ETH0 g) as [g' tr].
    simpl in *. unfold queried in *. rewrite omap_app, Hq. simpl.
    split; [lia|]. intros _. split; [done|].
    intros Hin. apply elem_of_app in Hin as [Hin | Hin].
    + assert (CY_ECM_INTERFACE_ETH1 ∈ [CY_ECM_INTERFACE_ETH0]) as Hbad.
      { rewrite <- Hq. apply list_elem_of_omap.
        exists (Ev_phy_get_linkstatus CY_ECM_INTERFACE_ETH1). done. }
      apply list_elem_of_singleton in Hbad. discriminate.
    + apply list_elem_of_singleton in Hin. discriminate.
  - split; [|discriminate].
    destruct (flag (is_ethernet_initiated g) CY_ECM_INTERFACE_ETH1).
    + pose proof (queried_monitor_interface phy CY_ECM_INTERFACE_ETH1 g) as Hq.
      destruct (monitor_interface phy CY_ECM_INTERFACE_ETH1 g) as [g' tr].
      simpl in *. unfold queried in *. rewrite omap_app, Hq. simpl. lia.
    + simpl. lia.
Qed.

Lemma monitor_iteration_queries_one_interface_witness :
  flag [true; true] CY_ECM_INTERFACE_ETH0 = true
  /\ queried (ecm_event_thread_iteration (fun _ => (CY_RSLT_SUCCESS, 1))
                (set_is_ethernet_initiated sample_globals [true; true])).2
     = [CY_ECM_INTERFACE_ETH0].
Proof.
  split; [reflexivity|].
  destruct (monitor_iteration_queries_one_interface
              (fun _ => (CY_RSLT_SUCCESS, 1))
              (set_is_ethernet_initiated sample_globals [true; true]))
    as (_ & H).
  destruct (H eq_refl) as (Hq & _). exact Hq.
Defined.

(** ** Callback registry *)

Lemma register_scan_full (n i : nat) (handlers : list cy_ecm_event_callback_t)
    (cb : fnptr) :
  None ∉ handlers -> register_scan n i handlers cb = handlers.
Proof.
  intros Hfull. revert i. induction n as [|n IH]; intros i; simpl; [done|].
  destruct (handlers !! i) as [[c|]|] eqn:Hi; try apply IH.
  exfalso. apply Hfull. by eapply list_elem_of_lookup_2.
Qed.

Lemma register_scan_first_free (n k i : nat)
    (handlers : list cy_ecm_event_callback_t) (cb : fnptr) :
  (k <= i < k + n)%nat ->
  handlers !! i = Some None ->
  (forall j, (k <= j < i)%nat -> handlers !! j <> Some None) ->
  register_scan n k handlers cb = <[i := Some cb]> handlers.
Proof.
  revert k. induction n as [|n IH]; intros k Hk Hi Hbefore; [lia|]. simpl.
  destruct (decide (k = i)) as [->|Hne].
  - by rewrite Hi.
  - assert (Hk' : handlers !! k <> Some None) by (apply Hbefore; lia).
    destruct (handlers !! k) as [[c|]|]; try done;
      apply IH; try done; try lia; intros j Hj; apply Hbefore; lia.
Qed.

Lemma deregister_scan_absent (n i : nat)
    (handlers : list cy_ecm_event_callback_t) (cb : fnptr) :
  Some cb ∉ handlers -> deregister_scan n i handlers cb = handlers.
Proof.
  intros Habs. revert i. induction n as [|n IH]; intros i; simpl; [done|].
  rewrite bool_decide_false; [apply IH|].
  intros Hi. apply Habs. by eapply list_elem_of_lookup_2.
Qed.

Lemma set_ecm_event_handler_same (g : globals) :
  set_ecm_event_handler g (ecm_event_handler g) = g.
Proof. by destruct g. Qed.

(** C7.  With every slot occupied, registering one more callback changes
    no static, whatever the arguments, and an admitted call still reports
    success: the request is dropped silently.  With [i] the first free slot,
    an admitted registration stores the callback in slot [i] and changes
    nothing else.  Deregistering a callback that is in no slot changes no
    static, and an admitted call reports success. *)
Theorem callback_registry_bounded (E : collaborators) (g : globals)
    (ecm_handle : option cy_ecm_object_t) (o : cy_ecm_object_t)
    (event_callback : cy_ecm_event_callback_t) (cb : fnptr) (i : nat) :
  let through := [Ev_cy_rtos_get_mutex; Ev_cy_rtos_set_mutex] in
  (None ∉ ecm_event_handler g ->
     (cy_ecm_register_event_callback E g ecm_handle event_callback).1.2 = g
     /\ (admitted E g o ->
         cy_ecm_register_event_callback E g (Some o) (Some cb)
         = (release E CY_RSLT_SUCCESS, g, through)))
  /\ (well_sized g -> first_free (ecm_event_handler g) i -> admitted E g o ->
        cy_ecm_register_event_callback E g (Some o) (Some cb)
        = (release E CY_RSLT_SUCCESS,
           set_ecm_event_handler g (<[i := Some cb]> (ecm_event_handler g)),
           through))
  /\ (Some cb ∉ ecm_event_handler g ->
        (cy_ecm_deregister_event_callback E g ecm_handle (Some cb)).1.2 = g
        /\ (admitted E g o ->
            cy_ecm_deregister_event_callback E g (Some o) (Some cb)
            = (release E CY_RSLT_SUCCESS, g, through))).
Proof.
  cbv zeta. split; [|split].
  - intros Hfull. split.
    + unfold cy_ecm_register_event_callback.
      destruct ecm_handle as [obj|], event_callback as [c|]; try done.
      destruct (is_ecm_initialized g); [|done]. cbn -[register_scan deregister_scan].
      destruct (succeeded (on_cy_rtos_get_mutex E)); [|done]. cbn -[register_scan deregister_scan].
      destruct (isobjinitialized obj); [|done]. cbn -[register_scan deregister_scan].
      by rewrite register_scan_full, set_ecm_event_handler_same.
    + intros (Hinit & Hget & Hobj). unfold cy_ecm_register_event_callback, succeeded.
     
      rewrite Hinit, Hget, Hobj. cbn -[register_scan deregister_scan].
      by rewrite register_scan_full, set_ecm_event_handler_same.
  - intros (Hlen & _) [Hi Hbefore] (Hinit & Hget & Hobj).
    unfold cy_ecm_register_event_callback, succeeded.
     
    rewrite Hinit, Hget, Hobj. cbn -[register_scan deregister_scan].
    assert (Hrange : (0 <= i < 0 + CY_ECM_MAXIMUM_CALLBACKS_COUNT)%nat).
    { split; [lia|]. rewrite <- Hlen. exact (lookup_lt_Some _ _ _ Hi). }
    assert (Hbefore' : forall j, (0 <= j < i)%nat ->
                                 ecm_event_handler g !! j <> Some None).
    { intros j Hj. apply Hbefore. lia. }
    by rewrite (register_scan_first_free _ 0 i _ cb Hrange Hi Hbefore').
  - intros Habs. split.
    + unfold cy_ecm_deregister_event_callback.
      destruct ecm_handle as [obj|]; try done.
      destruct (is_ecm_initialized g); [|done]. cbn -[register_scan deregister_scan].
      destruct (succeeded (on_cy_rtos_get_mutex E)); [|done]. cbn -[register_scan deregister_scan].
      destruct (isobjinitialized obj); [|done]. cbn -[register_scan deregister_scan].
      by rewrite deregister_scan_absent, set_ecm_event_handler_same.
    + intros (Hinit & Hget & Hobj). unfold cy_ecm_deregister_event_callback, succeeded.
     
      rewrite Hinit, Hget, Hobj. cbn -[register_scan deregister_scan].
      by rewrite deregister_scan_absent, set_ecm_event_handler_same.
Qed.

Lemma callback_registry_bounded_witness :
  ((None ∉ ecm_event_handler full_globals)
   /\ admitted cooperative full_globals sample_object
   /\ cy_ecm_register_event_callback cooperative full_globals
        (Some sample_object) (Some 5%positive)
      = (CY_RSLT_SUCCESS, full_globals,
         [Ev_cy_rtos_get_mutex; Ev_cy_rtos_set_mutex]))
  /\ (well_sized sample_globals /\ first_free (ecm_event_handler sample_globals) 1
      /\ admitted cooperative sample_globals sample_object
      /\ ecm_event_handler
           (cy_ecm_register_event_callback cooperative sample_globals
              (Some sample_object) (Some 5%positive)).1.2
         = [Some 7%positive; Some 5%positive; Some 9%positive])
  /\ ((Some 5%positive ∉ ecm_event_handler sample_globals)
      /\ cy_ecm_deregister_event_callback cooperative sample_globals
           (Some sample_object) (Some 5%positive)
         = (CY_RSLT_SUCCESS, sample_globals,
            [Ev_cy_rtos_get_mutex; Ev_cy_rtos_set_mutex])).
Proof.
  assert (Hadm : forall g, is_ecm_initialized g = true ->
                           admitted cooperative g sample_object)
    by (intros g Hg; split; [exact Hg | split; reflexivity]).
  assert (Hfull : None ∉ ecm_event_handler full_globals).
  { intros Hin. repeat (apply elem_of_cons in Hin as [Hin | Hin]; [discriminate|]).
    by apply elem_of_nil in Hin. }
  assert (Hws : well_sized sample_globals) by (repeat split).
  assert (Hff : first_free (ecm_event_handler sample_globals) 1).
  { split; [reflexivity|]. intros [|j] Hj; [discriminate | lia]. }
  assert (Habs : Some 5%positive ∉ ecm_event_handler sample_globals).
  { intros Hin. repeat (apply elem_of_cons in Hin as [Hin | Hin]; [discriminate|]).
    by apply elem_of_nil in Hin. }
  split; [|split].
  - split; [exact Hfull|]. split; [exact (Hadm full_globals eq_refl)|].
    destruct (callback_registry_bounded cooperative full_globals None
                sample_object None 5%positive 0) as (H1 & _).
    destruct (H1 Hfull) as (_ & H). exact (H (Hadm full_globals eq_refl)).
  - split; [exact Hws|]. split; [exact Hff|].
    split; [exact (Hadm sample_globals eq_refl)|].
    destruct (callback_registry_bounded cooperative sample_globals None
                sample_object None 5%positive 1) as (_ & H2 & _).
    rewrite (H2 Hws Hff (Hadm sample_globals eq_refl)). reflexivity.
  - split; [exact Habs|].
    destruct (callback_registry_bounded cooperative sample_globals None
                sample_object None 5%positive 0) as (_ & _ & H3).
    destruct (H3 Habs) as (_ & H). exact (H (Hadm sample_globals eq_refl)).
Defined.

(** ** Manager lifecycle *)

Lemma tcp_follows_ecm_initial : tcp_follows_ecm initial_globals.
Proof. intros H. discriminate H. Qed.

Lemma cy_ecm_init_tcp_follows_ecm (E : collaborators) (g : globals) :
  tcp_follows_ecm g -> tcp_follows_ecm (cy_ecm_init E g).1.2.
Proof.
  unfold tcp_follows_ecm, cy_ecm_init. intros Hinv.
  destruct (is_ecm_initialized g) eqn:Hecm; [done|].
  destruct (is_tcp_initialized g) eqn:Htcp; [by specialize (Hinv eq_refl)|].
  simpl. destruct (succeeded (on_cy_network_init E)); simpl; [|by rewrite Htcp].
  destruct (succeeded (on_cy_rtos_init_mutex2 E)); simpl; done.
Qed.

Lemma cy_ecm_deinit_tcp_follows_ecm (g : globals) :
  tcp_follows_ecm g -> tcp_follows_ecm (cy_ecm_deinit g).1.2.
Proof.
  unfold tcp_follows_ecm, cy_ecm_deinit. intros Hinv.
  destruct (is_ecm_initialized g) eqn:Hecm; simpl; [done|].
  intros Htcp. specialize (Hinv Htcp). congruence.
Qed.

(** C9.  [cy_ecm_init] on an active manager returns the already-initialized
    code CY_RSLT_ECM_INIT_ERROR and changes nothing.  On an inactive manager
    it first brings up the network stack; when that succeeds it constructs
    the global mutex, and then either activates the manager, or, when the
    mutex cannot be constructed, deinitializes the network stack again and
    returns CY_RSLT_ECM_MUTEX_ERROR with every static as before, the manager
    inactive.  When the network stack does not come up the call stops there
    with CY_RSLT_ECM_NW_INIT_ERROR. *)
Theorem cy_ecm_init_outcomes (E : collaborators) (g : globals) :
  tcp_follows_ecm g ->
  (is_ecm_initialized g = true ->
     cy_ecm_init E g = (CY_RSLT_ECM_INIT_ERROR, g, []))
  /\ (is_ecm_initialized g = false ->
      (on_cy_network_init E = CY_RSLT_SUCCESS ->
       on_cy_rtos_init_mutex2 E = CY_RSLT_SUCCESS ->
         cy_ecm_init E g
         = (CY_RSLT_SUCCESS,
            set_is_ecm_initialized (set_is_tcp_initialized g true) true,
            [Ev_cy_network_init; Ev_cy_rtos_init_mutex2]))
      /\ (on_cy_network_init E = CY_RSLT_SUCCESS ->
          on_cy_rtos_init_mutex2 E <> CY_RSLT_SUCCESS ->
            cy_ecm_init E g
            = (CY_RSLT_ECM_MUTEX_ERROR, g,
               [Ev_cy_network_init; Ev_cy_rtos_init_mutex2; Ev_cy_network_deinit])
            /\ is_ecm_initialized (cy_ecm_init E g).1.2 = false
            /\ is_tcp_initialized (cy_ecm_init E g).1.2 = false)
      /\ (on_cy_network_init E <> CY_RSLT_SUCCESS ->
            cy_ecm_init E g = (CY_RSLT_ECM_NW_INIT_ERROR, g, [Ev_cy_network_init]))).
Proof.
  intros Hinv. unfold cy_ecm_init, succeeded. split.
  - intros ->. reflexivity.
  - intros Hecm. rewrite Hecm.
    assert (Htcp : is_tcp_initialized g = false).
    { destruct (is_tcp_initialized g) eqn:Ht; [|done].
      specialize (Hinv Ht). congruence. }
    rewrite Htcp. cbn [negb andb].
    split; [|split].
    + intros -> ->. reflexivity.
    + intros -> Hm. rewrite (bool_decide_false _ Hm). cbn.
      destruct g; simpl in *; subst; done.
    + intros Hn. by rewrite (bool_decide_false _ Hn).
Qed.

Lemma cy_ecm_init_outcomes_witness :
  tcp_follows_ecm initial_globals
  /\ cy_ecm_init cooperative initial_globals
     = (CY_RSLT_SUCCESS, active_globals,
        [Ev_cy_network_init; Ev_cy_rtos_init_mutex2])
  /\ cy_ecm_init (with_init_mutex2 cooperative (CY_RSLT_COLLABORATOR 1))
       initial_globals
     = (CY_RSLT_ECM_MUTEX_ERROR, initial_globals,
        [Ev_cy_network_init; Ev_cy_rtos_init_mutex2; Ev_cy_network_deinit])
  /\ cy_ecm_init cooperative active_globals
     = (CY_RSLT_ECM_INIT_ERROR, active_globals, []).
Proof.
  assert (Hinv0 : tcp_follows_ecm initial_globals)
    by (intros H; discriminate H).
  assert (Hinv1 : tcp_follows_ecm active_globals) by (intros _; reflexivity).
  split; [exact Hinv0|]. split; [|split].
  - destruct (cy_ecm_init_outcomes cooperative initial_globals Hinv0)
      as (_ & H).
    destruct (H eq_refl) as (Hok & _). exact (Hok eq_refl eq_refl).
  - destruct (cy_ecm_init_outcomes
                (with_init_mutex2 cooperative (CY_RSLT_COLLABORATOR 1))
                initial_globals Hinv0) as (_ & H).
    destruct (H eq_refl) as (_ & Hfail & _).
    assert (Hne : CY_RSLT_COLLABORATOR 1 <> CY_RSLT_SUCCESS)
      by (intros Heq; discriminate Heq).
    destruct (Hfail eq_refl Hne) as (Heq & _). exact Heq.
  - destruct (cy_ecm_init_outcomes cooperative active_globals Hinv1)
      as (H & _).
    exact (H eq_refl).
Defined.

(** ** Address query *)

(** C8, as the code has it.  [cy_ecm_get_ip_address] on a handle whose
    [network_up] is false, with the manager active and the global mutex
    acquired, overwrites the caller's structure with zeroes (version tag and
    all four address words) and does not ask the network stack.  The code
    returned is CY_RSLT_MODULE_ECM_NOT_CONNECTED when the release of the
    global mutex succeeds; when the release fails the [exit] label replaces
    it by CY_RSLT_ECM_MUTEX_ERROR, the structure being zeroed all the
    same. *)
Theorem cy_ecm_get_ip_address_not_connected (cfg : platform) (E : collaborators)
    (g : globals) (o : cy_ecm_object_t) (a : cy_ecm_ip_address_t) :
  network_up o = false ->
  is_ecm_initialized g = true ->
  on_cy_rtos_get_mutex E = CY_RSLT_SUCCESS ->
  cy_ecm_get_ip_address cfg E g (Some o) (Some a)
  = (release E CY_RSLT_MODULE_ECM_NOT_CONNECTED, Some zeroed_ip_address,
     [Ev_cy_rtos_get_mutex; Ev_cy_rtos_set_mutex])
  /\ version zeroed_ip_address = 0
  /\ Forall (fun w => w = 0) (ip zeroed_ip_address)
  /\ length (ip zeroed_ip_address) = 4%nat.
Proof.
  intros Hup Hinit Hget.
  unfold cy_ecm_get_ip_address, succeeded.
  rewrite Hup, Hinit, Hget. cbn.
  repeat split. repeat constructor.
Qed.

Lemma cy_ecm_get_ip_address_not_connected_witness :
  cy_ecm_get_ip_address sample_platform cooperative sample_globals
    (Some sample_object) (Some {| version := 4; ip := [3232235778; 7; 7; 7] |})
  = (CY_RSLT_MODULE_ECM_NOT_CONNECTED,
     Some {| version := 0; ip := [0; 0; 0; 0] |},
     [Ev_cy_rtos_get_mutex; Ev_cy_rtos_set_mutex]).
Proof.
  destruct (cy_ecm_get_ip_address_not_connected sample_platform cooperative
              sample_globals sample_object
              {| version := 4; ip := [3232235778; 7; 7; 7] |}
              eq_refl eq_refl eq_refl) as (H & _).
  exact H.
Defined.

(** The claim C8 as it is written fails where the release of the global
    mutex fails: on a valid handle that is not connected, with the manager
    active, the call zeroes the structure but returns
    CY_RSLT_ECM_MUTEX_ERROR, not CY_RSLT_MODULE_ECM_NOT_CONNECTED. *)
Lemma cy_ecm_get_ip_address_not_connected_counterexample :
  network_up sample_object = false
  /\ cy_ecm_get_ip_address sample_platform release_fails sample_globals
       (Some sample_object) (Some {| version := 4; ip := [3232235778; 7; 7; 7] |})
     = (CY_RSLT_ECM_MUTEX_ERROR, Some {| version := 0; ip := [0; 0; 0; 0] |},
        [Ev_cy_rtos_get_mutex; Ev_cy_rtos_set_mutex])
  /\ CY_RSLT_ECM_MUTEX_ERROR <> CY_RSLT_MODULE_ECM_NOT_CONNECTED.
Proof. split; [reflexivity|]. split; [reflexivity | discriminate]. Qed.

(** ** Link waits *)

Lemma link_never_up_test (E : collaborators) (i : cy_ecm_interface_t) (n : nat)
    (r : cy_rslt_t) (linkstatus : Z) :
  link_never_up E i ->
  on_phy_get_linkstatus E n i = (r, linkstatus) ->
  succeeded r && bool_decide (linkstatus = 1) = false.
Proof.
  intros Hnever Hphy. specialize (Hnever n). rewrite Hphy in Hnever.
  simpl in Hnever. unfold succeeded.
  destruct (bool_decide_reflect (r = CY_RSLT_SUCCESS)); [|done].
  destruct (bool_decide_reflect (linkstatus = 1)); [|done].
  exfalso. by apply Hnever.
Qed.

Lemma link_wait_next (k : nat) :
  (S k <= link_wait_turns)%nat ->
  let t := MAX_WAIT_ETHERNET_PHY_STATUS
           - WAIT_CHECK_ETHERNET_PHY_STATUS * Z.of_nat (S k) in
  t < MAX_WAIT_ETHERNET_PHY_STATUS
  /\ wrap32 (t + WAIT_CHECK_ETHERNET_PHY_STATUS)
     = MAX_WAIT_ETHERNET_PHY_STATUS - WAIT_CHECK_ETHERNET_PHY_STATUS * Z.of_nat k.
Proof.
  unfold link_wait_turns, MAX_WAIT_ETHERNET_PHY_STATUS,
    WAIT_CHECK_ETHERNET_PHY_STATUS, wrap32.
  change (Z.to_nat (10000 / 100)) with 100%nat. intros Hk. cbv zeta.
  split; [lia|]. rewrite Z.mod_small; lia.
Qed.

Lemma get_link_status_wait_never_up (E : collaborators) (i : cy_ecm_interface_t) :
  link_never_up E i ->
  forall (k fuel n : nat) (result : cy_rslt_t) (status : bool),
    (k <= link_wait_turns)%nat -> (k <= fuel)%nat ->
    exists r,
      get_link_status_wait fuel E i n
        (MAX_WAIT_ETHERNET_PHY_STATUS
         - WAIT_CHECK_ETHERNET_PHY_STATUS * Z.of_nat k) result status
      = Some (MAX_WAIT_ETHERNET_PHY_STATUS, r, status, link_polls i k).
Proof.
  intros Hnever. induction k as [|k IH]; intros fuel n result status Hk Hfuel.
  - exists result. change (Z.of_nat 0) with 0. rewrite Z.mul_0_r, Z.sub_0_r.
    destruct fuel; reflexivity.
  - destruct fuel as [|fuel]; [lia|].
    destruct (link_wait_next k Hk) as [Hlt Hnext].
    cbn [get_link_status_wait]. rewrite (bool_decide_true _ Hlt).
    destruct (on_phy_get_linkstatus E n i) as [r linkstatus] eqn:Hphy.
    rewrite (link_never_up_test E i n r linkstatus Hnever Hphy), Hnext.
    destruct (IH fuel (S n) r status) as [r' ->]; [lia..|].
    exists r'. reflexivity.
Qed.

Lemma get_link_speed_wait_never_up (E : collaborators) (i : cy_ecm_interface_t) :
  link_never_up E i ->
  forall (k fuel n : nat),
    (k <= link_wait_turns)%nat -> (k <= fuel)%nat ->
    get_link_speed_wait fuel E i n
      (MAX_WAIT_ETHERNET_PHY_STATUS
       - WAIT_CHECK_ETHERNET_PHY_STATUS * Z.of_nat k)
    = Some (None, link_polls i k).
Proof.
  intros Hnever. induction k as [|k IH]; intros fuel n Hk Hfuel.
  - change (Z.of_nat 0) with 0. rewrite Z.mul_0_r, Z.sub_0_r.
    destruct fuel; reflexivity.
  - destruct fuel as [|fuel]; [lia|].
    destruct (link_wait_next k Hk) as [Hlt Hnext].
    cbn [get_link_speed_wait]. rewrite (bool_decide_true _ Hlt).
    destruct (on_phy_get_linkstatus E n i) as [r linkstatus] eqn:Hphy.
    rewrite (link_never_up_test E i n r linkstatus Hnever Hphy), Hnext.
    rewrite (IH fuel (S n)) by lia. reflexivity.
Qed.

Lemma connect_link_wait_never_up (E : collaborators) (i : cy_ecm_interface_t) :
  link_never_up E i ->
  forall (k fuel n : nat) (result : cy_rslt_t),
    (k <= link_wait_turns)%nat -> (k <= fuel)%nat ->
    exists r,
      connect_link_wait fuel E i n
        (MAX_WAIT_ETHERNET_PHY_STATUS
         - WAIT_CHECK_ETHERNET_PHY_STATUS * Z.of_nat k) result
      = Some (MAX_WAIT_ETHERNET_PHY_STATUS, r, link_polls i k).
Proof.
  intros Hnever. induction k as [|k IH]; intros fuel n result Hk Hfuel.
  - exists result. change (Z.of_nat 0) with 0. rewrite Z.mul_0_r, Z.sub_0_r.
    destruct fuel; reflexivity.
  - destruct fuel as [|fuel]; [lia|].
    destruct (link_wait_next k Hk) as [Hlt Hnext].
    cbn [connect_link_wait]. rewrite (bool_decide_true _ Hlt).
    destruct (on_phy_get_linkstatus E n i) as [r linkstatus] eqn:Hphy.
    rewrite (link_never_up_test E i n r linkstatus Hnever Hphy), Hnext.
    destruct (IH fuel (S n) r) as [r' ->]; [lia..|].
    exists r'. reflexivity.
Qed.

Lemma link_wait_start :
  MAX_WAIT_ETHERNET_PHY_STATUS
  - WAIT_CHECK_ETHERNET_PHY_STATUS * Z.of_nat link_wait_turns = 0.
Proof. reflexivity. Qed.

(** C10, as the code has it.  When the PHY never reports link up,
    [cy_ecm_get_link_status] (manager active, global mutex acquired) makes
    [link_wait_turns] = 100 queries 100 ms apart, ten seconds in all, and
    then sets [*status] to false and [result] to CY_RSLT_SUCCESS: the down
    link is reported through the output parameter.  What the call returns
    is that success when the release of the global mutex succeeds, and
    CY_RSLT_ECM_MUTEX_ERROR when the release fails, [*status] being false
    all the same.  [cy_ecm_get_link_speed] makes the same 100 queries and
    sets the error CY_RSLT_ECM_ERROR, its outputs untouched.  Fuel for 100
    turns is enough for both to return. *)
Theorem cy_ecm_get_link_status_reports_down (fuel : nat) (E : collaborators)
    (g : globals) (o : cy_ecm_object_t) (status : bool) (duplex speed : Z) :
  (link_wait_turns <= fuel)%nat ->
  link_never_up E (eth_idx o) ->
  is_ecm_initialized g = true ->
  on_cy_rtos_get_mutex E = CY_RSLT_SUCCESS ->
  link_wait_turns = 100%nat
  /\ cy_ecm_get_link_status fuel E g (Some o) (Some status)
     = Some (release E CY_RSLT_SUCCESS, Some false,
             Ev_cy_rtos_get_mutex
               :: link_polls (eth_idx o) link_wait_turns ++ [Ev_cy_rtos_set_mutex])
  /\ cy_ecm_get_link_speed fuel E g (Some o) (Some duplex) (Some speed)
     = Some (release E CY_RSLT_ECM_ERROR, Some duplex, Some speed,
             Ev_cy_rtos_get_mutex
               :: link_polls (eth_idx o) link_wait_turns ++ [Ev_cy_rtos_set_mutex]).
Proof.
  intros Hfuel Hnever Hinit Hget. split; [reflexivity|]. split.
  - unfold cy_ecm_get_link_status, succeeded.
    rewrite Hinit, Hget. cbn [negb bool_decide decide_rel].
    destruct (get_link_status_wait_never_up E (eth_idx o) Hnever
                link_wait_turns fuel 0%nat CY_RSLT_SUCCESS status
                (Nat.le_refl _) Hfuel) as [r Hwait].
    rewrite link_wait_start in Hwait.
    rewrite bool_decide_true by done. cbn [negb].
    rewrite Hwait. reflexivity.
  - unfold cy_ecm_get_link_speed, succeeded.
    rewrite Hinit, Hget.
    pose proof (get_link_speed_wait_never_up E (eth_idx o) Hnever
                  link_wait_turns fuel 0%nat (Nat.le_refl _) Hfuel) as Hwait.
    rewrite link_wait_start in Hwait.
    rewrite bool_decide_true by done. cbn [negb].
    rewrite Hwait. reflexivity.
Qed.

Lemma link_down_never_up (i : cy_ecm_interface_t) : link_never_up link_down i.
Proof. intros n [_ H]. discriminate H. Qed.

Lemma cy_ecm_get_link_status_reports_down_witness :
  (link_wait_turns <= 100)%nat
  /\ (cy_ecm_get_link_status 100 link_down sample_globals
        (Some sample_object) (Some true)
      = Some (CY_RSLT_SUCCESS, Some false,
              Ev_cy_rtos_get_mutex
                :: link_polls CY_ECM_INTERFACE_ETH0 100 ++ [Ev_cy_rtos_set_mutex]))
  /\ (cy_ecm_get_link_speed 100 link_down sample_globals
        (Some sample_object) (Some 0) (Some 0)
      = Some (CY_RSLT_ECM_ERROR, Some 0, Some 0,
              Ev_cy_rtos_get_mutex
                :: link_polls CY_ECM_INTERFACE_ETH0 100 ++ [Ev_cy_rtos_set_mutex])).
Proof.
  assert (Hfuel : (link_wait_turns <= 100)%nat) by (vm_compute; lia).
  split; [exact Hfuel|].
  destruct (cy_ecm_get_link_status_reports_down 100 link_down sample_globals
              sample_object true 0 0 Hfuel
              (link_down_never_up CY_ECM_INTERFACE_ETH0)
              eq_refl eq_refl) as (_ & Hstatus & Hspeed).
  split; [exact Hstatus | exact Hspeed].
Defined.

(** The claim C10 as it is written fails where the release of the global
    mutex fails: the PHY never reports link up, the 100 queries are made and
    [*status] is set to false, but the call returns the error
    CY_RSLT_ECM_MUTEX_ERROR, not a success. *)
Lemma cy_ecm_get_link_status_reports_down_counterexample :
  link_never_up link_down_release_fails CY_ECM_INTERFACE_ETH0
  /\ cy_ecm_get_link_status 100 link_down_release_fails sample_globals
       (Some sample_object) (Some true)
     = Some (CY_RSLT_ECM_MUTEX_ERROR, Some false,
             Ev_cy_rtos_get_mutex
               :: link_polls CY_ECM_INTERFACE_ETH0 100 ++ [Ev_cy_rtos_set_mutex])
  /\ CY_RSLT_ECM_MUTEX_ERROR <> CY_RSLT_SUCCESS.
Proof.
  split; [intros n [_ H]; discriminate H|].
  split; [vm_compute; reflexivity | discriminate].
Qed.

(** ** Connect *)

Lemma elem_of_link_polls (e : event) (i : cy_ecm_interface_t) (k : nat) :
  e ∈ link_polls i k ->
  e = Ev_phy_get_linkstatus i
  \/ e = Ev_cy_rtos_delay_milliseconds WAIT_CHECK_ETHERNET_PHY_STATUS.
Proof.
  induction k as [|k IH]; simpl; intros Hin.
  - by apply elem_of_nil in Hin.
  - apply elem_of_cons in Hin as [-> | Hin]; [by left|].
    apply elem_of_cons in Hin as [-> | Hin]; [by right | by apply IH].
Qed.

(** C4.  [cy_ecm_connect] on an object whose [network_up] is already true
    returns without any call into the network stack (no attach, no
    subscription, no ip-up) and leaves the statics, the object and the
    caller's address structure as they were, whatever the other inputs.
    When the call passes the entry checks, only the global mutex was
    touched, and the code returned is CY_RSLT_MODULE_ECM_ALREADY_CONNECTED
    when the release of the mutex succeeds; when the release fails the
    [exit] label replaces it by CY_RSLT_ECM_MUTEX_ERROR. *)
Theorem cy_ecm_connect_already_connected (fuel : nat) (cfg : platform)
    (E : collaborators) (g : globals) (o : cy_ecm_object_t)
    (ecm_static_ip_addr : option cy_ecm_ip_setting_t)
    (ip_addr : option cy_ecm_ip_address_t) :
  network_up o = true ->
  (exists result tr,
     cy_ecm_connect fuel cfg E g (Some o) ecm_static_ip_addr ip_addr
     = Some (result, g, Some o, ip_addr, tr)
     /\ Forall (fun e => is_network_stack_call e = false) tr)
  /\ (admitted E g o ->
      cy_ecm_connect fuel cfg E g (Some o) ecm_static_ip_addr ip_addr
      = Some (release E CY_RSLT_MODULE_ECM_ALREADY_CONNECTED, g, Some o,
              ip_addr, [Ev_cy_rtos_get_mutex; Ev_cy_rtos_set_mutex])).
Proof.
  intros Hup. split.
  - unfold cy_ecm_connect, connect_locked.
    destruct (is_ecm_initialized g); cbn [negb]; [|by eexists _, _].
    destruct (succeeded (on_cy_rtos_get_mutex E)); cbn [negb];
      [|eexists _, _; split; [done | by repeat constructor]].
    rewrite Hup.
    destruct (isobjinitialized o); cbn; eexists _, _;
      (split; [done | by repeat constructor]).
  - intros (Hinit & Hget & Hobj).
    unfold cy_ecm_connect, connect_locked, succeeded.
    by rewrite Hinit, Hget, Hobj, Hup.
Qed.

Lemma cy_ecm_connect_already_connected_witness :
  network_up (set_network_up sample_object true) = true
  /\ cy_ecm_connect 0 sample_platform cooperative sample_globals
       (Some (set_network_up sample_object true)) None None
     = Some (CY_RSLT_MODULE_ECM_ALREADY_CONNECTED, sample_globals,
             Some (set_network_up sample_object true), None,
             [Ev_cy_rtos_get_mutex; Ev_cy_rtos_set_mutex]).
Proof.
  split; [reflexivity|].
  destruct (cy_ecm_connect_already_connected 0 sample_platform cooperative
              sample_globals (set_network_up sample_object true) None None
              eq_refl) as (_ & H).
  apply H. split; [reflexivity|]. split; reflexivity.
Defined.

(** The claim C4 as it is written fails where the release of the global
    mutex fails: on a connected handle the call makes no network-stack call
    and changes nothing, but returns CY_RSLT_ECM_MUTEX_ERROR, not
    CY_RSLT_MODULE_ECM_ALREADY_CONNECTED. *)
Lemma cy_ecm_connect_already_connected_counterexample :
  network_up (set_network_up sample_object true) = true
  /\ cy_ecm_connect 0 sample_platform release_fails sample_globals
       (Some (set_network_up sample_object true)) None None
     = Some (CY_RSLT_ECM_MUTEX_ERROR, sample_globals,
             Some (set_network_up sample_object true), None,
             [Ev_cy_rtos_get_mutex; Ev_cy_rtos_set_mutex])
  /\ CY_RSLT_ECM_MUTEX_ERROR <> CY_RSLT_MODULE_ECM_ALREADY_CONNECTED.
Proof. split; [reflexivity|]. split; [reflexivity | discriminate]. Qed.

(** C3, as the code has it.  [cy_ecm_connect] on an initialized, unconnected
    object whose cached link flag is false and whose PHY never reports link
    up: after the attach and the subscription it makes [link_wait_turns] =
    100 queries 100 ms apart (ten seconds) and fails: with CY_RSLT_ECM_ERROR,
    the code this branch uses for the link timeout, when the release of the
    global mutex succeeds, and with CY_RSLT_ECM_MUTEX_ERROR, which the [exit]
    label puts in its place, when the release fails.  No static changes, so
    [is_ethernet_initiated] is as before; the interface is neither detached
    nor taken down, and the object keeps the context of the attach. *)
Theorem cy_ecm_connect_link_timeout (fuel : nat) (cfg : platform)
    (E : collaborators) (g : globals) (o : cy_ecm_object_t)
    (ecm_static_ip_addr : option cy_ecm_ip_setting_t)
    (ip_addr : option cy_ecm_ip_address_t)
    (ctx : option cy_network_interface_context) :
  (link_wait_turns <= fuel)%nat ->
  admitted E g o ->
  network_up o = false ->
  static_supported cfg ecm_static_ip_addr ->
  on_cy_network_add_nw_interface E = (CY_RSLT_SUCCESS, ctx) ->
  flag (is_ethernet_link_up g) (eth_idx o) = false ->
  link_never_up E (eth_idx o) ->
  let tr :=
    Ev_cy_rtos_get_mutex
      :: Ev_cy_network_add_nw_interface (eth_idx o) (static_words ecm_static_ip_addr)
      :: Ev_cy_network_register_ip_change_cb true
      :: link_polls (eth_idx o) link_wait_turns ++ [Ev_cy_rtos_set_mutex] in
  cy_ecm_connect fuel cfg E g (Some o) ecm_static_ip_addr ip_addr
  = Some (release E CY_RSLT_ECM_ERROR, g, Some (set_iface_context o ctx),
          ip_addr, tr)
  /\ release E CY_RSLT_ECM_ERROR <> CY_RSLT_SUCCESS
  /\ link_wait_turns = 100%nat
  /\ (Ev_cy_network_remove_nw_interface ∉ tr)
  /\ (Ev_cy_network_ip_down ∉ tr).
Proof.
  intros Hfuel (Hinit & Hget & Hobj) Hup Hstatic Hadd Hflag Hnever.
  cbv zeta. split; [|split; [|split; [reflexivity|]]].
  - destruct (connect_link_wait_never_up E (eth_idx o) Hnever
                link_wait_turns fuel 0%nat CY_RSLT_SUCCESS
                (Nat.le_refl _) Hfuel) as [r Hwait].
    rewrite link_wait_start in Hwait.
    assert (Hattach : forall s,
      connect_attach fuel cfg E g o s ip_addr
      = Some {| co_result := CY_RSLT_ECM_ERROR; co_globals := g;
                co_object := set_iface_context o ctx; co_ip_addr := ip_addr;
                co_trace := [Ev_cy_network_add_nw_interface (eth_idx o) s;
                             Ev_cy_network_register_ip_change_cb true]
                            ++ link_polls (eth_idx o) link_wait_turns |}).
    { intros s. unfold connect_attach. rewrite Hadd.
      unfold succeeded. rewrite bool_decide_true by done.
      cbn [negb set_iface_context eth_idx].
      rewrite Hflag. cbn [negb]. rewrite Hwait. reflexivity. }
    unfold cy_ecm_connect, connect_locked, succeeded.
    rewrite Hinit, Hget, Hobj, Hup.
    rewrite bool_decide_true by done. cbn [negb].
    destruct ecm_static_ip_addr as [s|]; simpl in Hstatic.
    + rewrite (bool_decide_true _ Hstatic), Hattach. reflexivity.
    + rewrite Hattach. reflexivity.
  - unfold release. by destruct (succeeded (on_cy_rtos_set_mutex E)).
  - split; intros Hin;
      do 3 (apply elem_of_cons in Hin as [Hin | Hin]; [discriminate|]);
      apply elem_of_app in Hin as [Hin | Hin];
      try (apply elem_of_link_polls in Hin as [Hin | Hin]; discriminate);
      apply list_elem_of_singleton in Hin; discriminate.
Qed.

Lemma cy_ecm_connect_link_timeout_witness :
  (link_wait_turns <= 100)%nat
  /\ code_and_initiated
       (cy_ecm_connect 100 sample_platform link_down sample_globals
          (Some sample_object) None None)
     = Some (CY_RSLT_ECM_ERROR, is_ethernet_initiated sample_globals).
Proof.
  assert (Hfuel : (link_wait_turns <= 100)%nat) by (vm_compute; lia).
  split; [exact Hfuel|].
  assert (Hadm : admitted link_down sample_globals sample_object)
    by (split; [reflexivity|]; split; reflexivity).
  destruct (cy_ecm_connect_link_timeout 100 sample_platform link_down
              sample_globals sample_object None None (Some 1%positive)
              Hfuel Hadm eq_refl I eq_refl eq_refl
              (link_down_never_up CY_ECM_INTERFACE_ETH0))
    as (H & _).
  rewrite H. reflexivity.
Defined.

(** The claim C3 as it is written fails where the release of the global
    mutex fails: the link wait runs to its ceiling and the call fails with
    no static changed, but the code returned is CY_RSLT_ECM_MUTEX_ERROR, not
    the CY_RSLT_ECM_ERROR of the link timeout. *)
Lemma cy_ecm_connect_link_timeout_counterexample :
  link_never_up link_down_release_fails CY_ECM_INTERFACE_ETH0
  /\ flag (is_ethernet_link_up sample_globals) CY_ECM_INTERFACE_ETH0 = false
  /\ code_and_initiated
       (cy_ecm_connect 100 sample_platform link_down_release_fails
          sample_globals (Some sample_object) None None)
     = Some (CY_RSLT_ECM_MUTEX_ERROR, is_ethernet_initiated sample_globals)
  /\ CY_RSLT_ECM_MUTEX_ERROR <> CY_RSLT_ECM_ERROR.
Proof.
  split; [intros n [_ H]; discriminate H|]. split; [reflexivity|].
  split; [vm_compute; reflexivity | discriminate].
Qed.

(** *** The address wait *)

Lemma connect_dhcp_wait_leaves_on_success (cfg : platform) (E : collaborators)
    (fuel n : nat) (total_wait_time t : Z) (r : cy_rslt_t)
    (ip_addr a : option cy_ecm_ip_address_t) (tr : list event) :
  connect_dhcp_wait fuel cfg E n total_wait_time ip_addr = Some (t, r, a, tr) ->
  r = CY_RSLT_SUCCESS.
Proof.
  revert n total_wait_time t r a tr.
  induction fuel as [|fuel IH]; intros n total_wait_time t r a tr; [done|].
  cbn [connect_dhcp_wait].
  destruct (on_cy_network_get_ip_address E n) as [r0 w].
  unfold succeeded. destruct (bool_decide_reflect (r0 = CY_RSLT_SUCCESS)) as [->|Hne].
  - intros [= <- <- <- <-]. reflexivity.
  - destruct (connect_dhcp_wait fuel cfg E (S n) _ ip_addr)
      as [[[[t' r'] a'] tr']|] eqn:Hrec; [|done].
    cbn. intros [= <- <- <- <-]. by eapply IH.
Qed.

Lemma connect_dhcp_wait_never_assigned (cfg : platform) (E : collaborators) :
  address_never_assigned E ->
  forall (fuel n : nat) (total_wait_time : Z)
         (ip_addr : option cy_ecm_ip_address_t),
    connect_dhcp_wait fuel cfg E n total_wait_time ip_addr = None.
Proof.
  intros Hnever. induction fuel as [|fuel IH]; intros n total_wait_time ip_addr;
    [done|].
  cbn [connect_dhcp_wait]. specialize (Hnever n).
  destruct (on_cy_network_get_ip_address E n) as [r w]. simpl in Hnever.
  unfold succeeded. rewrite (bool_decide_false _ Hnever).
  by rewrite IH.
Qed.

Lemma connect_link_wait_events (E : collaborators) (i : cy_ecm_interface_t)
    (fuel n : nat) (total_wait_time t : Z) (result r : cy_rslt_t)
    (tr : list event) :
  connect_link_wait fuel E i n total_wait_time result = Some (t, r, tr) ->
  Ev_cy_network_ip_up ∉ tr.
Proof.
  revert n total_wait_time result t r tr.
  induction fuel as [|fuel IH]; intros n total_wait_time result t r tr.
  - cbn [connect_link_wait]. destruct (bool_decide _); [done|].
    intros [= <- <- <-]. apply not_elem_of_nil.
  - cbn [connect_link_wait]. destruct (bool_decide _);
      [|intros [= <- <- <-]; apply not_elem_of_nil].
    destruct (on_phy_get_linkstatus E n i) as [r0 linkstatus].
    destruct (succeeded r0 && bool_decide (linkstatus = 1)).
    + intros [= <- <- <-] Hin. apply list_elem_of_singleton in Hin. discriminate.
    + destruct (connect_link_wait fuel E i (S n) _ r0)
        as [[[t' r'] tr']|] eqn:Hrec; [|done].
      cbn. intros [= <- <- <-] Hin.
      do 2 (apply elem_of_cons in Hin as [Hin | Hin]; [discriminate|]).
      by eapply IH.
Qed.

(** C1, as the code has it.  Once the IP layer is up, the address wait of
    [cy_ecm_connect] is a [while ( true )] that is left only by a successful
    address query; the comparison with DHCP_TIMEOUT_COUNT stands after the
    loop.  So when the network stack never reports an address, a call that
    finds the link up does not return, whatever number of turns it is
    given: there is no CY_RSLT_ECM_DHCP_TIMEOUT, no ip-down and no detach.
    The only calls that do return are those that gave up in the link wait,
    before the IP layer was brought up. *)
Theorem cy_ecm_connect_address_wait_unbounded (cfg : platform)
    (E : collaborators) (g : globals) (o : cy_ecm_object_t)
    (ecm_static_ip_addr : option cy_ecm_ip_setting_t)
    (ip_addr : option cy_ecm_ip_address_t)
    (ctx : option cy_network_interface_context) :
  admitted E g o ->
  network_up o = false ->
  static_supported cfg ecm_static_ip_addr ->
  on_cy_network_add_nw_interface E = (CY_RSLT_SUCCESS, ctx) ->
  on_cy_network_ip_up E = CY_RSLT_SUCCESS ->
  address_never_assigned E ->
  forall fuel,
    (flag (is_ethernet_link_up g) (eth_idx o) = true ->
     cy_ecm_connect fuel cfg E g (Some o) ecm_static_ip_addr ip_addr = None)
    /\ (forall out,
          cy_ecm_connect fuel cfg E g (Some o) ecm_static_ip_addr ip_addr
          = Some out ->
          out.1.1.1.1 <> CY_RSLT_ECM_DHCP_TIMEOUT
          /\ Ev_cy_network_ip_up ∉ out.2).
Proof.
  intros (Hinit & Hget & Hobj) Hup Hstatic Hadd Hipup Hnever fuel.
  assert (Hip : forall g0 tr0,
            connect_ip_up fuel cfg E g0 (set_iface_context o ctx) ip_addr tr0
            = None).
  { intros g0 tr0. unfold connect_ip_up, succeeded. rewrite Hipup.
    rewrite bool_decide_true by done. cbn [negb].
    by rewrite (connect_dhcp_wait_never_assigned cfg E Hnever). }
  assert (Hconnect :
            cy_ecm_connect fuel cfg E g (Some o) ecm_static_ip_addr ip_addr
            = co ← connect_attach fuel cfg E g o
                     (static_words ecm_static_ip_addr) ip_addr;
              Some (release E (co_result co), co_globals co,
                    Some (co_object co), co_ip_addr co,
                    Ev_cy_rtos_get_mutex :: co_trace co
                      ++ [Ev_cy_rtos_set_mutex])).
  { unfold cy_ecm_connect, connect_locked, succeeded.
    rewrite Hinit, Hget, Hobj, Hup.
    rewrite bool_decide_true by done. cbn [negb].
    destruct ecm_static_ip_addr as [s|]; simpl in Hstatic; [|done].
    by rewrite (bool_decide_true _ Hstatic). }
  rewrite Hconnect. unfold connect_attach. rewrite Hadd.
  unfold succeeded. rewrite bool_decide_true by done.
  cbn [negb set_iface_context eth_idx].
  split.
  - intros Hflag. rewrite Hflag. cbn [negb].
    fold (set_iface_context o ctx). by rewrite Hip.
  - intros out. fold (set_iface_context o ctx).
    destruct (flag (is_ethernet_link_up g) (eth_idx o)); cbn [negb];
      [by rewrite Hip|].
    destruct (connect_link_wait fuel E (eth_idx o) 0 0 CY_RSLT_SUCCESS)
      as [[[t r] tr]|] eqn:Hwait; [|done].
    cbn [mbind option_bind].
    destruct (bool_decide (t >= MAX_WAIT_ETHERNET_PHY_STATUS));
      [|by rewrite Hip].
    cbn. intros [= <-]. cbn. split.
    + unfold release. by destruct (succeeded (on_cy_rtos_set_mutex E)).
    + intros Hin.
      do 3 (apply elem_of_cons in Hin as [Hin | Hin]; [discriminate|]).
      apply elem_of_app in Hin as [Hin | Hin].
      * by eapply connect_link_wait_events.
      * apply list_elem_of_singleton in Hin. discriminate.
Qed.

Lemma no_address_never_assigned : address_never_assigned no_address.
Proof. intros n H. discriminate H. Qed.

Lemma cy_ecm_connect_address_wait_unbounded_witness :
  address_never_assigned no_address
  /\ flag (is_ethernet_link_up link_up_globals) (eth_idx sample_object) = true
  /\ cy_ecm_connect 4000 sample_platform no_address link_up_globals
       (Some sample_object) None None = None.
Proof.
  split; [exact no_address_never_assigned|]. split; [reflexivity|].
  assert (Hadm : admitted no_address link_up_globals sample_object)
    by (split; [reflexivity|]; split; reflexivity).
  destruct (cy_ecm_connect_address_wait_unbounded sample_platform no_address
              link_up_globals sample_object None None (Some 1%positive)
              Hadm eq_refl I eq_refl eq_refl no_address_never_assigned
              4000%nat) as (H & _).
  exact (H eq_refl).
Defined.

(** The comparison after the loop counts milliseconds against 6000: an
    address that arrives after 600 failed queries (6 s) is accepted, one
    that arrives after 601 is answered with CY_RSLT_ECM_DHCP_TIMEOUT, ip-down
    and detach. *)
Lemma cy_ecm_connect_late_address :
  code_and_initiated
    (cy_ecm_connect 1000 sample_platform (address_after 600) link_up_globals
       (Some sample_object) None None)
  = Some (CY_RSLT_SUCCESS, [true; false])
  /\ code_and_initiated
       (cy_ecm_connect 1000 sample_platform (address_after 601) link_up_globals
          (Some sample_object) None None)
     = Some (CY_RSLT_ECM_DHCP_TIMEOUT, [true; false]).
Proof. split; vm_compute; reflexivity. Qed.

(** ** Interface handle creation *)

Lemma cy_ecm_ethif_init_admitted (cfg : platform) (E : collaborators)
    (g : globals) (eth_idx : cy_ecm_interface_t) (cb : cy_ecm_phy_callbacks_t) :
  interface_enabled cfg eth_idx ->
  all_phy_callbacks_present cb = true ->
  is_ecm_initialized g = true ->
  on_cy_rtos_get_mutex E = CY_RSLT_SUCCESS ->
  cy_ecm_ethif_init cfg E g eth_idx (Some cb) (Some ())
  = let '(result, g', slot, tr) := ethif_init_locked cfg E g eth_idx cb in
    (result, g', slot, Ev_cy_rtos_get_mutex :: tr).
Proof.
  intros Hen Hcb Hinit Hget. unfold cy_ecm_ethif_init, succeeded.
  rewrite Hcb, Hinit, Hget.
  rewrite (bool_decide_false (Some () = None)) by done.
  rewrite (bool_decide_true (CY_RSLT_SUCCESS = CY_RSLT_SUCCESS)) by done.
  destruct Hen as [[-> H] | [-> H]]; cbn; by rewrite H.
Qed.

(** Closes the four parts of the statement below on one path, once the
    path is fixed up to the answer to the release of the global mutex. *)
Ltac before_mark :=
  try match goal with
      | |- context [bool_decide (on_cy_rtos_set_mutex ?E = ?r)] =>
          destruct (bool_decide (on_cy_rtos_set_mutex E = r))
      end;
  (cbn; split; [reflexivity|]; split; [discriminate|]; split;
   intros Hin Hok;
   first [congruence | compute_done | exfalso; revert Hin; compute_done]).

(** Every return taken before the interface is marked, that is up to and
    including a failed hardware initialization, is an error return that
    leaves the statics as they were and frees the object if it was
    allocated, after its mutex if that was created. *)
Lemma cy_ecm_ethif_init_rollback_before_mark (cfg : platform) (E : collaborators)
    (g : globals) (eth_idx : cy_ecm_interface_t)
    (phy_callbacks : option cy_ecm_phy_callbacks_t) (ecm_handle : option unit) :
  on_cy_eth_driver_initialization E <> CY_RSLT_SUCCESS ->
  let out := cy_ecm_ethif_init cfg E g eth_idx phy_callbacks ecm_handle in
  out.1.1.2 = g
  /\ out.1.1.1 <> CY_RSLT_SUCCESS
  /\ (Ev_malloc ∈ out.2 -> on_malloc E = true -> Ev_free ∈ out.2)
  /\ (Ev_obj_mutex_init ∈ out.2 -> on_obj_mutex_init E = CY_RSLT_SUCCESS ->
      Ev_obj_mutex_deinit ∈ out.2).
Proof.
  intros Hdrv. cbv zeta.
  unfold cy_ecm_ethif_init, ethif_init_locked, ethif_init_exit, release, succeeded.
  rewrite (bool_decide_false _ Hdrv).
  destruct (bool_decide (ecm_handle = None)
            || bool_decide (eth_idx = CY_ECM_INTERFACE_INVALID));
    [by before_mark|].
  destruct (negb _); [by before_mark|].
  destruct phy_callbacks as [cb|]; [|by before_mark].
  destruct (negb (all_phy_callbacks_present cb)); [by before_mark|].
  destruct (negb (is_ecm_initialized g)); [by before_mark|].
  destruct (negb (bool_decide (on_cy_rtos_get_mutex E = CY_RSLT_SUCCESS)));
    [by before_mark|].
  destruct (flag (is_ethernet_initiated g) eth_idx); [by before_mark|].
  destruct (on_malloc E); cbn [negb]; [|by before_mark].
  destruct (bool_decide_reflect (on_obj_mutex_init E = CY_RSLT_SUCCESS));
    by before_mark.
Qed.

(** C2, as the code has it.  [cy_ecm_ethif_init] marks the interface as
    initiated before it creates the link-monitor thread, and its [exit]
    label frees the object and its mutex but does not clear the mark.  So
    when hardware initialization succeeds and the thread cannot be created,
    the call returns CY_RSLT_ECM_ERROR with the object freed, the caller's
    handle dangling, and [is_ethernet_initiated[eth_idx]] true; every later
    [cy_ecm_ethif_init] for that interface is refused with
    CY_RSLT_ECM_INIT_ERROR. *)
Theorem cy_ecm_ethif_init_thread_failure (cfg : platform) (E E' : collaborators)
    (g : globals) (eth_idx : cy_ecm_interface_t) (cb : cy_ecm_phy_callbacks_t) :
  interface_enabled cfg eth_idx ->
  all_phy_callbacks_present cb = true ->
  well_sized g ->
  is_ecm_initialized g = true ->
  flag (is_ethernet_initiated g) eth_idx = false ->
  is_ecm_thread_created g = 0 ->
  on_cy_rtos_get_mutex E = CY_RSLT_SUCCESS ->
  on_malloc E = true ->
  on_obj_mutex_init E = CY_RSLT_SUCCESS ->
  on_cy_eth_driver_initialization E = CY_RSLT_SUCCESS ->
  on_cy_rtos_create_thread E <> CY_RSLT_SUCCESS ->
  on_cy_rtos_set_mutex E = CY_RSLT_SUCCESS ->
  on_cy_rtos_get_mutex E' = CY_RSLT_SUCCESS ->
  on_cy_rtos_set_mutex E' = CY_RSLT_SUCCESS ->
  let g' :=
    set_is_ethernet_initiated g (<[idx eth_idx := true]> (is_ethernet_initiated g)) in
  (exists tr,
     cy_ecm_ethif_init cfg E g eth_idx (Some cb) (Some ())
     = (CY_RSLT_ECM_ERROR, g', slot_dangling,
        tr ++ [Ev_cy_rtos_create_thread; Ev_obj_mutex_deinit; Ev_free;
               Ev_cy_rtos_set_mutex]))
  /\ flag (is_ethernet_initiated g') eth_idx = true
  /\ cy_ecm_ethif_init cfg E' g' eth_idx (Some cb) (Some ())
     = (CY_RSLT_ECM_INIT_ERROR, g', slot_unchanged,
        [Ev_cy_rtos_get_mutex; Ev_cy_rtos_set_mutex]).
Proof.
  intros Hen Hcb (_ & Hlen & _) Hinit Hflag Hthr Hget Hmalloc Hom Hdrv Hct Hset
    Hget' Hset'.
  cbv zeta.
  assert (Hflag' :
    flag (<[idx eth_idx := true]> (is_ethernet_initiated g)) eth_idx = true).
  { apply flag_insert_eq. rewrite Hlen.
    destruct Hen as [[-> _] | [-> _]]; simpl; unfold CY_ECM_ETH_INTERFACE_MAX; lia. }
  split; [|split].
  - exists (Ev_cy_rtos_get_mutex
              :: [Ev_malloc; Ev_obj_mutex_init; Ev_cyhal_syspm_lock_deepsleep;
                  Ev_cy_eth_driver_initialization eth_idx]
              ++ configured_modes cfg (ETH_INTERFACE_TYPE cfg eth_idx)
              ++ [Ev_cyhal_syspm_unlock_deepsleep]).
    rewrite (cy_ecm_ethif_init_admitted cfg E g eth_idx cb) by done.
    unfold ethif_init_locked, ethif_init_exit, release, succeeded.
    rewrite Hflag, Hmalloc, Hom, Hdrv, Hset.
    rewrite !(bool_decide_true (CY_RSLT_SUCCESS = CY_RSLT_SUCCESS)) by done.
    cbn [negb is_ecm_thread_created set_is_ethernet_initiated].
    rewrite Hthr, (bool_decide_false _ Hct).
    rewrite bool_decide_true by done. cbn [negb andb].
    reflexivity.
  - exact Hflag'.
  - rewrite (cy_ecm_ethif_init_admitted cfg E') by done.
    unfold ethif_init_locked, ethif_init_exit, release, succeeded.
    cbn [is_ethernet_initiated set_is_ethernet_initiated].
    rewrite Hflag', Hset'. by rewrite bool_decide_true by done.
Qed.

Lemma cy_ecm_ethif_init_thread_failure_witness :
  flag (is_ethernet_initiated active_globals) CY_ECM_INTERFACE_ETH0 = false
  /\ on_cy_rtos_create_thread no_thread <> CY_RSLT_SUCCESS
  /\ (cy_ecm_ethif_init sample_platform no_thread active_globals
        CY_ECM_INTERFACE_ETH0 (Some sample_phy_callbacks) (Some ())).1.1.1
     = CY_RSLT_ECM_ERROR
  /\ is_ethernet_initiated
       (cy_ecm_ethif_init sample_platform no_thread active_globals
          CY_ECM_INTERFACE_ETH0 (Some sample_phy_callbacks) (Some ())).1.1.2
     = [true; false]
  /\ (cy_ecm_ethif_init sample_platform no_thread active_globals
        CY_ECM_INTERFACE_ETH0 (Some sample_phy_callbacks) (Some ())).1.2
     = slot_dangling.
Proof.
  split; [reflexivity|].
  assert (Hen : interface_enabled sample_platform CY_ECM_INTERFACE_ETH0)
    by (left; split; reflexivity).
  assert (Hws : well_sized active_globals) by (repeat split).
  assert (Hct : on_cy_rtos_create_thread no_thread <> CY_RSLT_SUCCESS)
    by (intros Heq; discriminate Heq).
  split; [exact Hct|].
  destruct (cy_ecm_ethif_init_thread_failure sample_platform no_thread
              cooperative active_globals CY_ECM_INTERFACE_ETH0
              sample_phy_callbacks Hen eq_refl Hws eq_refl eq_refl eq_refl
              eq_refl eq_refl eq_refl eq_refl Hct eq_refl eq_refl eq_refl)
    as ([tr Hfail] & _ & _).
  rewrite Hfail. repeat split.
Defined.

(** * Further properties *)

(** ** Manager lifecycle *)

(** X1.  A successful [cy_ecm_init] on an inactive manager followed by
    [cy_ecm_deinit] gives back the statics of the start: the network stack
    is deinitialized, then the global mutex destroyed.  A second
    [cy_ecm_deinit] is refused with CY_RSLT_MODULE_ECM_NOT_INITIALIZED and
    makes no call. *)
Theorem cy_ecm_init_deinit_round_trip (E : collaborators) (g : globals) :
  tcp_follows_ecm g ->
  is_ecm_initialized g = false ->
  on_cy_network_init E = CY_RSLT_SUCCESS ->
  on_cy_rtos_init_mutex2 E = CY_RSLT_SUCCESS ->
  (cy_ecm_init E g).1.1 = CY_RSLT_SUCCESS
  /\ cy_ecm_deinit (cy_ecm_init E g).1.2
     = (CY_RSLT_SUCCESS, g, [Ev_cy_network_deinit; Ev_cy_rtos_deinit_mutex])
  /\ cy_ecm_deinit (cy_ecm_deinit (cy_ecm_init E g).1.2).1.2
     = (CY_RSLT_MODULE_ECM_NOT_INITIALIZED, g, []).
Proof.
  intros Hinv Hecm Hnw Hmx.
  assert (Htcp : is_tcp_initialized g = false).
  { destruct (is_tcp_initialized g) eqn:Ht; [|done].
    specialize (Hinv Ht). congruence. }
  unfold cy_ecm_init, succeeded. rewrite Hecm, Htcp, Hnw, Hmx. cbn.
  destruct g; simpl in *; subst. repeat split.
Qed.

Lemma cy_ecm_init_deinit_round_trip_witness :
  tcp_follows_ecm initial_globals
  /\ cy_ecm_deinit (cy_ecm_init cooperative initial_globals).1.2
     = (CY_RSLT_SUCCESS, initial_globals,
        [Ev_cy_network_deinit; Ev_cy_rtos_deinit_mutex]).
Proof.
  assert (Hinv : tcp_follows_ecm initial_globals) by (intros H; discriminate H).
  split; [exact Hinv|].
  destruct (cy_ecm_init_deinit_round_trip cooperative initial_globals Hinv
              eq_refl eq_refl eq_refl) as (_ & H & _).
  exact H.
Defined.




(** ** What connect writes *)

Lemma connect_ip_up_globals (fuel : nat) (cfg : platform) (E : collaborators)
    (g : globals) (o : cy_ecm_object_t) (ip_addr : option cy_ecm_ip_address_t)
    (tr0 : list event) (co : connect_outcome) :
  connect_ip_up fuel cfg E g o ip_addr tr0 = Some co -> co_globals co = g.
Proof.
  unfold connect_ip_up.
  destruct (negb (succeeded (on_cy_network_ip_up E))); [by intros [= <-]|].
  destruct (connect_dhcp_wait fuel cfg E 0 0 ip_addr) as [[[[t r] a] tr]|];
    [|done].
  cbn. destruct (bool_decide (t > DHCP_TIMEOUT_COUNT)); by intros [= <-].
Qed.

Lemma connect_attach_globals (fuel : nat) (cfg : platform) (E : collaborators)
    (g : globals) (o : cy_ecm_object_t) (s : option (Z * Z * Z))
    (ip_addr : option cy_ecm_ip_address_t) (co : connect_outcome) :
  connect_attach fuel cfg E g o s ip_addr = Some co ->
  co_globals co = g
  \/ (flag (is_ethernet_link_up g) (eth_idx o) = false
      /\ co_globals co
         = set_is_ethernet_link_up g
             (<[idx (eth_idx o) := true]> (is_ethernet_link_up g))).
Proof.
  unfold connect_attach.
  destruct (on_cy_network_add_nw_interface E) as [r ctx].
  destruct (negb (succeeded r)); [intros [= <-]; by left|].
  cbn [set_iface_context eth_idx].
  destruct (flag (is_ethernet_link_up g) (eth_idx o)) eqn:Hflag; cbn [negb].
  - intros H. left. by eapply connect_ip_up_globals.
  - destruct (connect_link_wait fuel E (eth_idx o) 0 0 r) as [[[t r'] tr]|];
      [|done].
    cbn. destruct (bool_decide (t >= MAX_WAIT_ETHERNET_PHY_STATUS)).
    + intros [= <-]. by left.
    + intros H. right. split; [done|]. by eapply connect_ip_up_globals.
Qed.

Lemma cy_ecm_connect_globals (fuel : nat) (cfg : platform)
    (E : collaborators) (g : globals) (ecm_handle : option cy_ecm_object_t)
    (ecm_static_ip_addr : option cy_ecm_ip_setting_t)
    (ip_addr : option cy_ecm_ip_address_t)
    (out : cy_rslt_t * globals * option cy_ecm_object_t
           * option cy_ecm_ip_address_t * list event) :
  cy_ecm_connect fuel cfg E g ecm_handle ecm_static_ip_addr ip_addr = Some out ->
  out.1.1.1.2 = g
  \/ (exists o,
        ecm_handle = Some o
        /\ flag (is_ethernet_link_up g) (eth_idx o) = false
        /\ out.1.1.1.2
           = set_is_ethernet_link_up g
               (<[idx (eth_idx o) := true]> (is_ethernet_link_up g))).
Proof.
  unfold cy_ecm_connect.
  destruct ecm_handle as [o|]; [|intros [= <-]; by left].
  destruct (negb (is_ecm_initialized g)); [intros [= <-]; by left|].
  destruct (negb (succeeded (on_cy_rtos_get_mutex E)));
    [intros [= <-]; by left|].
  destruct (connect_locked fuel cfg E g o ecm_static_ip_addr ip_addr)
    as [co|] eqn:Hlocked; [|done].
  cbn. intros [= <-]. cbn.
  revert Hlocked. unfold connect_locked.
  destruct (negb (isobjinitialized o)); [intros [= <-]; by left|].
  destruct (network_up o); [intros [= <-]; by left|].
  assert (Hattach : forall s,
            connect_attach fuel cfg E g o s ip_addr = Some co ->
            co_globals co = g
            \/ (exists o0, Some o = Some o0
                  /\ flag (is_ethernet_link_up g) (eth_idx o0) = false
                  /\ co_globals co
                     = set_is_ethernet_link_up g
                         (<[idx (eth_idx o0) := true]> (is_ethernet_link_up g)))).
  { intros s H. destruct (connect_attach_globals _ _ _ _ _ _ _ _ H) as [?|[? ?]];
      [by left | right; by exists o]. }
  destruct ecm_static_ip_addr as [s|]; [|apply Hattach].
  destruct (bool_decide _); [apply Hattach | intros [= <-]; by left].
Qed.

(** X3.  Whatever its arguments and whatever the collaborators answer, a
    call of [cy_ecm_connect] that returns has written no static other than
    [is_ethernet_link_up], and that one only at the index of the object,
    from false to true. *)
Theorem cy_ecm_connect_writes_link_flag_only (fuel : nat) (cfg : platform)
    (E : collaborators) (g : globals) (ecm_handle : option cy_ecm_object_t)
    (ecm_static_ip_addr : option cy_ecm_ip_setting_t)
    (ip_addr : option cy_ecm_ip_address_t)
    (out : cy_rslt_t * globals * option cy_ecm_object_t
           * option cy_ecm_ip_address_t * list event) :
  cy_ecm_connect fuel cfg E g ecm_handle ecm_static_ip_addr ip_addr = Some out ->
  out.1.1.1.2 = g
  \/ (exists o,
        ecm_handle = Some o
        /\ flag (is_ethernet_link_up g) (eth_idx o) = false
        /\ out.1.1.1.2
           = set_is_ethernet_link_up g
               (<[idx (eth_idx o) := true]> (is_ethernet_link_up g))).
Proof. apply cy_ecm_connect_globals. Qed.


Lemma cy_ecm_connect_writes_link_flag_only_witness :
  cy_ecm_connect 10 sample_platform cooperative sample_globals
    (Some sample_object) None None
  = Some (CY_RSLT_SUCCESS, link_up_globals,
          Some (set_network_up
                  (set_iface_context sample_object (Some 1%positive)) true),
          None,
          [Ev_cy_rtos_get_mutex;
           Ev_cy_network_add_nw_interface CY_ECM_INTERFACE_ETH0 None;
           Ev_cy_network_register_ip_change_cb true;
           Ev_phy_get_linkstatus CY_ECM_INTERFACE_ETH0;
           Ev_cy_network_ip_up; Ev_cy_network_get_ip_address;
           Ev_cy_rtos_set_mutex])
  /\ (link_up_globals = sample_globals
      \/ exists o,
           Some sample_object = Some o
           /\ flag (is_ethernet_link_up sample_globals) (eth_idx o) = false
           /\ link_up_globals
              = set_is_ethernet_link_up sample_globals
                  (<[idx (eth_idx o) := true]>
                     (is_ethernet_link_up sample_globals))).
Proof.
  split; [reflexivity|].
  exact (cy_ecm_connect_writes_link_flag_only 10 sample_platform cooperative
           sample_globals (Some sample_object) None None _ eq_refl).
Defined.

(** ** Invariants of the statics *)

Lemma register_scan_length (n i : nat) (handlers : list cy_ecm_event_callback_t)
    (cb : fnptr) :
  length (register_scan n i handlers cb) = length handlers.
Proof.
  revert i. induction n as [|n IH]; intros i; simpl; [done|].
  destruct (handlers !! i) as [[c|]|]; try apply IH. apply length_insert.
Qed.

Lemma deregister_scan_length (n i : nat)
    (handlers : list cy_ecm_event_callback_t) (cb : fnptr) :
  length (deregister_scan n i handlers cb) = length handlers.
Proof.
  revert i. induction n as [|n IH]; intros i; simpl; [done|].
  destruct (bool_decide _); [apply length_insert | apply IH].
Qed.

Lemma wrap8_range (z : Z) : 0 <= wrap8 z < 256.
Proof. unfold wrap8. apply Z.mod_pos_bound. lia. Qed.

(** Rewriting a flag array in place keeps [sound]. *)
Lemma sound_set_is_ethernet_link_up (g : globals) (i : nat) (b : bool) :
  sound g -> sound (set_is_ethernet_link_up g (<[i := b]> (is_ethernet_link_up g))).
Proof.
  intros ((Hh & Hi & Hl) & Hinv & Hc). repeat split; cbn; try done; try lia.
  by rewrite length_insert.
Qed.

Lemma sound_set_is_ethernet_initiated (g : globals) (i : nat) (b : bool) :
  sound g ->
  sound (set_is_ethernet_initiated g (<[i := b]> (is_ethernet_initiated g))).
Proof.
  intros ((Hh & Hi & Hl) & Hinv & Hc). repeat split; cbn; try done; try lia.
  by rewrite length_insert.
Qed.

Lemma sound_set_is_ecm_thread_created (g : globals) (z : Z) :
  sound g -> sound (set_is_ecm_thread_created g (wrap8 z)).
Proof.
  intros ((Hh & Hi & Hl) & Hinv & Hc).
  pose proof (wrap8_range z). repeat split; cbn; try done; lia.
Qed.

Lemma sound_set_ecm_event_thread (g : globals) (b : bool) :
  sound g -> sound (set_ecm_event_thread g b).
Proof. intros ((Hh & Hi & Hl) & Hinv & Hc). repeat split; cbn; try done; lia. Qed.

Lemma sound_set_ecm_event_handler (g : globals)
    (h : list cy_ecm_event_callback_t) :
  length h = length (ecm_event_handler g) ->
  sound g -> sound (set_ecm_event_handler g h).
Proof.
  intros Hlen ((Hh & Hi & Hl) & Hinv & Hc).
  repeat split; cbn; try done; try lia; try (by rewrite Hlen).
Qed.

Lemma sound_cy_ecm_init (E : collaborators) (g : globals) :
  sound g -> sound (cy_ecm_init E g).1.2.
Proof.
  intros (Hws & Hinv & Hc). split; [|split].
  - revert Hws. unfold cy_ecm_init.
    repeat (destruct (_ : bool); cbn; try done).
  - by apply cy_ecm_init_tcp_follows_ecm.
  - revert Hc. unfold cy_ecm_init.
    repeat (destruct (_ : bool); cbn; try done).
Qed.

Lemma sound_cy_ecm_deinit (g : globals) :
  sound g -> sound (cy_ecm_deinit g).1.2.
Proof.
  intros (Hws & Hinv & Hc). split; [|split].
  - revert Hws. unfold cy_ecm_deinit. by destruct (negb _).
  - by apply cy_ecm_deinit_tcp_follows_ecm.
  - revert Hc. unfold cy_ecm_deinit. by destruct (negb _).
Qed.

Lemma sound_cy_ecm_ethif_init (cfg : platform) (E : collaborators) (g : globals)
    (eth_idx : cy_ecm_interface_t)
    (phy_callbacks : option cy_ecm_phy_callbacks_t) (ecm_handle : option unit) :
  sound g ->
  sound (cy_ecm_ethif_init cfg E g eth_idx phy_callbacks ecm_handle).1.1.2.
Proof.
  intros Hs. unfold cy_ecm_ethif_init.
  destruct (_ || _); [done|]. destruct (negb _); [done|].
  destruct phy_callbacks as [cb|]; [|done].
  destruct (negb _); [done|]. destruct (negb _); [done|].
  destruct (negb _); [done|].
  unfold ethif_init_locked, ethif_init_exit.
  destruct (flag _ _); [done|]. destruct (negb _); [done|].
  destruct (negb _); [done|]. destruct (negb _); [done|].
  pose proof (sound_set_is_ethernet_initiated g (idx eth_idx) true Hs) as Hs1.
  destruct (_ && _); [done|]. cbn [fst snd].
  apply sound_set_is_ecm_thread_created.
  destruct (bool_decide _); [by apply sound_set_ecm_event_thread | done].
Qed.

Lemma sound_cy_ecm_ethif_deinit (E : collaborators) (g : globals)
    (ecm_handle : option (option cy_ecm_object_t)) :
  sound g -> sound (cy_ecm_ethif_deinit E g ecm_handle).1.1.2.
Proof.
  intros Hs. unfold cy_ecm_ethif_deinit.
  destruct ecm_handle as [[o|]|]; try done.
  destruct (negb _); [done|]. destruct (negb _); [done|]. cbn [fst snd].
  pose proof (sound_set_is_ecm_thread_created g (is_ecm_thread_created g - 1) Hs)
    as Hs1.
  destruct (_ && _).
  - apply sound_set_is_ethernet_initiated. by apply sound_set_ecm_event_thread.
  - by apply sound_set_is_ethernet_initiated.
Qed.

Lemma sound_registry (E : collaborators) (g : globals)
    (ecm_handle : option cy_ecm_object_t)
    (event_callback : cy_ecm_event_callback_t) :
  sound g ->
  sound (cy_ecm_register_event_callback E g ecm_handle event_callback).1.2
  /\ sound (cy_ecm_deregister_event_callback E g ecm_handle event_callback).1.2.
Proof.
  intros Hs.
  unfold cy_ecm_register_event_callback, cy_ecm_deregister_event_callback.
  destruct ecm_handle as [o|], event_callback as [cb|]; try done.
  destruct (negb _); [done|]. destruct (negb _); [done|].
  destruct (negb _); [done|]. cbn [fst snd]. split.
  - apply sound_set_ecm_event_handler; [apply register_scan_length | done].
  - apply sound_set_ecm_event_handler; [apply deregister_scan_length | done].
Qed.

Lemma sound_ecm_event_thread_iteration
    (phy : cy_ecm_interface_t -> cy_rslt_t * Z) (g : globals) :
  sound g -> sound (ecm_event_thread_iteration phy g).1.
Proof.
  intros Hs.
  assert (Hm : forall i, sound (monitor_interface phy i g).1).
  { intros i. unfold monitor_interface. destruct (phy i) as [r ls].
    destruct (succeeded r); [|done].
    destruct (bool_decide _); destruct (flag _ _); cbn; try done;
      by apply sound_set_is_ethernet_link_up. }
  unfold ecm_event_thread_iteration.
  destruct (flag _ CY_ECM_INTERFACE_ETH0).
  - specialize (Hm CY_ECM_INTERFACE_ETH0). by destruct (monitor_interface _ _ _).
  - destruct (flag _ CY_ECM_INTERFACE_ETH1); [|done].
    specialize (Hm CY_ECM_INTERFACE_ETH1). by destruct (monitor_interface _ _ _).
Qed.

Lemma sound_initial_globals : sound initial_globals.
Proof. split; [by repeat split|]. split; [exact tcp_follows_ecm_initial | done]. Qed.

(** X4.  From the zeroed statics of the program start, no sequence of API
    calls and link-monitor turns, with any arguments and any answers from
    the collaborators, takes the statics out of [sound]: the three arrays
    keep their sizes (3 callback slots, 2 flags each), the network-stack
    flag is never set without the manager's own, and the thread count stays
    a [uint8_t]. *)
Theorem reachable_sound (g : globals) : reachable g -> sound g.
Proof.
  induction 1 as [|g g' _ IH Hstep]; [exact sound_initial_globals|].
  destruct Hstep as [E | | cfg E i cb h | E h | fuel cfg E h s a out Hout
                    | E h cb | E h cb | phy].
  - by apply sound_cy_ecm_init.
  - by apply sound_cy_ecm_deinit.
  - by apply sound_cy_ecm_ethif_init.
  - by apply sound_cy_ecm_ethif_deinit.
  - destruct (cy_ecm_connect_globals _ _ _ _ _ _ _ _ Hout)
      as [-> | (o & _ & _ & ->)]; [done|].
    by apply sound_set_is_ethernet_link_up.
  - by apply sound_registry.
  - by apply sound_registry.
  - by apply sound_ecm_event_thread_iteration.
Qed.

Lemma reachable_sound_witness :
  reachable active_globals /\ sound active_globals.
Proof.
  assert (Hr : reachable active_globals).
  { exact (reachable_step initial_globals _ reachable_start
             (step_init initial_globals cooperative)). }
  split; [exact Hr|]. exact (reachable_sound active_globals Hr).
Defined.


(** ** Interface handles *)

Lemma flag_lookup (a : list bool) (i : cy_ecm_interface_t) (b : bool) :
  (idx i < length a)%nat -> flag a i = b -> a !! idx i = Some b.
Proof.
  unfold flag. intros Hlt <-.
  destruct (a !! idx i) eqn:H; [done|].
  apply lookup_ge_None in H. lia.
Qed.

Lemma interface_enabled_idx (cfg : platform) (i : cy_ecm_interface_t) :
  interface_enabled cfg i -> (idx i < CY_ECM_ETH_INTERFACE_MAX)%nat.
Proof.
  intros [[-> _] | [-> _]]; simpl; unfold CY_ECM_ETH_INTERFACE_MAX; lia.
Qed.

(** Splits a membership in a trace written out with [::] and [++] into its
    cases and drops the impossible ones. *)
Ltac in_trace H :=
  rewrite ?elem_of_cons, ?elem_of_app, ?elem_of_cons, ?elem_of_app,
    ?elem_of_cons, ?elem_of_nil in H;
  destruct_or?; try discriminate; try contradiction.

Lemma not_elem_of_configured_modes (cfg : platform) (base : ETH_Type) (e : event) :
  is_mode_setting e = false -> e ∉ configured_modes cfg base.
Proof.
  intros He Hin.
  assert (Hall : Forall (fun x => is_mode_setting x = true)
                   (configured_modes cfg base)).
  { unfold configured_modes.
    destruct (eth_0_ENABLED cfg), (eth_1_ENABLED cfg),
      (eth_0_PROMISCUOUS_MODE cfg), (eth_1_PROMISCUOUS_MODE cfg),
      (eth_0_ACCEPT_BROADCASR_FRAMES cfg), (eth_1_ACCEPT_BROADCASR_FRAMES cfg);
      repeat constructor. }
  apply list_elem_of_In in Hin. rewrite List.Forall_forall in Hall.
  specialize (Hall e Hin). congruence.
Qed.

(** X5.  A [cy_ecm_ethif_init] in which every step succeeds returns
    CY_RSLT_SUCCESS, marks the interface, adds one to the thread count and
    hands out an initialized, unconnected object with the configured MAC
    address.  The link-monitor thread is created in that call exactly when
    the thread count was zero before. *)
Theorem cy_ecm_ethif_init_success (cfg : platform) (E : collaborators)
    (g : globals) (eth_idx : cy_ecm_interface_t) (cb : cy_ecm_phy_callbacks_t) :
  interface_enabled cfg eth_idx ->
  all_phy_callbacks_present cb = true ->
  is_ecm_initialized g = true ->
  flag (is_ethernet_initiated g) eth_idx = false ->
  on_cy_rtos_get_mutex E = CY_RSLT_SUCCESS ->
  on_malloc E = true ->
  on_obj_mutex_init E = CY_RSLT_SUCCESS ->
  on_cy_eth_driver_initialization E = CY_RSLT_SUCCESS ->
  on_cy_rtos_create_thread E = CY_RSLT_SUCCESS ->
  on_cy_rtos_set_mutex E = CY_RSLT_SUCCESS ->
  let out := cy_ecm_ethif_init cfg E g eth_idx (Some cb) (Some ()) in
  let first := bool_decide (is_ecm_thread_created g = 0) in
  out.1.1.1 = CY_RSLT_SUCCESS
  /\ is_ethernet_initiated out.1.1.2
     = <[idx eth_idx := true]> (is_ethernet_initiated g)
  /\ is_ecm_thread_created out.1.1.2 = wrap8 (is_ecm_thread_created g + 1)
  /\ ecm_event_thread out.1.1.2 = (first || ecm_event_thread g)
  /\ out.1.2
     = slot_object {| eth_idx := eth_idx;
                      eth_base_type := ETH_INTERFACE_TYPE cfg eth_idx;
                      iface_context := None;
                      eth_phy_cb := cb;
                      isobjinitialized := true;
                      network_up := false;
                      mac_address := configured_mac cfg eth_idx |}
  /\ (Ev_cy_rtos_create_thread ∈ out.2 <-> is_ecm_thread_created g = 0)
  /\ (Ev_free ∉ out.2).
Proof.
  intros Hen Hcb Hinit Hflag Hget Hmalloc Hom Hdrv Hct Hset. cbv zeta.
  rewrite (cy_ecm_ethif_init_admitted cfg E g eth_idx cb) by done.
  unfold ethif_init_locked, ethif_init_exit, release, succeeded.
  rewrite Hflag, Hmalloc, Hom, Hdrv, Hct, Hset.
  rewrite !(bool_decide_true (CY_RSLT_SUCCESS = CY_RSLT_SUCCESS)) by done.
  cbn [negb andb is_ecm_thread_created set_is_ethernet_initiated].
  rewrite andb_false_r. cbn [fst snd].
  assert (Hnot : forall e, is_mode_setting e = false ->
            e ∉ configured_modes cfg (ETH_INTERFACE_TYPE cfg eth_idx))
    by (intros e; apply not_elem_of_configured_modes).
  destruct (bool_decide_reflect (is_ecm_thread_created g = 0)) as [Hz|Hz];
    cbn [orb fst snd is_ethernet_initiated is_ecm_thread_created
         ecm_event_thread set_is_ecm_thread_created set_ecm_event_thread
         set_is_ethernet_initiated];
    (do 5 (split; [reflexivity|])); split.
  - split; [done|]. intros _.
    rewrite !elem_of_cons, !elem_of_app, !elem_of_cons. tauto.
  - intros Hin. pose proof (Hnot Ev_free eq_refl). by in_trace Hin.
  - split; [|done]. intros Hin.
    pose proof (Hnot Ev_cy_rtos_create_thread eq_refl). by in_trace Hin.
  - intros Hin. pose proof (Hnot Ev_free eq_refl). by in_trace Hin.
Qed.


Lemma cy_ecm_ethif_init_success_witness :
  interface_enabled sample_platform CY_ECM_INTERFACE_ETH1
  /\ flag (is_ethernet_initiated sample_globals) CY_ECM_INTERFACE_ETH1 = false
  /\ (cy_ecm_ethif_init sample_platform cooperative sample_globals
        CY_ECM_INTERFACE_ETH1 (Some sample_phy_callbacks) (Some ())).1.2
     = slot_object sample_object_eth1
  /\ (Ev_cy_rtos_create_thread
        ∈ (cy_ecm_ethif_init sample_platform cooperative sample_globals
             CY_ECM_INTERFACE_ETH1 (Some sample_phy_callbacks) (Some ())).2
      <-> is_ecm_thread_created sample_globals = 0).
Proof.
  assert (Hen : interface_enabled sample_platform CY_ECM_INTERFACE_ETH1)
    by (right; split; reflexivity).
  split; [exact Hen|]. split; [reflexivity|].
  destruct (cy_ecm_ethif_init_success sample_platform cooperative sample_globals
              CY_ECM_INTERFACE_ETH1 sample_phy_callbacks Hen eq_refl eq_refl
              eq_refl eq_refl eq_refl eq_refl eq_refl eq_refl eq_refl)
    as (_ & _ & _ & _ & Hslot & Hthread & _).
  split; [exact Hslot | exact Hthread].
Defined.

(** X6.  Creating a handle and destroying it again is a round trip on the
    statics: when the interface is free, no handle is counted and no thread
    runs, a successful [cy_ecm_ethif_init] followed by
    [cy_ecm_ethif_deinit] on the object it handed out gives back the statics
    of the start and a NULL handle.  The destroy call terminates and joins
    the link-monitor thread, destroys the object mutex, detaches the driver
    callbacks and frees the object, in that order. *)
Theorem cy_ecm_ethif_init_deinit_round_trip (cfg : platform) (E : collaborators)
    (g : globals) (i : cy_ecm_interface_t) (cb : cy_ecm_phy_callbacks_t) :
  well_sized g ->
  interface_enabled cfg i ->
  all_phy_callbacks_present cb = true ->
  is_ecm_initialized g = true ->
  flag (is_ethernet_initiated g) i = false ->
  is_ecm_thread_created g = 0 ->
  ecm_event_thread g = false ->
  on_cy_rtos_get_mutex E = CY_RSLT_SUCCESS ->
  on_malloc E = true ->
  on_obj_mutex_init E = CY_RSLT_SUCCESS ->
  on_cy_eth_driver_initialization E = CY_RSLT_SUCCESS ->
  on_cy_rtos_create_thread E = CY_RSLT_SUCCESS ->
  on_cy_rtos_set_mutex E = CY_RSLT_SUCCESS ->
  let out := cy_ecm_ethif_init cfg E g i (Some cb) (Some ()) in
  exists o,
    out.1.2 = slot_object o
    /\ out.1.1.1 = CY_RSLT_SUCCESS
    /\ cy_ecm_ethif_deinit E out.1.1.2 (Some (Some o))
       = (CY_RSLT_SUCCESS, g, Some None,
          [Ev Ev_cy_rtos_get_mutex; Ev_cy_rtos_terminate_thread;
           Ev_cy_rtos_join_thread; Ev Ev_obj_mutex_deinit;
           Ev_deregister_cb (ETH_INTERFACE_TYPE cfg i);
           Ev Ev_free; Ev Ev_cy_rtos_set_mutex]).
Proof.
  intros (_ & Hlen & _) Hen Hcb Hinit Hflag Hcnt Hthr Hget Hmalloc Hom Hdrv Hct
    Hset. cbv zeta.
  assert (Hidx : (idx i < length (is_ethernet_initiated g))%nat)
    by (rewrite Hlen; by eapply interface_enabled_idx).
  rewrite (cy_ecm_ethif_init_admitted cfg E g i cb) by done.
  unfold ethif_init_locked, ethif_init_exit, release, succeeded.
  rewrite Hflag, Hmalloc, Hom, Hdrv, Hct, Hset.
  rewrite !(bool_decide_true (CY_RSLT_SUCCESS = CY_RSLT_SUCCESS)) by done.
  cbn [negb andb is_ecm_thread_created set_is_ethernet_initiated].
  rewrite Hcnt, andb_false_r. rewrite bool_decide_true by done.
  cbn [fst snd]. eexists. split; [reflexivity|]. split; [reflexivity|].
  unfold cy_ecm_ethif_deinit, release, succeeded.
  cbn [isobjinitialized negb is_ecm_thread_created set_is_ecm_thread_created
       set_ecm_event_thread set_is_ethernet_initiated ecm_event_thread
       is_ethernet_initiated eth_idx eth_base_type].
  rewrite Hget, Hset, Hcnt. rewrite bool_decide_true by done.
  cbn [negb]. change (wrap8 (wrap8 (0 + 1) - 1)) with 0.
  rewrite bool_decide_true by done. cbn [andb app].
  cbn [is_ethernet_initiated set_is_ethernet_initiated set_ecm_event_thread
       set_is_ecm_thread_created].
  rewrite list_insert_insert_eq.
  rewrite (list_insert_id _ _ _ (flag_lookup _ _ _ Hidx Hflag)).
  destruct g; simpl in *; subst. reflexivity.
Qed.

Lemma cy_ecm_ethif_init_deinit_round_trip_witness :
  well_sized active_globals
  /\ interface_enabled sample_platform CY_ECM_INTERFACE_ETH0
  /\ (cy_ecm_ethif_deinit cooperative
        (cy_ecm_ethif_init sample_platform cooperative active_globals
           CY_ECM_INTERFACE_ETH0 (Some sample_phy_callbacks) (Some ())).1.1.2
        (Some (Some sample_object))).1.1.2
     = active_globals.
Proof.
  assert (Hws : well_sized active_globals) by (repeat split).
  assert (Hen : interface_enabled sample_platform CY_ECM_INTERFACE_ETH0)
    by (left; split; reflexivity).
  split; [exact Hws|]. split; [exact Hen|].
  destruct (cy_ecm_ethif_init_deinit_round_trip sample_platform cooperative
              active_globals CY_ECM_INTERFACE_ETH0 sample_phy_callbacks Hws Hen
              eq_refl eq_refl eq_refl eq_refl eq_refl eq_refl eq_refl eq_refl
              eq_refl eq_refl eq_refl) as (o & Hslot & _ & Hdeinit).
  injection Hslot as <-.
  exact (f_equal (fun x => x.1.1.2) Hdeinit).
Defined.




(** ** Connect: the paths that return *)

Lemma cy_ecm_connect_admitted (fuel : nat) (cfg : platform) (E : collaborators)
    (g : globals) (o : cy_ecm_object_t)
    (ecm_static_ip_addr : option cy_ecm_ip_setting_t)
    (ip_addr : option cy_ecm_ip_address_t) :
  admitted E g o ->
  network_up o = false ->
  static_supported cfg ecm_static_ip_addr ->
  cy_ecm_connect fuel cfg E g (Some o) ecm_static_ip_addr ip_addr
  = co ← connect_attach fuel cfg E g o (static_words ecm_static_ip_addr) ip_addr;
    Some (release E (co_result co), co_globals co, Some (co_object co),
          co_ip_addr co,
          Ev_cy_rtos_get_mutex :: co_trace co ++ [Ev_cy_rtos_set_mutex]).
Proof.
  intros (Hinit & Hget & Hobj) Hup Hstatic.
  unfold cy_ecm_connect, connect_locked, succeeded.
  rewrite Hinit, Hget, Hobj, Hup.
  rewrite bool_decide_true by done. cbn [negb].
  destruct ecm_static_ip_addr as [s|]; simpl in Hstatic; [|done].
  by rewrite (bool_decide_true _ Hstatic).
Qed.

Lemma connect_link_wait_up (E : collaborators) (i : cy_ecm_interface_t) :
  forall (j fuel n : nat) (total_wait_time : Z) (result : cy_rslt_t),
    link_up_at E i (n + j) ->
    (forall m, (m < j)%nat -> ~ link_up_at E i (n + m)) ->
    (j < fuel)%nat ->
    0 <= total_wait_time ->
    total_wait_time + WAIT_CHECK_ETHERNET_PHY_STATUS * Z.of_nat j
      < MAX_WAIT_ETHERNET_PHY_STATUS ->
    connect_link_wait fuel E i n total_wait_time result
    = Some (total_wait_time + WAIT_CHECK_ETHERNET_PHY_STATUS * Z.of_nat j,
            CY_RSLT_SUCCESS, link_polls i j ++ [Ev_phy_get_linkstatus i]).
Proof.
  unfold WAIT_CHECK_ETHERNET_PHY_STATUS, MAX_WAIT_ETHERNET_PHY_STATUS.
  induction j as [|j IH]; intros fuel n t result Hup Hdown Hfuel Ht Hmax;
    (destruct fuel as [|fuel]; [lia|]); cbn [connect_link_wait].
  - rewrite Nat.add_0_r in Hup. destruct Hup as [Hr Hl].
    unfold MAX_WAIT_ETHERNET_PHY_STATUS. rewrite bool_decide_true by lia.
    destruct (on_phy_get_linkstatus E n i) as [r ls]. simpl in Hr, Hl. subst.
    replace (t + 100 * Z.of_nat 0) with t by lia. done.
  - unfold MAX_WAIT_ETHERNET_PHY_STATUS. rewrite bool_decide_true by lia.
    assert (Hn : ~ link_up_at E i n).
    { specialize (Hdown 0%nat). rewrite Nat.add_0_r in Hdown. apply Hdown. lia. }
    destruct (on_phy_get_linkstatus E n i) as [r ls] eqn:Hphy.
    assert (Htest : succeeded r && bool_decide (ls = 1) = false).
    { unfold succeeded, link_up_at in *. rewrite Hphy in Hn. simpl in Hn.
      destruct (bool_decide_reflect (r = CY_RSLT_SUCCESS)); [|done].
      destruct (bool_decide_reflect (ls = 1)); [|done]. exfalso. by apply Hn. }
    rewrite Htest.
    unfold WAIT_CHECK_ETHERNET_PHY_STATUS, wrap32.
    rewrite Z.mod_small by lia.
    rewrite (IH fuel (S n) (t + 100) r).
    + replace (t + 100 + 100 * Z.of_nat j) with (t + 100 * Z.of_nat (S j)) by lia.
      done.
    + by rewrite Nat.add_succ_comm.
    + intros m Hm. rewrite Nat.add_succ_comm. apply Hdown. lia.
    + lia.
    + lia.
    + lia.
Qed.

Lemma connect_attach_link_found (fuel : nat) (cfg : platform) (E : collaborators)
    (g g' : globals) (o : cy_ecm_object_t) (s : option (Z * Z * Z))
    (ip_addr : option cy_ecm_ip_address_t)
    (ctx : option cy_network_interface_context) (ltr : list event) :
  on_cy_network_add_nw_interface E = (CY_RSLT_SUCCESS, ctx) ->
  link_found E g (eth_idx o) ltr g' ->
  (link_wait_turns <= fuel)%nat ->
  connect_attach fuel cfg E g o s ip_addr
  = connect_ip_up fuel cfg E g' (set_iface_context o ctx) ip_addr
      ([Ev_cy_network_add_nw_interface (eth_idx o) s;
        Ev_cy_network_register_ip_change_cb true] ++ ltr).
Proof.
  intros Hadd Hlink Hfuel. unfold connect_attach. rewrite Hadd.
  unfold succeeded. rewrite bool_decide_true by done.
  cbn [negb set_iface_context eth_idx].
  fold (set_iface_context o ctx).
  destruct Hlink as [Hflag | j Hflag [Hup Hdown] Hj].
  - rewrite Hflag. cbn [negb]. by rewrite app_nil_r.
  - rewrite Hflag. cbn [negb].
    rewrite (connect_link_wait_up E (eth_idx o) j fuel 0 0 CY_RSLT_SUCCESS);
      try done; try lia.
    + cbn [mbind option_bind].
      rewrite bool_decide_false; [done|].
      unfold link_wait_turns, WAIT_CHECK_ETHERNET_PHY_STATUS,
        MAX_WAIT_ETHERNET_PHY_STATUS in *.
      change (Z.to_nat (10000 / 100)) with 100%nat in Hj. lia.
    + unfold link_wait_turns, WAIT_CHECK_ETHERNET_PHY_STATUS,
        MAX_WAIT_ETHERNET_PHY_STATUS in *.
      change (Z.to_nat (10000 / 100)) with 100%nat in Hj. lia.
Qed.

Lemma connect_dhcp_wait_assigned (cfg : platform) (E : collaborators) (w : Z)
    (ip_addr : option cy_ecm_ip_address_t) :
  forall (k fuel n : nat) (total_wait_time : Z),
    on_cy_network_get_ip_address E (n + k) = (CY_RSLT_SUCCESS, w) ->
    (forall m, (m < k)%nat ->
       (on_cy_network_get_ip_address E (n + m)).1 <> CY_RSLT_SUCCESS) ->
    (k < fuel)%nat ->
    0 <= total_wait_time ->
    total_wait_time + RETRY_WAIT_TIME_GET_IP_ADDR * Z.of_nat k < 2 ^ 32 ->
    connect_dhcp_wait fuel cfg E n total_wait_time ip_addr
    = Some (total_wait_time + RETRY_WAIT_TIME_GET_IP_ADDR * Z.of_nat k,
            CY_RSLT_SUCCESS,
            (fun a => set_v4 a (CY_ECM_IP_VER_V4 cfg) w) <$> ip_addr,
            address_polls k).
Proof.
  unfold RETRY_WAIT_TIME_GET_IP_ADDR.
  induction k as [|k IH]; intros fuel n t Hok Hfail Hfuel Ht Hmax;
    (destruct fuel as [|fuel]; [lia|]); cbn [connect_dhcp_wait].
  - rewrite Nat.add_0_r in Hok. rewrite Hok.
    replace (t + 10 * Z.of_nat 0) with t by lia. done.
  - assert (Hn : (on_cy_network_get_ip_address E n).1 <> CY_RSLT_SUCCESS).
    { specialize (Hfail 0%nat). rewrite Nat.add_0_r in Hfail. apply Hfail. lia. }
    destruct (on_cy_network_get_ip_address E n) as [r w0]. simpl in Hn.
    unfold succeeded. rewrite (bool_decide_false _ Hn).
    unfold RETRY_WAIT_TIME_GET_IP_ADDR, wrap32. rewrite Z.mod_small by lia.
    rewrite (IH fuel (S n) (t + 10)).
    + replace (t + 10 + 10 * Z.of_nat k) with (t + 10 * Z.of_nat (S k)) by lia.
      done.
    + by rewrite Nat.add_succ_comm.
    + intros m Hm. rewrite Nat.add_succ_comm. apply Hfail. lia.
    + lia.
    + lia.
    + lia.
Qed.


Lemma link_wait_turns_eq : link_wait_turns = 100%nat.
Proof. reflexivity. Qed.

Lemma link_found_slow_start :
  link_found slow_start sample_globals CY_ECM_INTERFACE_ETH0
    (link_polls CY_ECM_INTERFACE_ETH0 3
       ++ [Ev_phy_get_linkstatus CY_ECM_INTERFACE_ETH0])
    link_up_globals.
Proof.
  apply (link_waited slow_start sample_globals CY_ECM_INTERFACE_ETH0 3).
  - reflexivity.
  - split; [split; reflexivity|].
    intros n Hn [_ H]. destruct n as [|[|[|n]]]; [discriminate H..|lia].
  - rewrite link_wait_turns_eq. lia.
Defined.

Lemma address_assigned_after_slow_start :
  address_assigned_after slow_start 5 3232235778.
Proof.
  split; [reflexivity|].
  intros n Hn H. destruct n as [|[|[|[|[|n]]]]]; [discriminate H..|lia].
Defined.

Lemma address_assigned_after_address_after (k : nat) :
  address_assigned_after (address_after k) k 3232235778.
Proof.
  unfold address_assigned_after, address_after, with_get_ip_address,
    on_cy_network_get_ip_address.
  split.
  - by rewrite Nat.ltb_irrefl.
  - intros n Hn. apply Nat.ltb_lt in Hn. by rewrite Hn.
Defined.

(** X8.  A connect that is let past the checks, attaches the interface,
    finds the link (cached, or reported by the PHY before the ceiling of the
    link wait) and brings the IP layer up succeeds when the network stack
    reports the address after [k] failed queries with 10 [k] <= 6000: the
    object is marked connected with the context the stack handed out, the
    address is written to the caller's structure, and the calls are the
    attachment, the subscription, the link polls, the bring-up and [k]
    failed address queries, each followed by a 10 ms delay, before the
    successful one. *)
Theorem cy_ecm_connect_success (fuel : nat) (cfg : platform) (E : collaborators)
    (g g' : globals) (o : cy_ecm_object_t)
    (ecm_static_ip_addr : option cy_ecm_ip_setting_t)
    (ip_addr : option cy_ecm_ip_address_t)
    (ctx : option cy_network_interface_context) (ltr : list event)
    (k : nat) (w : Z) :
  admitted E g o ->
  network_up o = false ->
  static_supported cfg ecm_static_ip_addr ->
  on_cy_network_add_nw_interface E = (CY_RSLT_SUCCESS, ctx) ->
  link_found E g (eth_idx o) ltr g' ->
  on_cy_network_ip_up E = CY_RSLT_SUCCESS ->
  address_assigned_after E k w ->
  RETRY_WAIT_TIME_GET_IP_ADDR * Z.of_nat k <= DHCP_TIMEOUT_COUNT ->
  (link_wait_turns <= fuel)%nat ->
  (k < fuel)%nat ->
  cy_ecm_connect fuel cfg E g (Some o) ecm_static_ip_addr ip_addr
  = Some (release E CY_RSLT_SUCCESS, g',
          Some (set_network_up (set_iface_context o ctx) true),
          (fun a => set_v4 a (CY_ECM_IP_VER_V4 cfg) w) <$> ip_addr,
          Ev_cy_rtos_get_mutex
            :: ([Ev_cy_network_add_nw_interface (eth_idx o)
                   (static_words ecm_static_ip_addr);
                 Ev_cy_network_register_ip_change_cb true]
                ++ ltr ++ Ev_cy_network_ip_up :: address_polls k)
            ++ [Ev_cy_rtos_set_mutex]).
Proof.
  intros Hadm Hup Hstatic Hadd Hlink Hipup [Hok Hfail] Hk Hfuel Hkfuel.
  rewrite cy_ecm_connect_admitted by done.
  rewrite (connect_attach_link_found fuel cfg E g g' o _ ip_addr ctx ltr)
    by done.
  unfold connect_ip_up. rewrite Hipup. unfold succeeded.
  rewrite (bool_decide_true (CY_RSLT_SUCCESS = CY_RSLT_SUCCESS)) by done.
  cbn [negb].
  unfold RETRY_WAIT_TIME_GET_IP_ADDR, DHCP_TIMEOUT_COUNT in Hk.
  rewrite (connect_dhcp_wait_assigned cfg E w ip_addr k fuel 0 0);
    [|done|done|done|lia|unfold RETRY_WAIT_TIME_GET_IP_ADDR; lia].
  cbn [mbind option_bind].
  rewrite bool_decide_false
    by (unfold RETRY_WAIT_TIME_GET_IP_ADDR, DHCP_TIMEOUT_COUNT; lia).
  cbn [mbind option_bind co_result co_globals co_object co_ip_addr co_trace].
  by rewrite <- (app_assoc _ ltr).
Qed.

Lemma cy_ecm_connect_success_witness :
  cy_ecm_connect 100 sample_platform slow_start sample_globals
    (Some sample_object) None (Some zeroed_ip_address)
  = Some (CY_RSLT_SUCCESS, link_up_globals,
          Some (set_network_up
                  (set_iface_context sample_object (Some 1%positive)) true),
          Some (set_v4 zeroed_ip_address (CY_ECM_IP_VER_V4 sample_platform)
                  3232235778),
          Ev_cy_rtos_get_mutex
            :: ([Ev_cy_network_add_nw_interface CY_ECM_INTERFACE_ETH0 None;
                 Ev_cy_network_register_ip_change_cb true]
                ++ (link_polls CY_ECM_INTERFACE_ETH0 3
                      ++ [Ev_phy_get_linkstatus CY_ECM_INTERFACE_ETH0])
                ++ Ev_cy_network_ip_up :: address_polls 5)
            ++ [Ev_cy_rtos_set_mutex]).
Proof.
  apply (cy_ecm_connect_success 100 sample_platform slow_start sample_globals
           link_up_globals sample_object None (Some zeroed_ip_address)
           (Some 1%positive) _ 5 3232235778).
  - repeat split; reflexivity.
  - reflexivity.
  - exact I.
  - reflexivity.
  - exact link_found_slow_start.
  - reflexivity.
  - exact address_assigned_after_slow_start.
  - vm_compute. discriminate.
  - rewrite link_wait_turns_eq. lia.
  - lia.
Defined.

(** The address wait with the wrap-around of its [uint32_t] counter: after
    [k] failed queries the counter holds the sum of the [k] increments
    modulo 2^32. *)
Lemma connect_dhcp_wait_assigned_wrap (cfg : platform) (E : collaborators)
    (w : Z) (ip_addr : option cy_ecm_ip_address_t) :
  forall (k fuel n : nat) (total_wait_time : Z),
    on_cy_network_get_ip_address E (n + k) = (CY_RSLT_SUCCESS, w) ->
    (forall m, (m < k)%nat ->
       (on_cy_network_get_ip_address E (n + m)).1 <> CY_RSLT_SUCCESS) ->
    (k < fuel)%nat ->
    0 <= total_wait_time < 2 ^ 32 ->
    connect_dhcp_wait fuel cfg E n total_wait_time ip_addr
    = Some (wrap32 (total_wait_time + RETRY_WAIT_TIME_GET_IP_ADDR * Z.of_nat k),
            CY_RSLT_SUCCESS,
            (fun a => set_v4 a (CY_ECM_IP_VER_V4 cfg) w) <$> ip_addr,
            address_polls k).
Proof.
  unfold RETRY_WAIT_TIME_GET_IP_ADDR.
  induction k as [|k IH]; intros fuel n t Hok Hfail Hfuel Ht;
    (destruct fuel as [|fuel]; [lia|]); cbn [connect_dhcp_wait].
  - rewrite Nat.add_0_r in Hok. rewrite Hok.
    replace (t + 10 * Z.of_nat 0) with t by lia.
    unfold wrap32. rewrite (Z.mod_small t) by exact Ht. done.
  - assert (Hn : (on_cy_network_get_ip_address E n).1 <> CY_RSLT_SUCCESS).
    { specialize (Hfail 0%nat). rewrite Nat.add_0_r in Hfail. apply Hfail. lia. }
    destruct (on_cy_network_get_ip_address E n) as [r w0]. simpl in Hn.
    unfold succeeded. rewrite (bool_decide_false _ Hn).
    unfold RETRY_WAIT_TIME_GET_IP_ADDR.
    rewrite (IH fuel (S n) (wrap32 (t + 10))).
    + unfold wrap32. rewrite Z.add_mod_idemp_l by done.
      replace (t + 10 + 10 * Z.of_nat k) with (t + 10 * Z.of_nat (S k)) by lia.
      done.
    + by rewrite Nat.add_succ_comm.
    + intros m Hm. rewrite Nat.add_succ_comm. apply Hfail. lia.
    + lia.
    + unfold wrap32. apply Z.mod_pos_bound. done.
Qed.

(** X9.  On the same path, an address that the network stack reports only
    after [k] failed queries is written to the caller's structure all the
    same, but when the wait counter then exceeds DHCP_TIMEOUT_COUNT the call
    takes the IP layer down, detaches the interface and returns
    CY_RSLT_ECM_DHCP_TIMEOUT (CY_RSLT_ECM_MUTEX_ERROR when the release
    fails); the object is not marked connected.  The counter is the
    [uint32_t total_wait_time]: what is compared with 6000 is 10 [k] modulo
    2^32, so that a [k] whose 10 [k] wraps to 6000 or less is not on this
    path. *)
Theorem cy_ecm_connect_address_ceiling (fuel : nat) (cfg : platform)
    (E : collaborators) (g g' : globals) (o : cy_ecm_object_t)
    (ecm_static_ip_addr : option cy_ecm_ip_setting_t)
    (ip_addr : option cy_ecm_ip_address_t)
    (ctx : option cy_network_interface_context) (ltr : list event)
    (k : nat) (w : Z) :
  admitted E g o ->
  network_up o = false ->
  static_supported cfg ecm_static_ip_addr ->
  on_cy_network_add_nw_interface E = (CY_RSLT_SUCCESS, ctx) ->
  link_found E g (eth_idx o) ltr g' ->
  on_cy_network_ip_up E = CY_RSLT_SUCCESS ->
  address_assigned_after E k w ->
  DHCP_TIMEOUT_COUNT < wrap32 (RETRY_WAIT_TIME_GET_IP_ADDR * Z.of_nat k) ->
  (link_wait_turns <= fuel)%nat ->
  (k < fuel)%nat ->
  cy_ecm_connect fuel cfg E g (Some o) ecm_static_ip_addr ip_addr
  = Some (release E CY_RSLT_ECM_DHCP_TIMEOUT, g',
          Some (set_iface_context o ctx),
          (fun a => set_v4 a (CY_ECM_IP_VER_V4 cfg) w) <$> ip_addr,
          Ev_cy_rtos_get_mutex
            :: ([Ev_cy_network_add_nw_interface (eth_idx o)
                   (static_words ecm_static_ip_addr);
                 Ev_cy_network_register_ip_change_cb true]
                ++ ltr ++ Ev_cy_network_ip_up :: address_polls k
                ++ [Ev_cy_network_ip_down; Ev_cy_network_remove_nw_interface])
            ++ [Ev_cy_rtos_set_mutex]).
Proof.
  intros Hadm Hup Hstatic Hadd Hlink Hipup [Hok Hfail] Hk Hfuel Hkfuel.
  rewrite cy_ecm_connect_admitted by done.
  rewrite (connect_attach_link_found fuel cfg E g g' o _ ip_addr ctx ltr)
    by done.
  unfold connect_ip_up. rewrite Hipup. unfold succeeded.
  rewrite (bool_decide_true (CY_RSLT_SUCCESS = CY_RSLT_SUCCESS)) by done.
  cbn [negb].
  rewrite (connect_dhcp_wait_assigned_wrap cfg E w ip_addr k fuel 0 0);
    [|done|done|done|lia].
  cbn [mbind option_bind]. rewrite Z.add_0_l.
  rewrite bool_decide_true by lia.
  cbn [mbind option_bind co_result co_globals co_object co_ip_addr co_trace].
  by rewrite <- (app_assoc _ ltr).
Qed.

Lemma cy_ecm_connect_address_ceiling_witness :
  cy_ecm_connect 700 sample_platform (address_after 601) link_up_globals
    (Some sample_object) None (Some zeroed_ip_address)
  = Some (CY_RSLT_ECM_DHCP_TIMEOUT, link_up_globals,
          Some (set_iface_context sample_object (Some 1%positive)),
          Some (set_v4 zeroed_ip_address (CY_ECM_IP_VER_V4 sample_platform)
                  3232235778),
          Ev_cy_rtos_get_mutex
            :: ([Ev_cy_network_add_nw_interface CY_ECM_INTERFACE_ETH0 None;
                 Ev_cy_network_register_ip_change_cb true]
                ++ [] ++ Ev_cy_network_ip_up :: address_polls 601
                ++ [Ev_cy_network_ip_down; Ev_cy_network_remove_nw_interface])
            ++ [Ev_cy_rtos_set_mutex]).
Proof.
  apply (cy_ecm_connect_address_ceiling 700 sample_platform (address_after 601)
           link_up_globals link_up_globals sample_object None
           (Some zeroed_ip_address) (Some 1%positive) [] 601 3232235778).
  - repeat split; reflexivity.
  - reflexivity.
  - exact I.
  - reflexivity.
  - apply link_cached. reflexivity.
  - reflexivity.
  - exact (address_assigned_after_address_after 601).
  - vm_compute. reflexivity.
  - rewrite link_wait_turns_eq. lia.
  - lia.
Defined.

(** X10.  When the IP bring-up fails, the call detaches the interface and
    returns the stack's code, with the two codes of the stack for DHCP
    translated to those of the manager; the address is not queried, the
    object is not marked connected, and a link flag set by the link wait
    stays set. *)
Theorem cy_ecm_connect_ip_up_failure (fuel : nat) (cfg : platform)
    (E : collaborators) (g g' : globals) (o : cy_ecm_object_t)
    (ecm_static_ip_addr : option cy_ecm_ip_setting_t)
    (ip_addr : option cy_ecm_ip_address_t)
    (ctx : option cy_network_interface_context) (ltr : list event) :
  admitted E g o ->
  network_up o = false ->
  static_supported cfg ecm_static_ip_addr ->
  on_cy_network_add_nw_interface E = (CY_RSLT_SUCCESS, ctx) ->
  link_found E g (eth_idx o) ltr g' ->
  on_cy_network_ip_up E <> CY_RSLT_SUCCESS ->
  (link_wait_turns <= fuel)%nat ->
  cy_ecm_connect fuel cfg E g (Some o) ecm_static_ip_addr ip_addr
  = Some (release E (ip_up_error (on_cy_network_ip_up E)), g',
          Some (set_iface_context o ctx), ip_addr,
          Ev_cy_rtos_get_mutex
            :: ([Ev_cy_network_add_nw_interface (eth_idx o)
                   (static_words ecm_static_ip_addr);
                 Ev_cy_network_register_ip_change_cb true]
                ++ ltr
                ++ [Ev_cy_network_ip_up; Ev_cy_network_remove_nw_interface])
            ++ [Ev_cy_rtos_set_mutex]).
Proof.
  intros Hadm Hup Hstatic Hadd Hlink Hipup Hfuel.
  rewrite cy_ecm_connect_admitted by done.
  rewrite (connect_attach_link_found fuel cfg E g g' o _ ip_addr ctx ltr)
    by done.
  unfold connect_ip_up, succeeded.
  rewrite (bool_decide_false _ Hipup). cbn [negb mbind option_bind].
  cbn [co_result co_globals co_object co_ip_addr co_trace].
  rewrite <- (app_assoc _ ltr).
  assert (Hcode :
    (if bool_decide (on_cy_network_ip_up E = CY_RSLT_NETWORK_ERROR_STARTING_DHCP)
     then CY_RSLT_MODULE_ECM_ERROR_STARTING_DHCP
     else if bool_decide
               (on_cy_network_ip_up E = CY_RSLT_NETWORK_DHCP_WAIT_TIMEOUT)
          then CY_RSLT_ECM_DHCP_TIMEOUT
          else on_cy_network_ip_up E)
    = ip_up_error (on_cy_network_ip_up E)).
  { destruct (on_cy_network_ip_up E); reflexivity. }
  by rewrite Hcode.
Qed.

Lemma cy_ecm_connect_ip_up_failure_witness :
  cy_ecm_connect 100 sample_platform
    (ip_up_fails CY_RSLT_NETWORK_ERROR_STARTING_DHCP) sample_globals
    (Some sample_object) None None
  = Some (CY_RSLT_MODULE_ECM_ERROR_STARTING_DHCP, link_up_globals,
          Some (set_iface_context sample_object (Some 1%positive)), None,
          Ev_cy_rtos_get_mutex
            :: ([Ev_cy_network_add_nw_interface CY_ECM_INTERFACE_ETH0 None;
                 Ev_cy_network_register_ip_change_cb true]
                ++ (link_polls CY_ECM_INTERFACE_ETH0 0
                      ++ [Ev_phy_get_linkstatus CY_ECM_INTERFACE_ETH0])
                ++ [Ev_cy_network_ip_up; Ev_cy_network_remove_nw_interface])
            ++ [Ev_cy_rtos_set_mutex]).
Proof.
  apply (cy_ecm_connect_ip_up_failure 100 sample_platform
           (ip_up_fails CY_RSLT_NETWORK_ERROR_STARTING_DHCP) sample_globals
           link_up_globals sample_object None None (Some 1%positive)).
  - repeat split; reflexivity.
  - reflexivity.
  - exact I.
  - reflexivity.
  - apply (link_waited _ sample_globals CY_ECM_INTERFACE_ETH0 0).
    + reflexivity.
    + split; [split; reflexivity|]. intros n Hn. lia.
    + rewrite link_wait_turns_eq. lia.
  - discriminate.
  - rewrite link_wait_turns_eq. lia.
Defined.


Lemma connect_ip_up_outcome (fuel : nat) (cfg : platform) (E : collaborators)
    (g : globals) (o : cy_ecm_object_t) (ip_addr : option cy_ecm_ip_address_t)
    (tr0 : list event) (co : connect_outcome) :
  connect_ip_up fuel cfg E g o ip_addr tr0 = Some co ->
  (co_result co = CY_RSLT_SUCCESS /\ co_object co = set_network_up o true)
  \/ (co_result co <> CY_RSLT_SUCCESS /\ co_object co = o).
Proof.
  unfold connect_ip_up, succeeded.
  destruct (bool_decide_reflect (on_cy_network_ip_up E = CY_RSLT_SUCCESS))
    as [Hok|Hne]; cbn [negb].
  - destruct (connect_dhcp_wait fuel cfg E 0 0 ip_addr)
      as [[[[t r] a] tr]|] eqn:Hw; [|done].
    cbn. apply connect_dhcp_wait_leaves_on_success in Hw as ->.
    destruct (bool_decide (t > DHCP_TIMEOUT_COUNT)); intros [= <-]; cbn;
      [right | left]; done.
  - intros [= <-]. right. cbn. split; [|done].
    repeat case_bool_decide; done.
Qed.

Lemma connect_attach_outcome (fuel : nat) (cfg : platform) (E : collaborators)
    (g : globals) (o : cy_ecm_object_t) (s : option (Z * Z * Z))
    (ip_addr : option cy_ecm_ip_address_t) (co : connect_outcome) :
  connect_attach fuel cfg E g o s ip_addr = Some co ->
  (co_result co = CY_RSLT_SUCCESS
   /\ co_object co
      = set_network_up
          (set_iface_context o (on_cy_network_add_nw_interface E).2) true)
  \/ (co_result co <> CY_RSLT_SUCCESS
      /\ co_object co
         = set_iface_context o (on_cy_network_add_nw_interface E).2).
Proof.
  unfold connect_attach.
  destruct (on_cy_network_add_nw_interface E) as [r ctx]. cbn [snd].
  destruct (negb (succeeded r)); [intros [= <-]; right; done|].
  destruct (negb (flag (is_ethernet_link_up g)
                    (eth_idx (set_iface_context o ctx)))).
  - destruct (connect_link_wait fuel E (eth_idx (set_iface_context o ctx)) 0 0 r)
      as [[[t r'] tr]|]; [|done].
    cbn [mbind option_bind].
    destruct (bool_decide (t >= MAX_WAIT_ETHERNET_PHY_STATUS));
      [intros [= <-]; right; done | apply connect_ip_up_outcome].
  - apply connect_ip_up_outcome.
Qed.

Lemma connect_locked_outcome (fuel : nat) (cfg : platform) (E : collaborators)
    (g : globals) (o : cy_ecm_object_t)
    (ecm_static_ip_addr : option cy_ecm_ip_setting_t)
    (ip_addr : option cy_ecm_ip_address_t) (co : connect_outcome) :
  connect_locked fuel cfg E g o ecm_static_ip_addr ip_addr = Some co ->
  (co_result co = CY_RSLT_SUCCESS
   /\ isobjinitialized o = true
   /\ network_up o = false
   /\ co_object co
      = set_network_up
          (set_iface_context o (on_cy_network_add_nw_interface E).2) true)
  \/ (co_result co <> CY_RSLT_SUCCESS
      /\ (co_object co = o
          \/ co_object co
             = set_iface_context o (on_cy_network_add_nw_interface E).2)).
Proof.
  unfold connect_locked.
  destruct (isobjinitialized o) eqn:Hobj; cbn [negb];
    [|intros [= <-]; right; split; [done | by left]].
  destruct (network_up o) eqn:Hup;
    [intros [= <-]; right; split; [done | by left]|].
  assert (Hattach : forall s,
            connect_attach fuel cfg E g o s ip_addr = Some co ->
            (co_result co = CY_RSLT_SUCCESS
             /\ true = true /\ false = false
             /\ co_object co
                = set_network_up
                    (set_iface_context o (on_cy_network_add_nw_interface E).2)
                    true)
            \/ (co_result co <> CY_RSLT_SUCCESS
                /\ (co_object co = o
                    \/ co_object co
                       = set_iface_context o
                           (on_cy_network_add_nw_interface E).2))).
  { intros s H. destruct (connect_attach_outcome _ _ _ _ _ _ _ _ H) as [[? ?]|[? ?]];
      [left | right]; repeat split; try done. by right. }
  destruct ecm_static_ip_addr as [s|]; [|apply Hattach].
  destruct (bool_decide _); [apply Hattach|].
  intros [= <-]; right; split; [done | by left].
Qed.

Lemma connect_locked_is_ecm_initialized (fuel : nat) (cfg : platform)
    (E : collaborators) (g : globals) (o : cy_ecm_object_t)
    (ecm_static_ip_addr : option cy_ecm_ip_setting_t)
    (ip_addr : option cy_ecm_ip_address_t) (co : connect_outcome) :
  connect_locked fuel cfg E g o ecm_static_ip_addr ip_addr = Some co ->
  is_ecm_initialized (co_globals co) = is_ecm_initialized g.
Proof.
  unfold connect_locked.
  destruct (negb (isobjinitialized o)); [by intros [= <-]|].
  destruct (network_up o); [by intros [= <-]|].
  assert (Hattach : forall s,
            connect_attach fuel cfg E g o s ip_addr = Some co ->
            is_ecm_initialized (co_globals co) = is_ecm_initialized g).
  { intros s H. destruct (connect_attach_globals _ _ _ _ _ _ _ _ H) as [->|[_ ->]];
      done. }
  destruct ecm_static_ip_addr as [s|]; [|apply Hattach].
  destruct (bool_decide _); [apply Hattach | by intros [= <-]].
Qed.

Lemma release_success (E : collaborators) (r : cy_rslt_t) :
  release E r = CY_RSLT_SUCCESS ->
  r = CY_RSLT_SUCCESS /\ on_cy_rtos_set_mutex E = CY_RSLT_SUCCESS.
Proof.
  unfold release, succeeded. case_bool_decide; [done | discriminate].
Qed.

(** The ways [cy_ecm_connect] returns on a handle that is not NULL. *)
Lemma cy_ecm_connect_cases (fuel : nat) (cfg : platform) (E : collaborators)
    (g : globals) (o : cy_ecm_object_t)
    (ecm_static_ip_addr : option cy_ecm_ip_setting_t)
    (ip_addr : option cy_ecm_ip_address_t)
    (out : cy_rslt_t * globals * option cy_ecm_object_t
           * option cy_ecm_ip_address_t * list event) :
  cy_ecm_connect fuel cfg E g (Some o) ecm_static_ip_addr ip_addr = Some out ->
  (out.1.1.1.1 <> CY_RSLT_SUCCESS /\ out.1.1.2 = Some o)
  \/ exists co,
       connect_locked fuel cfg E g o ecm_static_ip_addr ip_addr = Some co
       /\ is_ecm_initialized g = true
       /\ on_cy_rtos_get_mutex E = CY_RSLT_SUCCESS
       /\ out = (release E (co_result co), co_globals co, Some (co_object co),
                 co_ip_addr co,
                 Ev_cy_rtos_get_mutex :: co_trace co ++ [Ev_cy_rtos_set_mutex]).
Proof.
  unfold cy_ecm_connect, succeeded.
  destruct (is_ecm_initialized g); cbn [negb]; [|intros [= <-]; by left].
  case_bool_decide as Hget; cbn [negb]; [|intros [= <-]; by left].
  destruct (connect_locked fuel cfg E g o ecm_static_ip_addr ip_addr)
    as [co|]; [|done].
  cbn [mbind option_bind]. intros [= <-]. right. by exists co.
Qed.

(** X11.  For an object that is not connected at entry, a call of
    [cy_ecm_connect] that returns CY_RSLT_SUCCESS has marked the object
    connected; and an object marked connected goes with CY_RSLT_SUCCESS
    unless the release of the global mutex failed, in which case the call
    returns CY_RSLT_ECM_MUTEX_ERROR for a connection that is up. *)
Theorem cy_ecm_connect_connected_iff (fuel : nat) (cfg : platform)
    (E : collaborators) (g g' : globals) (o : cy_ecm_object_t)
    (ecm_static_ip_addr : option cy_ecm_ip_setting_t)
    (ip_addr a : option cy_ecm_ip_address_t) (r : cy_rslt_t)
    (h' : option cy_ecm_object_t) (tr : list event) :
  network_up o = false ->
  cy_ecm_connect fuel cfg E g (Some o) ecm_static_ip_addr ip_addr
  = Some (r, g', h', a, tr) ->
  exists o',
    h' = Some o'
    /\ (r = CY_RSLT_SUCCESS -> network_up o' = true)
    /\ (network_up o' = true -> r = release E CY_RSLT_SUCCESS).
Proof.
  intros Hup H. apply cy_ecm_connect_cases in H as [[Hr Ho] | (co & Hco & _ & _ & Hout)].
  - simpl in Hr, Ho. subst h'. exists o. split; [done|]. split; [done|].
    rewrite Hup. discriminate.
  - injection Hout as -> -> -> -> ->. exists (co_object co). split; [done|].
    apply connect_locked_outcome in Hco
      as [(Hr & _ & _ & Ho) | (Hr & [Ho | Ho])]; rewrite Ho.
    + split; [done|]. intros _. by rewrite Hr.
    + split; [intros H; by apply release_success in H as [? _]|].
      rewrite Hup. discriminate.
    + split; [intros H; by apply release_success in H as [? _]|].
      cbn. rewrite Hup. discriminate.
Qed.

Lemma cy_ecm_connect_connected_iff_witness :
  network_up sample_object = false
  /\ cy_ecm_connect 10 sample_platform release_fails link_up_globals
       (Some sample_object) None None
     = Some (CY_RSLT_ECM_MUTEX_ERROR, link_up_globals,
             Some (set_network_up
                     (set_iface_context sample_object (Some 1%positive)) true),
             None,
             [Ev_cy_rtos_get_mutex;
              Ev_cy_network_add_nw_interface CY_ECM_INTERFACE_ETH0 None;
              Ev_cy_network_register_ip_change_cb true;
              Ev_cy_network_ip_up; Ev_cy_network_get_ip_address;
              Ev_cy_rtos_set_mutex])
  /\ exists o',
       Some (set_network_up
               (set_iface_context sample_object (Some 1%positive)) true)
       = Some o'
       /\ (CY_RSLT_ECM_MUTEX_ERROR = CY_RSLT_SUCCESS -> network_up o' = true)
       /\ (network_up o' = true ->
           CY_RSLT_ECM_MUTEX_ERROR = release release_fails CY_RSLT_SUCCESS).
Proof.
  split; [reflexivity|]. split; [reflexivity|].
  apply (cy_ecm_connect_connected_iff 10 sample_platform release_fails
           link_up_globals link_up_globals sample_object None None None
           CY_RSLT_ECM_MUTEX_ERROR _
           [Ev_cy_rtos_get_mutex;
            Ev_cy_network_add_nw_interface CY_ECM_INTERFACE_ETH0 None;
            Ev_cy_network_register_ip_change_cb true;
            Ev_cy_network_ip_up; Ev_cy_network_get_ip_address;
            Ev_cy_rtos_set_mutex]);
    reflexivity.
Defined.

(** X12.  A connect that returned CY_RSLT_SUCCESS is undone by
    [cy_ecm_disconnect] on the same handle: the subscription is cancelled,
    the IP layer taken down, the interface detached, and the object is as
    before the connect except for the interface context.  A second
    disconnect is refused with CY_RSLT_MODULE_ECM_NOT_CONNECTED and asks
    nothing of the network stack. *)
Theorem cy_ecm_connect_disconnect_round_trip (fuel : nat) (cfg : platform)
    (E : collaborators) (g g' : globals) (o o' : cy_ecm_object_t)
    (ecm_static_ip_addr : option cy_ecm_ip_setting_t)
    (ip_addr a : option cy_ecm_ip_address_t) (tr : list event) :
  cy_ecm_connect fuel cfg E g (Some o) ecm_static_ip_addr ip_addr
  = Some (CY_RSLT_SUCCESS, g', Some o', a, tr) ->
  let o1 := set_iface_context o (on_cy_network_add_nw_interface E).2 in
  cy_ecm_disconnect E g' (Some o')
  = (CY_RSLT_SUCCESS, Some o1,
     [Ev_cy_rtos_get_mutex; Ev_cy_network_register_ip_change_cb false;
      Ev_cy_network_ip_down; Ev_cy_network_remove_nw_interface;
      Ev_cy_rtos_set_mutex])
  /\ cy_ecm_disconnect E g' (Some o1)
     = (CY_RSLT_MODULE_ECM_NOT_CONNECTED, Some o1,
        [Ev_cy_rtos_get_mutex; Ev_cy_rtos_set_mutex]).
Proof.
  intros H o1.
  apply cy_ecm_connect_cases in H as [[Hr _] | (co & Hco & Hinit & Hget & Hout)];
    [done|].
  injection Hout as Hr -> -> -> ->.
  symmetry in Hr. apply release_success in Hr as [Hr Hset].
  pose proof (connect_locked_is_ecm_initialized _ _ _ _ _ _ _ _ Hco) as Hg.
  apply connect_locked_outcome in Hco as [(_ & Hobj & Hup & Ho) | [Hne _]];
    [|done].
  rewrite Ho. fold o1.
  assert (Ho1 : set_network_up (set_network_up o1 true) false = o1).
  { subst o1. destruct o. simpl in Hup. by subst. }
  unfold cy_ecm_disconnect, release, succeeded.
  rewrite Hg, Hinit, Hget, Hset, Ho1.
  rewrite (bool_decide_true (CY_RSLT_SUCCESS = CY_RSLT_SUCCESS)) by done.
  subst o1. cbn. by rewrite Hobj, Hup.
Qed.

Lemma cy_ecm_connect_disconnect_round_trip_witness :
  let o' := set_network_up
              (set_iface_context sample_object (Some 1%positive)) true in
  let o1 := set_iface_context sample_object (Some 1%positive) in
  cy_ecm_disconnect cooperative link_up_globals (Some o')
  = (CY_RSLT_SUCCESS, Some o1,
     [Ev_cy_rtos_get_mutex; Ev_cy_network_register_ip_change_cb false;
      Ev_cy_network_ip_down; Ev_cy_network_remove_nw_interface;
      Ev_cy_rtos_set_mutex])
  /\ cy_ecm_disconnect cooperative link_up_globals (Some o1)
     = (CY_RSLT_MODULE_ECM_NOT_CONNECTED, Some o1,
        [Ev_cy_rtos_get_mutex; Ev_cy_rtos_set_mutex]).
Proof.
  exact (cy_ecm_connect_disconnect_round_trip 10 sample_platform cooperative
           sample_globals link_up_globals sample_object _ None None None _
           eq_refl).
Defined.

(** X13.  A call of [cy_ecm_connect] that stops at one of its checks (NULL
    handle, manager not active, global mutex not acquired, object not
    initialized or already connected, static gateway not IPv4) returns,
    whatever the fuel, with a code other than CY_RSLT_SUCCESS; it leaves
    the statics, the object and the caller's address structure as they were
    and asks nothing of the network stack or of the PHY. *)
Theorem cy_ecm_connect_refused (fuel : nat) (cfg : platform) (E : collaborators)
    (g : globals) (ecm_handle : option cy_ecm_object_t)
    (ecm_static_ip_addr : option cy_ecm_ip_setting_t)
    (ip_addr : option cy_ecm_ip_address_t) :
  refused_at_entry cfg E g ecm_handle ecm_static_ip_addr ->
  exists r tr,
    cy_ecm_connect fuel cfg E g ecm_handle ecm_static_ip_addr ip_addr
    = Some (r, g, ecm_handle, ip_addr, tr)
    /\ r <> CY_RSLT_SUCCESS
    /\ Forall (fun e => is_network_stack_call e = false) tr
    /\ queried tr = [].
Proof.
  intros Href. unfold cy_ecm_connect.
  destruct ecm_handle as [o|]; [|by eexists _, _].
  destruct (is_ecm_initialized g) eqn:Hinit; cbn [negb]; [|by eexists _, _].
  unfold succeeded. case_bool_decide as Hget; cbn [negb];
    [|eexists _, _; split; [done|]; split; [done|]; split;
      [by repeat constructor | done]].
  assert (Hrel : forall r, r <> CY_RSLT_SUCCESS -> release E r <> CY_RSLT_SUCCESS).
  { intros r Hr Hrel. by apply release_success in Hrel as [? _]. }
  assert (Hstop : forall r, r <> CY_RSLT_SUCCESS ->
            exists r' tr,
              Some (release E r, g, Some o, ip_addr,
                    Ev_cy_rtos_get_mutex :: [] ++ [Ev_cy_rtos_set_mutex])
              = Some (r', g, Some o, ip_addr, tr)
              /\ r' <> CY_RSLT_SUCCESS
              /\ Forall (fun e => is_network_stack_call e = false) tr
              /\ queried tr = []).
  { intros r Hr. eexists _, _. split; [done|]. split; [by apply Hrel|].
    split; [by repeat constructor | done]. }
  unfold connect_locked.
  destruct (isobjinitialized o) eqn:Hobj; cbn [negb]; [|by apply Hstop].
  destruct (network_up o) eqn:Hup; [by apply Hstop|].
  destruct Href as [? | [? | [Hstatic | [? | ?]]]]; try congruence.
  destruct ecm_static_ip_addr as [s|]; simpl in Hstatic; [|done].
  rewrite (bool_decide_false _ Hstatic). by apply Hstop.
Qed.

Lemma cy_ecm_connect_refused_witness :
  exists r tr,
    cy_ecm_connect 0 sample_platform cooperative sample_globals
      (Some (set_network_up sample_object true)) None (Some zeroed_ip_address)
    = Some (r, sample_globals, Some (set_network_up sample_object true),
            Some zeroed_ip_address, tr)
    /\ r <> CY_RSLT_SUCCESS
    /\ Forall (fun e => is_network_stack_call e = false) tr
    /\ queried tr = [].
Proof.
  apply (cy_ecm_connect_refused 0 sample_platform cooperative sample_globals
           (Some (set_network_up sample_object true)) None
           (Some zeroed_ip_address)).
  right. right. right. right. reflexivity.
Defined.

(** X14.  When [cy_ecm_connect] finds the link itself, during its link
    wait, it sets the cached link flag without telling the subscribers: the
    turn of the link monitor that would have delivered
    CY_ECM_EVENT_CONNECTED to every registered callback delivers nothing
    once the connect has returned, whatever the connect returned. *)
Theorem cy_ecm_connect_preempts_connected_event (fuel : nat) (cfg : platform)
    (E : collaborators) (g : globals) (o : cy_ecm_object_t)
    (ecm_static_ip_addr : option cy_ecm_ip_setting_t)
    (ip_addr : option cy_ecm_ip_address_t)
    (ctx : option cy_network_interface_context) (j : nat)
    (phy : cy_ecm_interface_t -> cy_rslt_t * Z)
    (out : cy_rslt_t * globals * option cy_ecm_object_t
           * option cy_ecm_ip_address_t * list event) :
  well_sized g ->
  admitted E g o ->
  network_up o = false ->
  static_supported cfg ecm_static_ip_addr ->
  on_cy_network_add_nw_interface E = (CY_RSLT_SUCCESS, ctx) ->
  flag (is_ethernet_link_up g) (eth_idx o) = false ->
  link_first_up_at E (eth_idx o) j ->
  (j < link_wait_turns)%nat ->
  (link_wait_turns <= fuel)%nat ->
  evaluated_in g (eth_idx o) ->
  phy (eth_idx o) = (CY_RSLT_SUCCESS, 1) ->
  cy_ecm_connect fuel cfg E g (Some o) ecm_static_ip_addr ip_addr = Some out ->
  (ecm_event_thread_iteration phy g).2
  = Ev_phy_get_linkstatus (eth_idx o)
      :: delivery (registered g) CY_ECM_EVENT_CONNECTED
      ++ [Ev_cy_rtos_delay_milliseconds CY_POLL_ETHERNET_PHY_STATUS_TIME]
  /\ ecm_event_thread_iteration phy out.1.1.1.2
     = (out.1.1.1.2,
        [Ev_phy_get_linkstatus (eth_idx o);
         Ev_cy_rtos_delay_milliseconds CY_POLL_ETHERNET_PHY_STATUS_TIME]).
Proof.
  intros (Hcb & Hini & Hlen) Hadm Hup Hstatic Hadd Hflag Hfirst Hj Hfuel Hev Hphy H.
  split.
  - rewrite (ecm_event_thread_iteration_evaluated phy g (eth_idx o) Hev).
    unfold monitor_interface, succeeded. rewrite Hphy, Hflag.
    rewrite !bool_decide_true by done. cbn [negb snd].
    by rewrite invoke_app_callbacks_delivery.
  - rewrite cy_ecm_connect_admitted in H by done.
    rewrite (connect_attach_link_found fuel cfg E g _ o _ ip_addr ctx _ Hadd
               (link_waited E g (eth_idx o) j Hflag Hfirst Hj) Hfuel) in H.
    destruct (connect_ip_up fuel cfg E _ (set_iface_context o ctx) ip_addr _)
      as [co|] eqn:Hco; [|done].
    apply connect_ip_up_globals in Hco.
    cbn [mbind option_bind] in H. injection H as <-. cbn [fst snd]. rewrite Hco.
    set (g' := set_is_ethernet_link_up g _).
    assert (Hev' : evaluated_in g' (eth_idx o)) by exact Hev.
    rewrite (ecm_event_thread_iteration_evaluated phy g' (eth_idx o) Hev').
    unfold monitor_interface, succeeded. rewrite Hphy.
    rewrite !bool_decide_true by done.
    assert (Hset : flag (is_ethernet_link_up g') (eth_idx o) = true).
    { subst g'. cbn [is_ethernet_link_up set_is_ethernet_link_up].
      apply flag_insert_eq. rewrite Hlen.
      destruct Hev as [[-> _] | (-> & _)]; cbn; unfold CY_ECM_ETH_INTERFACE_MAX; lia. }
    by rewrite Hset.
Qed.

Lemma cy_ecm_connect_preempts_connected_event_witness :
  (ecm_event_thread_iteration (fun _ => (CY_RSLT_SUCCESS, 1)) sample_globals).2
  = Ev_phy_get_linkstatus CY_ECM_INTERFACE_ETH0
      :: delivery [7%positive; 9%positive] CY_ECM_EVENT_CONNECTED
      ++ [Ev_cy_rtos_delay_milliseconds CY_POLL_ETHERNET_PHY_STATUS_TIME]
  /\ ecm_event_thread_iteration (fun _ => (CY_RSLT_SUCCESS, 1)) link_up_globals
     = (link_up_globals,
        [Ev_phy_get_linkstatus CY_ECM_INTERFACE_ETH0;
         Ev_cy_rtos_delay_milliseconds CY_POLL_ETHERNET_PHY_STATUS_TIME]).
Proof.
  refine (cy_ecm_connect_preempts_connected_event 100 sample_platform slow_start
            sample_globals sample_object None None (Some 1%positive) 3
            (fun _ => (CY_RSLT_SUCCESS, 1))
            (CY_RSLT_SUCCESS, link_up_globals,
             Some (set_network_up
                     (set_iface_context sample_object (Some 1%positive)) true),
             None, _)
            _ _ _ _ _ _ _ _ _ _ _ _).
  - repeat split; reflexivity.
  - repeat split; reflexivity.
  - reflexivity.
  - exact I.
  - reflexivity.
  - reflexivity.
  - split; [split; reflexivity|].
    intros n Hn [_ H]. destruct n as [|[|[|n]]]; [discriminate H..|lia].
  - rewrite link_wait_turns_eq. lia.
  - rewrite link_wait_turns_eq. lia.
  - left. split; reflexivity.
  - reflexivity.
  - vm_compute. reflexivity.
Defined.


(** ** Callback registry: composition *)

Lemma after_register_admitted (E : collaborators) (g : globals)
    (o : cy_ecm_object_t) (cb : fnptr) :
  admitted E g o ->
  after_register E g o cb
  = set_ecm_event_handler g
      (register_scan CY_ECM_MAXIMUM_CALLBACKS_COUNT 0 (ecm_event_handler g) cb).
Proof.
  intros (Hinit & Hget & Hobj).
  unfold after_register, cy_ecm_register_event_callback, succeeded.
  rewrite Hinit, Hget, Hobj. by rewrite bool_decide_true by done.
Qed.

Lemma after_deregister_admitted (E : collaborators) (g : globals)
    (o : cy_ecm_object_t) (cb : fnptr) :
  admitted E g o ->
  after_deregister E g o cb
  = set_ecm_event_handler g
      (deregister_scan CY_ECM_MAXIMUM_CALLBACKS_COUNT 0 (ecm_event_handler g) cb).
Proof.
  intros (Hinit & Hget & Hobj).
  unfold after_deregister, cy_ecm_deregister_event_callback, succeeded.
  rewrite Hinit, Hget, Hobj. by rewrite bool_decide_true by done.
Qed.

Lemma well_sized_handlers (g : globals) :
  well_sized g -> exists a b c, ecm_event_handler g = [a; b; c].
Proof.
  intros (Hlen & _).
  destruct (ecm_event_handler g) as [|a [|b [|c [|d l]]]]; try discriminate Hlen.
  by exists a, b, c.
Qed.

(** X15.  Registering a callback that is in no slot and deregistering it
    again leaves every static as it was, whether the registry had a free
    slot or not. *)
Theorem callback_registry_round_trip (E : collaborators) (g : globals)
    (o : cy_ecm_object_t) (cb : fnptr) :
  well_sized g ->
  admitted E g o ->
  Some cb ∉ ecm_event_handler g ->
  after_deregister E (after_register E g o cb) o cb = g.
Proof.
  intros Hsize Hadm Habs.
  rewrite (after_register_admitted E g o cb Hadm).
  rewrite after_deregister_admitted by exact Hadm.
  destruct (well_sized_handlers g Hsize) as (a & b & c & Hh).
  destruct g as [i0 t0 th h ini up n]. cbn in Hh. subst h.
  apply not_elem_of_cons in Habs as [Ha Habs].
  apply not_elem_of_cons in Habs as [Hb Habs].
  apply not_elem_of_cons in Habs as [Hc _].
  unfold set_ecm_event_handler. cbn.
  destruct a as [a|], b as [b|], c as [c|]; cbn;
    repeat (case_bool_decide; simplify_eq; cbn); done.
Qed.

Lemma callback_registry_round_trip_witness :
  after_deregister cooperative
    (after_register cooperative sample_globals sample_object 8%positive)
    sample_object 8%positive
  = sample_globals.
Proof.
  apply (callback_registry_round_trip cooperative sample_globals sample_object
           8%positive).
  - repeat split; reflexivity.
  - repeat split; reflexivity.
  - compute_done.
Defined.

(** X16.  The registry counts: an event is delivered to a callback once for
    every slot that holds it; an admitted registration adds one slot for the
    callback whenever a slot is free, also when the callback is already
    registered; an admitted deregistration takes one slot away, not all; and
    neither touches the slots of another callback. *)
Theorem callback_registry_multiplicity (E : collaborators) (g : globals)
    (o : cy_ecm_object_t) (cb : fnptr) (event_type : cy_ecm_event_t) :
  well_sized g ->
  admitted E g o ->
  count_occ event_eq_dec
    (invoke_app_callbacks (ecm_event_handler g) event_type)
    (Ev_app_callback cb event_type)
  = slots_of cb g
  /\ (None ∈ ecm_event_handler g ->
      slots_of cb (after_register E g o cb) = S (slots_of cb g))
  /\ slots_of cb (after_deregister E g o cb) = pred (slots_of cb g)
  /\ forall cb',
       cb' <> cb ->
       slots_of cb' (after_register E g o cb) = slots_of cb' g
       /\ slots_of cb' (after_deregister E g o cb) = slots_of cb' g.
Proof.
  intros Hsize Hadm.
  rewrite (after_register_admitted E g o cb Hadm).
  rewrite (after_deregister_admitted E g o cb Hadm).
  rewrite invoke_app_callbacks_delivery by apply Hsize.
  destruct (well_sized_handlers g Hsize) as (a & b & c & Hh).
  destruct g as [i0 t0 th h ini up n]. cbn in Hh. subst h.
  unfold slots_of, registered, delivery, set_ecm_event_handler.
  cbn [ecm_event_handler].
  split; [|split; [|split]].
  - destruct a as [a|], b as [b|], c as [c|]; cbn -[Pos.eq_dec event_eq_dec];
      repeat (destruct (event_eq_dec _ _); simplify_eq);
      repeat (destruct (Pos.eq_dec _ _); simplify_eq); done.
  - intros Hfree.
    destruct a as [a|], b as [b|], c as [c|]; cbn -[Pos.eq_dec];
      repeat (destruct (Pos.eq_dec _ _); simplify_eq); try done;
      exfalso; revert Hfree; rewrite !elem_of_cons, elem_of_nil;
      intros [?|[?|[?|?]]]; done.
  - destruct a as [a|], b as [b|], c as [c|]; cbn -[Pos.eq_dec];
      repeat (case_bool_decide; simplify_eq; cbn -[Pos.eq_dec]);
      repeat (destruct (Pos.eq_dec _ _); simplify_eq); done.
  - intros cb' Hne. split.
    + destruct a as [a|], b as [b|], c as [c|]; cbn -[Pos.eq_dec];
        repeat (destruct (Pos.eq_dec _ _); simplify_eq); done.
    + destruct a as [a|], b as [b|], c as [c|]; cbn -[Pos.eq_dec];
        repeat (case_bool_decide; simplify_eq; cbn -[Pos.eq_dec]);
        repeat (destruct (Pos.eq_dec _ _); simplify_eq); done.
Qed.

Lemma callback_registry_multiplicity_witness :
  count_occ event_eq_dec
    (invoke_app_callbacks (ecm_event_handler sample_globals)
       CY_ECM_EVENT_CONNECTED)
    (Ev_app_callback 7%positive CY_ECM_EVENT_CONNECTED)
  = slots_of 7%positive sample_globals
  /\ (None ∈ ecm_event_handler sample_globals ->
      slots_of 7%positive
        (after_register cooperative sample_globals sample_object 7%positive)
      = S (slots_of 7%positive sample_globals))
  /\ slots_of 7%positive
       (after_deregister cooperative sample_globals sample_object 7%positive)
     = pred (slots_of 7%positive sample_globals)
  /\ forall cb',
       cb' <> 7%positive ->
       slots_of cb'
         (after_register cooperative sample_globals sample_object 7%positive)
       = slots_of cb' sample_globals
       /\ slots_of cb'
            (after_deregister cooperative sample_globals sample_object
               7%positive)
          = slots_of cb' sample_globals.
Proof.
  apply (callback_registry_multiplicity cooperative sample_globals sample_object
           7%positive CY_ECM_EVENT_CONNECTED).
  - repeat split; reflexivity.
  - repeat split; reflexivity.
Defined.

(** X17.  The result of a registration or a deregistration tells whether
    the arguments were not NULL, the manager was active and the global
    mutex was acquired and released, and nothing else: the code set for an
    object that is not initialized is overwritten by the result of the
    release, so such a call reports CY_RSLT_SUCCESS and changes no
    static. *)
Theorem callback_registry_result (E : collaborators) (g : globals)
    (ecm_handle : option cy_ecm_object_t)
    (event_callback : cy_ecm_event_callback_t) :
  ((cy_ecm_register_event_callback E g ecm_handle event_callback).1.1
   = CY_RSLT_SUCCESS
   <-> registry_call_passes E g ecm_handle event_callback)
  /\ ((cy_ecm_deregister_event_callback E g ecm_handle event_callback).1.1
      = CY_RSLT_SUCCESS
      <-> registry_call_passes E g ecm_handle event_callback)
  /\ (forall o, ecm_handle = Some o -> isobjinitialized o = false ->
      (cy_ecm_register_event_callback E g ecm_handle event_callback).1.2 = g
      /\ (cy_ecm_deregister_event_callback E g ecm_handle event_callback).1.2
         = g).
Proof.
  unfold registry_call_passes, cy_ecm_register_event_callback,
    cy_ecm_deregister_event_callback, release, succeeded.
  split; [|split].
  - destruct ecm_handle as [o|], event_callback as [cb|];
      try (split; [discriminate | intros (? & ? & _); done]).
    destruct (is_ecm_initialized g); cbn [negb];
      [|split; [discriminate | intros (_ & _ & ? & _); done]].
    case_bool_decide as Hget; cbn [negb fst snd];
      [|split; [discriminate | intros (_ & _ & _ & ? & _); done]].
    case_bool_decide as Hset; [done|].
    split; [discriminate | intros (_ & _ & _ & _ & ?); done].
  - destruct ecm_handle as [o|], event_callback as [cb|];
      try (split; [discriminate | intros (? & ? & _); done]).
    destruct (is_ecm_initialized g); cbn [negb];
      [|split; [discriminate | intros (_ & _ & ? & _); done]].
    case_bool_decide as Hget; cbn [negb fst snd];
      [|split; [discriminate | intros (_ & _ & _ & ? & _); done]].
    case_bool_decide as Hset; [done|].
    split; [discriminate | intros (_ & _ & _ & _ & ?); done].
  - intros o -> Hobj. rewrite Hobj.
    destruct event_callback as [cb|]; [|done].
    destruct (is_ecm_initialized g); [|done].
    case_bool_decide; done.
Qed.


(** ** Link status and link speed: the link is there *)

Lemma link_up_at_test (E : collaborators) (i : cy_ecm_interface_t) (n : nat) :
  link_up_at E i n ->
  on_phy_get_linkstatus E n i = (CY_RSLT_SUCCESS, 1).
Proof.
  unfold link_up_at. destruct (on_phy_get_linkstatus E n i) as [r ls].
  simpl. by intros [-> ->].
Qed.

Lemma link_down_at_test (E : collaborators) (i : cy_ecm_interface_t) (n : nat)
    (r : cy_rslt_t) (linkstatus : Z) :
  ~ link_up_at E i n ->
  on_phy_get_linkstatus E n i = (r, linkstatus) ->
  succeeded r && bool_decide (linkstatus = 1) = false.
Proof.
  unfold link_up_at, succeeded. intros Hn Hphy. rewrite Hphy in Hn. simpl in Hn.
  destruct (bool_decide_reflect (r = CY_RSLT_SUCCESS)); [|done].
  destruct (bool_decide_reflect (linkstatus = 1)); [|done].
  exfalso. by apply Hn.
Qed.

Lemma get_link_status_wait_up (E : collaborators) (i : cy_ecm_interface_t) :
  forall (j fuel n : nat) (total_wait_time : Z) (result : cy_rslt_t)
         (status : bool),
    link_up_at E i (n + j) ->
    (forall m, (m < j)%nat -> ~ link_up_at E i (n + m)) ->
    (j < fuel)%nat ->
    0 <= total_wait_time ->
    total_wait_time + WAIT_CHECK_ETHERNET_PHY_STATUS * Z.of_nat j
      < MAX_WAIT_ETHERNET_PHY_STATUS ->
    get_link_status_wait fuel E i n total_wait_time result status
    = Some (total_wait_time + WAIT_CHECK_ETHERNET_PHY_STATUS * Z.of_nat j,
            CY_RSLT_SUCCESS, true,
            link_polls i j ++ [Ev_phy_get_linkstatus i]).
Proof.
  unfold WAIT_CHECK_ETHERNET_PHY_STATUS, MAX_WAIT_ETHERNET_PHY_STATUS.
  induction j as [|j IH]; intros fuel n t result status Hup Hdown Hfuel Ht Hmax;
    (destruct fuel as [|fuel]; [lia|]); cbn [get_link_status_wait];
    unfold MAX_WAIT_ETHERNET_PHY_STATUS; rewrite bool_decide_true by lia.
  - rewrite Nat.add_0_r in Hup. rewrite (link_up_at_test E i n Hup).
    replace (t + 100 * Z.of_nat 0) with t by lia. done.
  - assert (Hn : ~ link_up_at E i n).
    { specialize (Hdown 0%nat). rewrite Nat.add_0_r in Hdown. apply Hdown. lia. }
    destruct (on_phy_get_linkstatus E n i) as [r ls] eqn:Hphy.
    rewrite (link_down_at_test E i n r ls Hn Hphy).
    unfold WAIT_CHECK_ETHERNET_PHY_STATUS, wrap32.
    rewrite Z.mod_small by lia.
    rewrite (IH fuel (S n) (t + 100) r status).
    + replace (t + 100 + 100 * Z.of_nat j) with (t + 100 * Z.of_nat (S j)) by lia.
      done.
    + by rewrite Nat.add_succ_comm.
    + intros m Hm. rewrite Nat.add_succ_comm. apply Hdown. lia.
    + lia.
    + lia.
    + lia.
Qed.

Lemma get_link_speed_wait_up (E : collaborators) (i : cy_ecm_interface_t)
    (mode phy_speed : Z) :
  forall (j fuel n : nat) (total_wait_time : Z),
    link_up_at E i (n + j) ->
    on_phy_get_linkspeed E (n + j) i = (CY_RSLT_SUCCESS, mode, phy_speed) ->
    (forall m, (m < j)%nat -> ~ link_up_at E i (n + m)) ->
    (j < fuel)%nat ->
    0 <= total_wait_time ->
    total_wait_time + WAIT_CHECK_ETHERNET_PHY_STATUS * Z.of_nat j
      < MAX_WAIT_ETHERNET_PHY_STATUS ->
    get_link_speed_wait fuel E i n total_wait_time
    = Some (Some (mode, phy_speed),
            link_polls i j ++ [Ev_phy_get_linkstatus i; Ev_phy_get_linkspeed i]).
Proof.
  unfold WAIT_CHECK_ETHERNET_PHY_STATUS, MAX_WAIT_ETHERNET_PHY_STATUS.
  induction j as [|j IH]; intros fuel n t Hup Hspeed Hdown Hfuel Ht Hmax;
    (destruct fuel as [|fuel]; [lia|]); cbn [get_link_speed_wait];
    unfold MAX_WAIT_ETHERNET_PHY_STATUS; rewrite bool_decide_true by lia.
  - rewrite Nat.add_0_r in Hup, Hspeed. rewrite (link_up_at_test E i n Hup).
    rewrite Hspeed. done.
  - assert (Hn : ~ link_up_at E i n).
    { specialize (Hdown 0%nat). rewrite Nat.add_0_r in Hdown. apply Hdown. lia. }
    destruct (on_phy_get_linkstatus E n i) as [r ls] eqn:Hphy.
    rewrite (link_down_at_test E i n r ls Hn Hphy).
    unfold WAIT_CHECK_ETHERNET_PHY_STATUS, wrap32.
    rewrite Z.mod_small by lia.
    rewrite (IH fuel (S n) (t + 100)).
    + done.
    + by rewrite Nat.add_succ_comm.
    + by rewrite Nat.add_succ_comm.
    + intros m Hm. rewrite Nat.add_succ_comm. apply Hdown. lia.
    + lia.
    + lia.
    + lia.
Qed.

(** X18.  When the PHY first reports link up in answer [j], before the
    ceiling of 100 turns, [cy_ecm_get_link_status] (manager active, global
    mutex acquired) returns after [j] delays of 100 ms with [*status] true,
    and [cy_ecm_get_link_speed] hands out the mode and the speed the PHY
    reports in that turn.  Neither looks at the cached link flag, at the
    connection state or at [isobjinitialized]. *)
Theorem cy_ecm_get_link_status_reports_up (fuel : nat) (E : collaborators)
    (g : globals) (o : cy_ecm_object_t) (status : bool) (duplex speed : Z)
    (j : nat) (mode phy_speed : Z) :
  link_first_up_at E (eth_idx o) j ->
  (j < link_wait_turns)%nat ->
  (j < fuel)%nat ->
  is_ecm_initialized g = true ->
  on_cy_rtos_get_mutex E = CY_RSLT_SUCCESS ->
  cy_ecm_get_link_status fuel E g (Some o) (Some status)
  = Some (release E CY_RSLT_SUCCESS, Some true,
          Ev_cy_rtos_get_mutex
            :: (link_polls (eth_idx o) j ++ [Ev_phy_get_linkstatus (eth_idx o)])
            ++ [Ev_cy_rtos_set_mutex])
  /\ (on_phy_get_linkspeed E j (eth_idx o) = (CY_RSLT_SUCCESS, mode, phy_speed) ->
      cy_ecm_get_link_speed fuel E g (Some o) (Some duplex) (Some speed)
      = Some (release E CY_RSLT_SUCCESS, Some mode, Some phy_speed,
              Ev_cy_rtos_get_mutex
                :: (link_polls (eth_idx o) j
                      ++ [Ev_phy_get_linkstatus (eth_idx o);
                          Ev_phy_get_linkspeed (eth_idx o)])
                ++ [Ev_cy_rtos_set_mutex])).
Proof.
  intros [Hup Hdown] Hj Hfuel Hinit Hget.
  rewrite link_wait_turns_eq in Hj.
  assert (Hmax : 0 + WAIT_CHECK_ETHERNET_PHY_STATUS * Z.of_nat j
                 < MAX_WAIT_ETHERNET_PHY_STATUS).
  { unfold WAIT_CHECK_ETHERNET_PHY_STATUS, MAX_WAIT_ETHERNET_PHY_STATUS. lia. }
  split.
  - unfold cy_ecm_get_link_status, succeeded. rewrite Hinit, Hget.
    rewrite bool_decide_true by done. cbn [negb].
    rewrite (get_link_status_wait_up E (eth_idx o) j fuel 0 0 CY_RSLT_SUCCESS
               status Hup Hdown Hfuel (Z.le_refl 0) Hmax).
    cbn [mbind option_bind].
    rewrite bool_decide_false; [done|].
    unfold WAIT_CHECK_ETHERNET_PHY_STATUS, MAX_WAIT_ETHERNET_PHY_STATUS in *. lia.
  - intros Hspeed.
    unfold cy_ecm_get_link_speed, succeeded. rewrite Hinit, Hget.
    rewrite bool_decide_true by done. cbn [negb].
    by rewrite (get_link_speed_wait_up E (eth_idx o) mode phy_speed j fuel 0 0
                  Hup Hspeed Hdown Hfuel (Z.le_refl 0) Hmax).
Qed.

Lemma cy_ecm_get_link_status_reports_up_witness :
  cy_ecm_get_link_status 10 (link_after 3) sample_globals
    (Some sample_object) (Some false)
  = Some (CY_RSLT_SUCCESS, Some true,
          Ev_cy_rtos_get_mutex
            :: (link_polls CY_ECM_INTERFACE_ETH0 3
                  ++ [Ev_phy_get_linkstatus CY_ECM_INTERFACE_ETH0])
            ++ [Ev_cy_rtos_set_mutex])
  /\ (on_phy_get_linkspeed (link_after 3) 3 CY_ECM_INTERFACE_ETH0
      = (CY_RSLT_SUCCESS, 1, 100) ->
      cy_ecm_get_link_speed 10 (link_after 3) sample_globals
        (Some sample_object) (Some 0) (Some 0)
      = Some (CY_RSLT_SUCCESS, Some 1, Some 100,
              Ev_cy_rtos_get_mutex
                :: (link_polls CY_ECM_INTERFACE_ETH0 3
                      ++ [Ev_phy_get_linkstatus CY_ECM_INTERFACE_ETH0;
                          Ev_phy_get_linkspeed CY_ECM_INTERFACE_ETH0])
                ++ [Ev_cy_rtos_set_mutex])).
Proof.
  apply (cy_ecm_get_link_status_reports_up 10 (link_after 3) sample_globals
           sample_object false 0 0 3 1 100).
  - split; [split; reflexivity|].
    intros n Hn [_ H]. destruct n as [|[|[|n]]]; [discriminate H..|lia].
  - rewrite link_wait_turns_eq. lia.
  - lia.
  - reflexivity.
  - reflexivity.
Defined.


(** ** Hardware settings *)

Lemma set_filter_loop_run (M : more_collaborators) (base : ETH_Type)
    (entries : list cy_ecm_filter_address_t) (first : cy_ecm_filter_address_t) :
  entries !! 0%nat = Some first ->
  forall (n : nat) (pre l : list cy_ecm_filter_address_t),
    entries = pre ++ l ->
    (n <= length l)%nat ->
    let program (k : nat) :=
      imap (fun j e =>
              Ev_Cy_ETHIF_SetFilterAddress base (Z.of_nat (length pre + j) + 1)
                (filter_type e) (filter_addr e) (ignoreBytes first))
           (take k l) in
    ((forall i, (length pre <= i < length pre + n)%nat ->
        on_Cy_ETHIF_SetFilterAddress M i = true) ->
     set_filter_loop M base entries n (length pre)
     = Some (CY_RSLT_SUCCESS, program n))
    /\ (forall k, (k < n)%nat ->
        (forall i, (length pre <= i < length pre + k)%nat ->
           on_Cy_ETHIF_SetFilterAddress M i = true) ->
        on_Cy_ETHIF_SetFilterAddress M (length pre + k) = false ->
        set_filter_loop M base entries n (length pre)
        = Some (CY_RSLT_ECM_ERROR, program (S k))).
Proof.
  intros Hfirst. induction n as [|n IH]; intros pre l Hl Hn; cbv zeta.
  - split; [intros _; by rewrite take_0 | intros k Hk; lia].
  - destruct l as [|e l']; [simpl in Hn; lia|]. simpl in Hn.
    assert (He : entries !! length pre = Some e)
      by (rewrite Hl; apply list_lookup_middle; done).
    assert (Hl' : entries = (pre ++ [e]) ++ l') by (by rewrite <- app_assoc).
    assert (Hlen : length (pre ++ [e]) = S (length pre))
      by (rewrite length_app; simpl; lia).
    destruct (IH (pre ++ [e]) l' Hl' ltac:(lia)) as [IHok IHref].
    rewrite Hlen in IHok, IHref.
    assert (Hshift : forall k,
              imap (fun j e0 =>
                      Ev_Cy_ETHIF_SetFilterAddress base
                        (Z.of_nat (S (length pre) + j) + 1)
                        (filter_type e0) (filter_addr e0) (ignoreBytes first))
                   (take k l')
              = imap ((fun j e0 =>
                         Ev_Cy_ETHIF_SetFilterAddress base
                           (Z.of_nat (length pre + j) + 1)
                           (filter_type e0) (filter_addr e0) (ignoreBytes first))
                      ∘ S) (take k l')).
    { intros k. apply imap_ext. intros j x _. simpl.
      by rewrite Nat.add_succ_r. }
    split.
    + intros Hacc. cbn [set_filter_loop]. rewrite He, Hfirst.
      cbn [mbind option_bind].
      rewrite (Hacc (length pre)) by lia. cbn [negb].
      rewrite IHok by (intros i Hi; apply Hacc; lia).
      cbn [mbind option_bind]. rewrite firstn_cons, imap_cons.
      rewrite Nat.add_0_r. by rewrite Hshift.
    + intros k Hk Hacc Href. cbn [set_filter_loop]. rewrite He, Hfirst.
      cbn [mbind option_bind].
      destruct k as [|k].
      * rewrite Nat.add_0_r in Href. rewrite Href. cbn [negb].
        rewrite firstn_cons, take_0, imap_cons. cbn [imap].
        by rewrite Nat.add_0_r.
      * rewrite (Hacc (length pre)) by lia. cbn [negb].
        rewrite (IHref k); [| lia | intros i Hi; apply Hacc; lia
                            | by rewrite Nat.add_succ_comm].
        cbn [mbind option_bind].
        rewrite (firstn_cons (S k)), imap_cons.
        rewrite Nat.add_0_r. by rewrite Hshift.
Qed.

(** X19.  An admitted [cy_ecm_set_filter_address] on an initiated
    interface, with a count between 1 and the maximum that does not exceed
    the caller's array, programs filter [i + 1] from entry [i], in order,
    always with the ignore mask of entry 0.  When the hardware accepts all
    of them the call returns CY_RSLT_SUCCESS; when filter [k + 1] is the
    first it refuses, the call returns CY_RSLT_ECM_ERROR, the [k] filters
    before stay programmed and the entries after are not looked at. *)
Theorem cy_ecm_set_filter_address_programs (CY_ECM_MAX_FILTER_ADDRESS : Z)
    (E : collaborators) (M : more_collaborators) (g : globals)
    (o : cy_ecm_object_t) (entries : list cy_ecm_filter_address_t)
    (filter_address_count : Z) :
  admitted E g o ->
  flag (is_ethernet_initiated g) (eth_idx o) = true ->
  0 < filter_address_count <= CY_ECM_MAX_FILTER_ADDRESS ->
  (Z.to_nat filter_address_count <= length entries)%nat ->
  let call_with := cy_ecm_set_filter_address CY_ECM_MAX_FILTER_ADDRESS E M g
                     (Some o) (Some entries) filter_address_count in
  (filters_accepted M (Z.to_nat filter_address_count) ->
   call_with
   = Some (release E CY_RSLT_SUCCESS,
           Ev Ev_cy_rtos_get_mutex
             :: filters_programmed (eth_base_type o) entries
                  (Z.to_nat filter_address_count)
             ++ [Ev Ev_cy_rtos_set_mutex]))
  /\ (forall k,
        (k < Z.to_nat filter_address_count)%nat ->
        filters_accepted M k ->
        on_Cy_ETHIF_SetFilterAddress M k = false ->
        call_with
        = Some (release E CY_RSLT_ECM_ERROR,
                Ev Ev_cy_rtos_get_mutex
                  :: filters_programmed (eth_base_type o) entries (S k)
                  ++ [Ev Ev_cy_rtos_set_mutex])).
Proof.
  intros (Hinit & Hget & Hobj) Hflag Hcount Hlen. cbv zeta.
  unfold cy_ecm_set_filter_address, succeeded.
  rewrite (bool_decide_false (filter_address_count = 0)) by lia.
  rewrite (bool_decide_false (filter_address_count > CY_ECM_MAX_FILTER_ADDRESS))
    by lia.
  rewrite Hinit, Hget, Hobj, Hflag.
  rewrite (bool_decide_true (CY_RSLT_SUCCESS = CY_RSLT_SUCCESS)) by done.
  cbn [negb orb].
  destruct entries as [|first rest]; [simpl in Hlen; lia|].
  unfold filters_programmed.
  destruct (set_filter_loop_run M (eth_base_type o) (first :: rest) first
              eq_refl (Z.to_nat filter_address_count) [] (first :: rest)
              eq_refl Hlen)
    as [Hok Href].
  cbn [length Nat.add] in Hok, Href.
  split.
  - intros Hacc. rewrite Hok by (intros i Hi; apply Hacc; lia). done.
  - intros k Hk Hacc Hrefused.
    rewrite (Href k Hk) by (first [done | intros i Hi; apply Hacc; lia]).
    done.
Qed.

Lemma cy_ecm_set_filter_address_programs_witness :
  cy_ecm_set_filter_address 4 cooperative (refusing_filter 1) sample_globals
    (Some sample_object) (Some sample_filters) 3
  = Some (CY_RSLT_ECM_ERROR,
          [Ev Ev_cy_rtos_get_mutex;
           Ev_Cy_ETHIF_SetFilterAddress ETH0 1 0 [1; 2; 3; 4; 5; 6] 1;
           Ev_Cy_ETHIF_SetFilterAddress ETH0 2 1 [6; 5; 4; 3; 2; 1] 1;
           Ev Ev_cy_rtos_set_mutex]).
Proof.
  refine (proj2 (cy_ecm_set_filter_address_programs 4 cooperative
                   (refusing_filter 1) sample_globals sample_object
                   sample_filters 3 _ _ _ _) 1%nat _ _ _).
  - repeat split; reflexivity.
  - reflexivity.
  - lia.
  - simpl. lia.
  - simpl. lia.
  - intros i Hi. destruct i as [|i]; [reflexivity | lia].
  - reflexivity.
Defined.

(** X20.  None of [cy_ecm_set_promiscuous_mode], [cy_ecm_broadcast_disable]
    and [cy_ecm_set_filter_address] reaches the hardware for an object that
    is not initialized or whose interface is not marked initiated, as after
    [cy_ecm_ethif_deinit]; each of them returns, with a code other than
    CY_RSLT_SUCCESS. *)
Theorem hardware_settings_guarded (CY_ECM_MAX_FILTER_ADDRESS : Z)
    (E : collaborators) (M : more_collaborators) (g : globals)
    (o : cy_ecm_object_t) (on : bool)
    (filter_address : option (list cy_ecm_filter_address_t))
    (filter_address_count : Z) :
  isobjinitialized o = false
  \/ flag (is_ethernet_initiated g) (eth_idx o) = false ->
  (let '(r, tr) := cy_ecm_set_promiscuous_mode E g (Some o) on in
   r <> CY_RSLT_SUCCESS /\ Forall (fun e => is_mode_setting e = false) tr)
  /\ (let '(r, tr) := cy_ecm_broadcast_disable E g (Some o) on in
      r <> CY_RSLT_SUCCESS /\ Forall (fun e => is_mode_setting e = false) tr)
  /\ exists r tr,
       cy_ecm_set_filter_address CY_ECM_MAX_FILTER_ADDRESS E M g (Some o)
         filter_address filter_address_count
       = Some (r, tr)
       /\ r <> CY_RSLT_SUCCESS
       /\ Forall (fun c => is_filter_setting c = false) tr.
Proof.
  intros Hguard.
  assert (Hor : negb (isobjinitialized o)
                || negb (flag (is_ethernet_initiated g) (eth_idx o)) = true).
  { destruct Hguard as [-> | ->]; [done | by rewrite orb_true_r]. }
  assert (Hrel : forall r, r <> CY_RSLT_SUCCESS -> release E r <> CY_RSLT_SUCCESS).
  { intros r Hr H. by apply release_success in H as [? _]. }
  assert (Hhw : forall hw,
            let '(r, tr) := hardware_setting E g (Some o) hw in
            r <> CY_RSLT_SUCCESS
            /\ Forall (fun e => is_mode_setting e = false) tr).
  { intros hw. unfold hardware_setting, succeeded.
    destruct (is_ecm_initialized g); cbn [negb]; [|by split].
    case_bool_decide; cbn [negb]; [|split; [done | by repeat constructor]].
    rewrite Hor. split; [by apply Hrel | by repeat constructor]. }
  split; [apply Hhw|]. split; [apply Hhw|].
  unfold cy_ecm_set_filter_address, succeeded.
  destruct filter_address as [entries|]; [|by eexists _, _].
  destruct (bool_decide (filter_address_count = 0)
            || bool_decide (filter_address_count > CY_ECM_MAX_FILTER_ADDRESS));
    [by eexists _, _|].
  destruct (is_ecm_initialized g); cbn [negb]; [|by eexists _, _].
  case_bool_decide; cbn [negb];
    [|eexists _, _; split; [done|]; split; [done | by repeat constructor]].
  rewrite Hor. eexists _, _. split; [done|].
  split; [by apply Hrel | by repeat constructor].
Qed.

Lemma hardware_settings_guarded_witness :
  (let '(r, tr) :=
     cy_ecm_set_promiscuous_mode cooperative sample_globals
       (Some sample_object_eth1) true in
   r <> CY_RSLT_SUCCESS /\ Forall (fun e => is_mode_setting e = false) tr)
  /\ (let '(r, tr) :=
        cy_ecm_broadcast_disable cooperative sample_globals
          (Some sample_object_eth1) true in
      r <> CY_RSLT_SUCCESS /\ Forall (fun e => is_mode_setting e = false) tr)
  /\ exists r tr,
       cy_ecm_set_filter_address 4 cooperative (refusing_filter 1)
         sample_globals (Some sample_object_eth1) (Some sample_filters) 3
       = Some (r, tr)
       /\ r <> CY_RSLT_SUCCESS
       /\ Forall (fun c => is_filter_setting c = false) tr.
Proof.
  apply (hardware_settings_guarded 4 cooperative (refusing_filter 1)
           sample_globals sample_object_eth1 true (Some sample_filters) 3).
  right. reflexivity.
Defined.


(** ** The link monitor over many turns *)

Lemma notifications_delivery (cb : fnptr) (cbs : list fnptr)
    (event_type : cy_ecm_event_t) :
  notifications cb (delivery cbs event_type)
  = replicate (count_occ Pos.eq_dec cbs cb) event_type.
Proof.
  unfold notifications, delivery.
  induction cbs as [|c cbs IH]; [done|]. cbn -[Pos.eq_dec].
  destruct (Pos.eq_dec c cb); cbn -[Pos.eq_dec]; by rewrite IH.
Qed.

Lemma monitor_interface_turn (phy : cy_ecm_interface_t -> cy_rslt_t * Z)
    (g : globals) (i : cy_ecm_interface_t) (cb : fnptr) :
  well_sized g ->
  (idx i < CY_ECM_ETH_INTERFACE_MAX)%nat ->
  slots_of cb g = 1%nat ->
  let up := flag (is_ethernet_link_up g) i in
  let g1 := (monitor_interface phy i g).1 in
  let tr1 := (monitor_interface phy i g).2 in
  ecm_event_handler g1 = ecm_event_handler g
  /\ is_ethernet_initiated g1 = is_ethernet_initiated g
  /\ length (is_ethernet_link_up g1) = length (is_ethernet_link_up g)
  /\ ((notifications cb tr1 = [] /\ flag (is_ethernet_link_up g1) i = up)
      \/ (notifications cb tr1
          = [if up then CY_ECM_EVENT_DISCONNECTED else CY_ECM_EVENT_CONNECTED]
          /\ flag (is_ethernet_link_up g1) i = negb up)).
Proof.
  intros (Hcb & Hini & Hlen) Hi Hslots. cbv zeta.
  unfold monitor_interface. destruct (phy i) as [r ls].
  destruct (succeeded r); [|repeat split; by left].
  assert (Hnote : forall t,
            notifications cb
              (Ev_phy_get_linkstatus i
                 :: invoke_app_callbacks (ecm_event_handler g) t)
            = [t]).
  { intros t. rewrite invoke_app_callbacks_delivery by done.
    change (notifications cb (Ev_phy_get_linkstatus i
                                :: delivery (omap id (ecm_event_handler g)) t))
      with (notifications cb (delivery (registered g) t)).
    rewrite notifications_delivery. unfold slots_of in Hslots.
    by rewrite Hslots. }
  destruct (bool_decide (ls = 1));
    destruct (flag (is_ethernet_link_up g) i) eqn:Hflag; cbn [negb fst snd];
    try (repeat split; by left).
  - cbn [ecm_event_handler is_ethernet_initiated is_ethernet_link_up
           set_is_ethernet_link_up].
    rewrite length_insert. repeat split. right. split; [apply Hnote|].
    apply flag_insert_eq. by rewrite Hlen.
  - cbn [ecm_event_handler is_ethernet_initiated is_ethernet_link_up
           set_is_ethernet_link_up].
    rewrite length_insert. repeat split. right. split; [apply Hnote|].
    apply flag_insert_eq. by rewrite Hlen.
Qed.

Lemma evaluated_in_idx (g : globals) (i : cy_ecm_interface_t) :
  evaluated_in g i -> (idx i < CY_ECM_ETH_INTERFACE_MAX)%nat.
Proof.
  intros [[-> _] | (-> & _)]; cbn; unfold CY_ECM_ETH_INTERFACE_MAX; lia.
Qed.

Lemma notifications_app (cb : fnptr) (tr1 tr2 : list event) :
  notifications cb (tr1 ++ tr2) = notifications cb tr1 ++ notifications cb tr2.
Proof. apply omap_app. Qed.

(** X21.  Over any number of turns of the link monitor, whatever the PHY
    answers, a callback that holds one slot is told of link changes in
    strict alternation: CY_ECM_EVENT_CONNECTED first when the cached link
    flag of the monitored interface is clear, CY_ECM_EVENT_DISCONNECTED
    first when it is set, never the same event twice in a row; and the flag
    after the last turn is the state the last event announced. *)
Theorem ecm_event_thread_func_alternates
    (phys : list (cy_ecm_interface_t -> cy_rslt_t * Z)) (g : globals)
    (i : cy_ecm_interface_t) (cb : fnptr) :
  well_sized g ->
  evaluated_in g i ->
  slots_of cb g = 1%nat ->
  let up := flag (is_ethernet_link_up g) i in
  let g' := (ecm_event_thread_func phys g).1 in
  let told := notifications cb (ecm_event_thread_func phys g).2 in
  alternating up told
  /\ flag (is_ethernet_link_up g') i = link_state_after up told.
Proof.
  cbv zeta. revert g.
  induction phys as [|phy rest IH]; intros g Hsize Hev Hslots; [by split|].
  cbn [ecm_event_thread_func].
  rewrite (ecm_event_thread_iteration_evaluated phy g i Hev).
  destruct (monitor_interface_turn phy g i cb Hsize (evaluated_in_idx g i Hev)
              Hslots) as (Hh & Hini & Hlen & Hturn).
  set (g1 := (monitor_interface phy i g).1) in *.
  set (tr1 := (monitor_interface phy i g).2) in *.
  assert (Hsize1 : well_sized g1).
  { destruct Hsize as (? & ? & ?). repeat split; congruence. }
  assert (Hev1 : evaluated_in g1 i).
  { unfold evaluated_in. by rewrite Hini. }
  assert (Hslots1 : slots_of cb g1 = 1%nat).
  { unfold slots_of, registered. by rewrite Hh. }
  destruct (IH g1 Hsize1 Hev1 Hslots1) as [IHalt IHflag].
  destruct (ecm_event_thread_func rest g1) as [g2 tr2]. cbn [fst snd] in *.
  rewrite !notifications_app. change (notifications cb [_]) with (@nil cy_ecm_event_t).
  rewrite app_nil_r.
  destruct Hturn as [[-> Hflag] | [-> Hflag]]; rewrite Hflag in IHalt, IHflag.
  - done.
  - split; [done|]. rewrite IHflag. unfold link_state_after.
    cbn [app length]. rewrite Nat.even_succ, <- Nat.negb_even.
    generalize (flag (is_ethernet_link_up g) i) as b.
    generalize (Nat.even (length (notifications cb tr2))) as e.
    by intros [] [].
Qed.

Lemma ecm_event_thread_func_alternates_witness :
  let phys := [ (fun _ => (CY_RSLT_SUCCESS, 1)); (fun _ => (CY_RSLT_SUCCESS, 1));
                (fun _ => (CY_RSLT_COLLABORATOR 1, 0));
                (fun _ => (CY_RSLT_SUCCESS, 0)); (fun _ => (CY_RSLT_SUCCESS, 1)) ] in
  notifications 7%positive (ecm_event_thread_func phys sample_globals).2
  = [CY_ECM_EVENT_CONNECTED; CY_ECM_EVENT_DISCONNECTED; CY_ECM_EVENT_CONNECTED]
  /\ alternating (flag (is_ethernet_link_up sample_globals) CY_ECM_INTERFACE_ETH0)
       (notifications 7%positive (ecm_event_thread_func phys sample_globals).2)
  /\ flag (is_ethernet_link_up (ecm_event_thread_func phys sample_globals).1)
       CY_ECM_INTERFACE_ETH0
     = link_state_after
         (flag (is_ethernet_link_up sample_globals) CY_ECM_INTERFACE_ETH0)
         (notifications 7%positive (ecm_event_thread_func phys sample_globals).2).
Proof.
  intros phys. split; [reflexivity|].
  apply (ecm_event_thread_func_alternates phys sample_globals
           CY_ECM_INTERFACE_ETH0 7%positive).
  - repeat split; reflexivity.
  - left. split; reflexivity.
  - reflexivity.
Defined.


(** ** The global mutex *)

Lemma mutex_ops_of_app (a b : list event) :
  mutex_ops_of (a ++ b) = mutex_ops_of a ++ mutex_ops_of b.
Proof. unfold mutex_ops_of, mutex_ops. by rewrite fmap_app, omap_app. Qed.

Lemma mutex_ops_of_quiet (e : event) (tr : list event) :
  mutex_op (Ev e) = None -> mutex_ops_of (e :: tr) = mutex_ops_of tr.
Proof. intros H. unfold mutex_ops_of, mutex_ops. cbn [fmap list_fmap omap list_omap]. by rewrite H. Qed.

Lemma mutex_ops_of_get (tr : list event) :
  mutex_ops_of (Ev_cy_rtos_get_mutex :: tr) = true :: mutex_ops_of tr.
Proof. reflexivity. Qed.

Lemma mutex_ops_of_set (tr : list event) :
  mutex_ops_of (Ev_cy_rtos_set_mutex :: tr) = false :: mutex_ops_of tr.
Proof. reflexivity. Qed.

(** Brings the mutex operations of a trace written with [::] and [++] down
    to those of its unknown parts. *)
Ltac mutex_norm :=
  repeat first [ rewrite mutex_ops_of_app
               | rewrite mutex_ops_of_get
               | rewrite mutex_ops_of_set
               | rewrite mutex_ops_of_quiet by done ];
  change (mutex_ops_of []) with (@nil bool).

Lemma mutex_ops_app (a b : list call) :
  mutex_ops (a ++ b) = mutex_ops a ++ mutex_ops b.
Proof. apply omap_app. Qed.

Lemma get_link_status_wait_quiet (E : collaborators) (i : cy_ecm_interface_t)
    (fuel n : nat) (total_wait_time t : Z) (result r : cy_rslt_t)
    (status s : bool) (tr : list event) :
  get_link_status_wait fuel E i n total_wait_time result status
  = Some (t, r, s, tr) ->
  mutex_ops_of tr = [].
Proof.
  revert n total_wait_time result t r s tr.
  induction fuel as [|fuel IH]; intros n total_wait_time result t r s tr;
    cbn [get_link_status_wait]; (destruct (bool_decide _); [|by intros [= <- <- <- <-]]);
    [done|].
  destruct (on_phy_get_linkstatus E n i) as [r0 linkstatus].
  destruct (succeeded r0 && bool_decide (linkstatus = 1));
    [by intros [= <- <- <- <-]|].
  destruct (get_link_status_wait fuel E i (S n) _ r0 status)
    as [[[[t' r'] s'] tr']|] eqn:Hrec; [|done].
  cbn [mbind option_bind]. intros [= <- <- <- <-].
  mutex_norm. by rewrite (IH _ _ _ _ _ _ _ Hrec).
Qed.

Lemma get_link_speed_wait_quiet (E : collaborators) (i : cy_ecm_interface_t)
    (fuel n : nat) (total_wait_time : Z) (out : option (Z * Z))
    (tr : list event) :
  get_link_speed_wait fuel E i n total_wait_time = Some (out, tr) ->
  mutex_ops_of tr = [].
Proof.
  revert n total_wait_time out tr.
  induction fuel as [|fuel IH]; intros n total_wait_time out tr;
    cbn [get_link_speed_wait]; (destruct (bool_decide _); [|by intros [= <- <-]]);
    [done|].
  destruct (on_phy_get_linkstatus E n i) as [r0 link_status].
  assert (Hagain : forall tr0,
            mutex_ops_of tr0 = [] ->
            ('(out0, tr1) ←
               get_link_speed_wait fuel E i (S n)
                 (wrap32 (total_wait_time + WAIT_CHECK_ETHERNET_PHY_STATUS));
             Some (out0,
                   tr0 ++ Ev_cy_rtos_delay_milliseconds
                            WAIT_CHECK_ETHERNET_PHY_STATUS :: tr1))
            = Some (out, tr) ->
            mutex_ops_of tr = []).
  { intros tr0 Htr0.
    destruct (get_link_speed_wait fuel E i (S n) _) as [[out0 tr1]|] eqn:Hrec;
      [|done].
    cbn [mbind option_bind]. intros [= <- <-].
    mutex_norm. by rewrite Htr0, (IH _ _ _ _ Hrec). }
  destruct (succeeded r0 && bool_decide (link_status = 1)); [|by apply Hagain].
  destruct (on_phy_get_linkspeed E n i) as [[r2 mode] phy_speed].
  destruct (succeeded r2); [by intros [= <- <-] | by apply Hagain].
Qed.

Lemma connect_link_wait_quiet (E : collaborators) (i : cy_ecm_interface_t)
    (fuel n : nat) (total_wait_time t : Z) (result r : cy_rslt_t)
    (tr : list event) :
  connect_link_wait fuel E i n total_wait_time result = Some (t, r, tr) ->
  mutex_ops_of tr = [].
Proof.
  revert n total_wait_time result t r tr.
  induction fuel as [|fuel IH]; intros n total_wait_time result t r tr;
    cbn [connect_link_wait]; (destruct (bool_decide _); [|by intros [= <- <- <-]]);
    [done|].
  destruct (on_phy_get_linkstatus E n i) as [r0 linkstatus].
  destruct (succeeded r0 && bool_decide (linkstatus = 1));
    [by intros [= <- <- <-]|].
  destruct (connect_link_wait fuel E i (S n) _ r0) as [[[t' r'] tr']|] eqn:Hrec;
    [|done].
  cbn [mbind option_bind]. intros [= <- <- <-].
  mutex_norm. by rewrite (IH _ _ _ _ _ _ Hrec).
Qed.

Lemma connect_dhcp_wait_quiet (cfg : platform) (E : collaborators)
    (fuel n : nat) (total_wait_time t : Z) (r : cy_rslt_t)
    (ip_addr a : option cy_ecm_ip_address_t) (tr : list event) :
  connect_dhcp_wait fuel cfg E n total_wait_time ip_addr = Some (t, r, a, tr) ->
  mutex_ops_of tr = [].
Proof.
  revert n total_wait_time t r a tr.
  induction fuel as [|fuel IH]; intros n total_wait_time t r a tr; [done|].
  cbn [connect_dhcp_wait].
  destruct (on_cy_network_get_ip_address E n) as [r0 w].
  destruct (succeeded r0); [by intros [= <- <- <- <-]|].
  destruct (connect_dhcp_wait fuel cfg E (S n) _ ip_addr)
    as [[[[t' r'] a'] tr']|] eqn:Hrec; [|done].
  cbn [mbind option_bind]. intros [= <- <- <- <-].
  mutex_norm. by rewrite (IH _ _ _ _ _ _ Hrec).
Qed.

Lemma connect_ip_up_quiet (fuel : nat) (cfg : platform) (E : collaborators)
    (g : globals) (o : cy_ecm_object_t) (ip_addr : option cy_ecm_ip_address_t)
    (tr0 : list event) (co : connect_outcome) :
  mutex_ops_of tr0 = [] ->
  connect_ip_up fuel cfg E g o ip_addr tr0 = Some co ->
  mutex_ops_of (co_trace co) = [].
Proof.
  intros Htr0. unfold connect_ip_up.
  destruct (negb (succeeded (on_cy_network_ip_up E))).
  - intros [= <-]. cbn [co_trace]. mutex_norm. by rewrite Htr0.
  - destruct (connect_dhcp_wait fuel cfg E 0 0 ip_addr)
      as [[[[t r] a] tr]|] eqn:Hw; [|done].
    apply connect_dhcp_wait_quiet in Hw. cbn [mbind option_bind].
    destruct (bool_decide (t > DHCP_TIMEOUT_COUNT)); intros [= <-];
      cbn [co_trace]; mutex_norm; by rewrite Htr0, Hw.
Qed.

Lemma connect_attach_quiet (fuel : nat) (cfg : platform) (E : collaborators)
    (g : globals) (o : cy_ecm_object_t) (s : option (Z * Z * Z))
    (ip_addr : option cy_ecm_ip_address_t) (co : connect_outcome) :
  connect_attach fuel cfg E g o s ip_addr = Some co ->
  mutex_ops_of (co_trace co) = [].
Proof.
  unfold connect_attach.
  destruct (on_cy_network_add_nw_interface E) as [r ctx].
  destruct (negb (succeeded r)); [by intros [= <-]|].
  destruct (negb (flag (is_ethernet_link_up g)
                    (eth_idx (set_iface_context o ctx)))).
  - destruct (connect_link_wait fuel E (eth_idx (set_iface_context o ctx)) 0 0 r)
      as [[[t r'] tr]|] eqn:Hw; [|done].
    apply connect_link_wait_quiet in Hw. cbn [mbind option_bind].
    destruct (bool_decide (t >= MAX_WAIT_ETHERNET_PHY_STATUS)).
    + intros [= <-]. cbn [co_trace]. mutex_norm. by rewrite Hw.
    + apply connect_ip_up_quiet. mutex_norm. by rewrite Hw.
  - by apply connect_ip_up_quiet.
Qed.

Lemma connect_locked_quiet (fuel : nat) (cfg : platform) (E : collaborators)
    (g : globals) (o : cy_ecm_object_t)
    (ecm_static_ip_addr : option cy_ecm_ip_setting_t)
    (ip_addr : option cy_ecm_ip_address_t) (co : connect_outcome) :
  connect_locked fuel cfg E g o ecm_static_ip_addr ip_addr = Some co ->
  mutex_ops_of (co_trace co) = [].
Proof.
  unfold connect_locked.
  destruct (negb (isobjinitialized o)); [by intros [= <-]|].
  destruct (network_up o); [by intros [= <-]|].
  destruct ecm_static_ip_addr as [s|]; [|apply connect_attach_quiet].
  destruct (bool_decide _); [apply connect_attach_quiet | by intros [= <-]].
Qed.

Lemma set_filter_loop_quiet (M : more_collaborators) (base : ETH_Type)
    (entries : list cy_ecm_filter_address_t) (n i : nat) (r : cy_rslt_t)
    (tr : list call) :
  set_filter_loop M base entries n i = Some (r, tr) -> mutex_ops tr = [].
Proof.
  revert i r tr. induction n as [|n IH]; intros i r tr; cbn [set_filter_loop];
    [by intros [= <- <-]|].
  destruct (entries !! i) as [entry|]; [|done].
  destruct (entries !! 0%nat) as [first|]; [|done].
  cbn [mbind option_bind].
  destruct (negb (on_Cy_ETHIF_SetFilterAddress M i)); [by intros [= <- <-]|].
  destruct (set_filter_loop M base entries n (S i)) as [[r' tr']|] eqn:Hrec;
    [|done].
  cbn [mbind option_bind]. intros [= <- <-].
  change (mutex_ops (?c :: tr')) with (mutex_ops tr').
  by eapply IH.
Qed.

Lemma configured_modes_quiet (cfg : platform) (base : ETH_Type) :
  mutex_ops_of (configured_modes cfg base) = [].
Proof.
  unfold configured_modes.
  by destruct (eth_0_ENABLED cfg), (eth_1_ENABLED cfg),
    (eth_0_PROMISCUOUS_MODE cfg), (eth_1_PROMISCUOUS_MODE cfg),
    (eth_0_ACCEPT_BROADCASR_FRAMES cfg), (eth_1_ACCEPT_BROADCASR_FRAMES cfg).
Qed.

Lemma ethif_init_locked_releases (cfg : platform) (E : collaborators)
    (g : globals) (i : cy_ecm_interface_t) (cb : cy_ecm_phy_callbacks_t) :
  mutex_ops_of (ethif_init_locked cfg E g i cb).2 = [false].
Proof.
  unfold ethif_init_locked, ethif_init_exit.
  destruct (flag (is_ethernet_initiated g) i); [done|].
  destruct (negb (on_malloc E)); [done|].
  destruct (negb (succeeded (on_obj_mutex_init E))); [done|].
  destruct (negb (succeeded (on_cy_eth_driver_initialization E))); [done|].
  cbv zeta. cbn [eth_base_type].
  destruct (bool_decide _ && negb _); cbn [snd];
    mutex_norm; rewrite configured_modes_quiet; [done|].
  destruct (bool_decide _); mutex_norm; done.
Qed.

(** Closes a bracket goal on a path whose trace is written out. *)
Ltac close_bracket :=
  cbn;
  first [ by left
        | right; left; split; [assumption | reflexivity]
        | right; right; split; [assumption | reflexivity] ].

(** X22.  None of the API functions that take the global mutex (all but
    [cy_ecm_init] and [cy_ecm_deinit]) returns with it held, and none but
    one releases it without having acquired it: whatever the arguments and
    the answers of the collaborators, a call that returns has left the
    global mutex alone, or has failed to acquire it and stopped, or has
    acquired it once and released it once, in this order.  The exception is
    [cy_ecm_get_mac_address], which goes to its [exit] label when the
    acquisition fails and releases the mutex all the same. *)
Theorem global_mutex_discipline (fuel : nat) (cfg : platform)
    (E : collaborators) (M : more_collaborators) (g : globals)
    (h : option cy_ecm_object_t) (hh : option (option cy_ecm_object_t))
    (hu : option unit) (i : cy_ecm_interface_t)
    (cbs : option cy_ecm_phy_callbacks_t) (c : cy_ecm_event_callback_t)
    (a : option cy_ecm_ip_address_t) (s : option cy_ecm_ip_setting_t)
    (b : bool) (st : option bool) (z1 z2 : option Z) (n v6 max : Z)
    (fs : option (list cy_ecm_filter_address_t)) (t : cy_ecm_ipv6_type_t)
    (mac : option (list Z)) :
  bracketed E (mutex_ops_of (cy_ecm_ethif_init cfg E g i cbs hu).2)
  /\ bracketed E (mutex_ops (cy_ecm_ethif_deinit E g hh).2)
  /\ (forall out, cy_ecm_connect fuel cfg E g h s a = Some out ->
      bracketed E (mutex_ops_of out.2))
  /\ bracketed E (mutex_ops_of (cy_ecm_disconnect E g h).2)
  /\ bracketed E (mutex_ops_of (cy_ecm_register_event_callback E g h c).2)
  /\ bracketed E (mutex_ops_of (cy_ecm_deregister_event_callback E g h c).2)
  /\ (forall out, cy_ecm_get_link_status fuel E g h st = Some out ->
      bracketed E (mutex_ops_of out.2))
  /\ (forall out, cy_ecm_get_link_speed fuel E g h z1 z2 = Some out ->
      bracketed E (mutex_ops_of out.2))
  /\ bracketed E (mutex_ops_of (cy_ecm_set_promiscuous_mode E g h b).2)
  /\ bracketed E (mutex_ops_of (cy_ecm_broadcast_disable E g h b).2)
  /\ (forall out, cy_ecm_set_filter_address max E M g h fs n = Some out ->
      bracketed E (mutex_ops out.2))
  /\ bracketed E (mutex_ops_of (cy_ecm_get_ip_address cfg E g h a).2)
  /\ bracketed E (mutex_ops (cy_ecm_get_gateway_address cfg E M g h a).2)
  /\ bracketed E (mutex_ops (cy_ecm_get_netmask_address cfg E M g h a).2)
  /\ bracketed E (mutex_ops (cy_ecm_get_ipv6_address v6 E M g h t a).2)
  /\ bracketed E (mutex_ops (cy_ecm_ping E M g h a n z1).2)
  /\ (mutex_ops (cy_ecm_get_mac_address E M g h mac).2 = []
      \/ mutex_ops (cy_ecm_get_mac_address E M g h mac).2 = [true; false])
  /\ (h <> None -> mac <> None -> is_ecm_initialized g = true ->
      on_cy_rtos_get_mutex E <> CY_RSLT_SUCCESS ->
      ~ bracketed E (mutex_ops (cy_ecm_get_mac_address E M g h mac).2)).
Proof.
  destruct (decide (on_cy_rtos_get_mutex E = CY_RSLT_SUCCESS)) as [Hget|Hget].
  all: assert (Hs : succeeded (on_cy_rtos_get_mutex E)
                    = bool_decide (on_cy_rtos_get_mutex E = CY_RSLT_SUCCESS))
         by reflexivity.
  all: first [rewrite (bool_decide_true _ Hget) in Hs
             | rewrite (bool_decide_false _ Hget) in Hs].
  all: unfold bracketed.
  all: repeat apply conj.
  all: unfold cy_ecm_ethif_init, cy_ecm_ethif_deinit, cy_ecm_connect,
         cy_ecm_disconnect, cy_ecm_register_event_callback,
         cy_ecm_deregister_event_callback, cy_ecm_get_link_status,
         cy_ecm_get_link_speed, cy_ecm_set_promiscuous_mode,
         cy_ecm_broadcast_disable, hardware_setting, cy_ecm_set_filter_address,
         cy_ecm_get_ip_address, cy_ecm_get_gateway_address,
         cy_ecm_get_netmask_address, v4_address_query, cy_ecm_get_ipv6_address,
         cy_ecm_ping, cy_ecm_get_mac_address.
  all: rewrite ?Hs; cbn [negb].
  (* ethif_init *)
  1, 19: unfold cy_ecm_ethif_init;
    repeat (destruct (_ || _); [close_bracket|]);
    repeat (destruct (negb _); [close_bracket|]);
    (destruct cbs as [cb|]; [|close_bracket]);
    repeat (destruct (negb _); [close_bracket|]);
    try close_bracket;
    pose proof (ethif_init_locked_releases cfg E g i cb) as Hrel;
    destruct (ethif_init_locked cfg E g i cb) as [[[r g'] slot] tr];
    cbn [snd] in *; mutex_norm; rewrite Hrel; close_bracket.
  (* ethif_deinit *)
  1, 18: unfold cy_ecm_ethif_deinit;
    (destruct hh as [[o|]|]; [|close_bracket..]);
    (destruct (negb _); [close_bracket|]);
    try close_bracket;
    cbv zeta; destruct (_ && _); close_bracket.
  (* connect *)
  1, 17: intros out; unfold cy_ecm_connect;
    (destruct h as [o|]; [|intros [= <-]; close_bracket]);
    (destruct (negb _); [intros [= <-]; close_bracket|]);
    try (intros [= <-]; close_bracket);
    (destruct (connect_locked fuel cfg E g o s a) as [co|] eqn:Hco; [|done]);
    apply connect_locked_quiet in Hco;
    cbn [mbind option_bind]; intros [= <-]; cbn [snd];
    mutex_norm; rewrite Hco; close_bracket.
  (* disconnect *)
  1, 16: unfold cy_ecm_disconnect;
    (destruct h as [o|]; [|close_bracket]);
    (destruct (negb _); [close_bracket|]);
    try close_bracket;
    repeat (destruct (negb _); [close_bracket|]); close_bracket.
  (* register *)
  1, 15: unfold cy_ecm_register_event_callback;
    (destruct h as [o|], c as [cb|]; try close_bracket);
    (destruct (negb _); [close_bracket|]);
    close_bracket.
  (* deregister *)
  1, 14: unfold cy_ecm_deregister_event_callback;
    (destruct h as [o|], c as [cb|]; try close_bracket);
    (destruct (negb _); [close_bracket|]);
    close_bracket.
  (* get_link_status *)
  1, 13: intros out; unfold cy_ecm_get_link_status;
    (destruct h as [o|], st as [st0|]; try (intros [= <-]; close_bracket));
    (destruct (negb _); [intros [= <-]; close_bracket|]);
    try (intros [= <-]; close_bracket);
    (destruct (get_link_status_wait fuel E (eth_idx o) 0 0 CY_RSLT_SUCCESS st0)
       as [[[[tw r] s'] tr]|] eqn:Hw; [|done]);
    apply get_link_status_wait_quiet in Hw;
    cbn [mbind option_bind]; destruct (bool_decide _); intros [= <-]; cbn [snd];
    mutex_norm; rewrite Hw; close_bracket.
  (* get_link_speed *)
  1, 12: intros out; unfold cy_ecm_get_link_speed;
    (destruct h as [o|], z1 as [d|], z2 as [sp|];
       try (intros [= <-]; close_bracket));
    (destruct (negb _); [intros [= <-]; close_bracket|]);
    try (intros [= <-]; close_bracket);
    (destruct (get_link_speed_wait fuel E (eth_idx o) 0 0)
       as [[[[m p]|] tr]|] eqn:Hw; [| |done]);
    apply get_link_speed_wait_quiet in Hw;
    cbn [mbind option_bind]; intros [= <-]; cbn [snd];
    mutex_norm; rewrite Hw; close_bracket.
  (* set_promiscuous_mode, broadcast_disable *)
  1, 2, 11, 12: unfold cy_ecm_set_promiscuous_mode, cy_ecm_broadcast_disable,
      hardware_setting;
    (destruct h as [o|]; [|close_bracket]);
    (destruct (negb _); [close_bracket|]);
    try close_bracket;
    destruct (_ || _); close_bracket.
  (* set_filter_address *)
  1, 9: intros out; unfold cy_ecm_set_filter_address;
    (destruct h as [o|], fs as [entries|]; try (intros [= <-]; close_bracket));
    (destruct (_ || _); [intros [= <-]; close_bracket|]);
    (destruct (negb _); [intros [= <-]; close_bracket|]);
    try (intros [= <-]; close_bracket);
    (destruct (_ || _); [intros [= <-]; close_bracket|]);
    (destruct (set_filter_loop M (eth_base_type o) entries (Z.to_nat n) 0)
       as [[r tr]|] eqn:Hw; [|done]);
    apply set_filter_loop_quiet in Hw;
    cbn [mbind option_bind]; intros [= <-]; cbn [snd];
    change (mutex_ops (Ev Ev_cy_rtos_get_mutex :: ?l))
      with (true :: mutex_ops l);
    rewrite mutex_ops_app, Hw; close_bracket.
  (* get_ip_address *)
  1, 8: unfold cy_ecm_get_ip_address;
    (destruct h as [o|], a as [a0|]; try close_bracket);
    (destruct (negb _); [close_bracket|]);
    try close_bracket;
    (destruct (negb _); [close_bracket|]);
    destruct (on_cy_network_get_ip_address E 0) as [r w];
    destruct (negb _); close_bracket.
  (* gateway, netmask *)
  1, 2, 7, 8: unfold cy_ecm_get_gateway_address, cy_ecm_get_netmask_address,
      v4_address_query;
    (destruct h as [o|], a as [a0|]; try close_bracket);
    (destruct (negb _); [close_bracket|]);
    try close_bracket;
    (destruct (negb _); [close_bracket|]);
    match goal with |- context [let '(_, _) := ?x in _] => destruct x as [r w] end;
    destruct (negb _); close_bracket.
  (* ipv6 *)
  1, 5: unfold cy_ecm_get_ipv6_address;
    (destruct h as [o|], a as [a0|]; try close_bracket);
    (destruct (negb _); [close_bracket|]);
    (destruct t; [|close_bracket]);
    try close_bracket;
    (destruct (negb _); [close_bracket|]);
    destruct (on_cy_network_get_ipv6_address M) as [r w];
    destruct (succeeded r); close_bracket.
  (* ping *)
  1, 4: unfold cy_ecm_ping;
    (destruct h as [o|], a as [a0|], z1 as [e0|]; try close_bracket);
    (destruct (negb _); [close_bracket|]);
    try close_bracket;
    (destruct (negb _); [close_bracket|]);
    destruct (on_cy_network_ping M) as [r w]; close_bracket.
  (* get_mac_address *)
  1, 3: unfold cy_ecm_get_mac_address;
    (destruct h as [o|], mac as [m0|]; try (by left));
    (destruct (negb _); [by left|]);
    try (by right);
    (destruct (negb _); [by right|]);
    destruct (on_cy_network_get_gateway_mac_address M) as [r w];
    destruct (negb _); by right.
  - intros _ _ _ Hne. done.
  - intros Hh Hmac Hinit _.
    destruct h as [o|]; [|done]. destruct mac as [m0|]; [|done].
    rewrite Hinit. cbn. intros [H | [[_ H] | [H _]]]; done.
Qed.

Lemma global_mutex_discipline_witness :
  mutex_ops
    (cy_ecm_get_mac_address no_mutex (refusing_filter 0) sample_globals
       (Some sample_object) (Some [0; 0; 0; 0; 0; 0])).2
  = [true; false]
  /\ ~ bracketed no_mutex
         (mutex_ops
            (cy_ecm_get_mac_address no_mutex (refusing_filter 0) sample_globals
               (Some sample_object) (Some [0; 0; 0; 0; 0; 0])).2).
Proof.
  split; [reflexivity|].
  refine ((proj2 (proj2 (proj2 (proj2 (proj2 (proj2 (proj2 (proj2 (proj2 (proj2 (proj2 (proj2 (proj2 (proj2 (proj2 (proj2 (proj2 (global_mutex_discipline 0 sample_platform no_mutex
              (refusing_filter 0) sample_globals (Some sample_object) None
              None CY_ECM_INTERFACE_ETH0 None None None None false None None
              None 0 0 0 None CY_ECM_IPV6_LINK_LOCAL
              (Some [0; 0; 0; 0; 0; 0]))))))))))))))))))) _ _ _ _);
    first [discriminate | reflexivity].
Defined.


(** ** ip_change_callback *)

(** X23.  When the network stack reports an address change and the address
    query succeeds, [ip_change_callback] hands CY_ECM_EVENT_IP_CHANGED to
    every registered callback, in slot order, with event data that hold
    the IPv4 tag and the new address and are zero otherwise; when the query
    fails nobody is told. *)
Theorem ip_change_callback_delivery (cfg : platform) (E : collaborators)
    (g : globals) :
  well_sized g ->
  let '(r, w) := on_cy_network_get_ip_address E 0%nat in
  ip_change_callback cfg E g
  = if bool_decide (r = CY_RSLT_SUCCESS)
    then (Some (set_v4 zeroed_ip_address (CY_ECM_IP_VER_V4 cfg) w),
          Ev_cy_network_get_ip_address
            :: delivery (registered g) CY_ECM_EVENT_IP_CHANGED)
    else (None, [Ev_cy_network_get_ip_address]).
Proof.
  intros (Hlen & _). unfold ip_change_callback, succeeded.
  destruct (on_cy_network_get_ip_address E 0) as [r w].
  by rewrite invoke_app_callbacks_delivery.
Qed.

Lemma ip_change_callback_delivery_witness :
  ip_change_callback sample_platform cooperative sample_globals
  = (Some (set_v4 zeroed_ip_address (CY_ECM_IP_VER_V4 sample_platform)
             3232235778),
     [Ev_cy_network_get_ip_address;
      Ev_app_callback 7%positive CY_ECM_EVENT_IP_CHANGED;
      Ev_app_callback 9%positive CY_ECM_EVENT_IP_CHANGED]).
Proof.
  refine (ip_change_callback_delivery sample_platform cooperative
            sample_globals _).
  repeat split; reflexivity.
Defined.

(** * Properties of eth_internal.c *)

(** ** The link wait of the driver initialization *)

Lemma driver_link_wait_bound (E : collaborators) (i : cy_ecm_interface_t) :
  forall (fuel n : nat) (retry_count t : Z) (result r : cy_rslt_t)
         (tr : list driver_call),
    0 <= retry_count <= MAX_WAIT_ETHERNET_PHY_STATUS ->
    driver_link_wait fuel E i n retry_count result = Some (t, r, tr) ->
    t <= MAX_WAIT_ETHERNET_PHY_STATUS
    /\ (r = result \/ success_or_phy_code E i r).
Proof.
  unfold MAX_WAIT_ETHERNET_PHY_STATUS.
  induction fuel as [|fuel IH]; intros n c t result r tr Hc;
    cbn [driver_link_wait]; unfold MAX_WAIT_ETHERNET_PHY_STATUS;
    case_bool_decide as Hlt; try done;
    try (intros [= <- <- <-]; split; [lia | by left]).
  destruct (on_phy_get_linkstatus E n i) as [r0 ls] eqn:Hphy.
  destruct (succeeded r0 && bool_decide (ls = 1)).
  - intros [= <- <- <-]. split; [lia|]. right. by left.
  - destruct (driver_link_wait fuel E i (S n) _ r0) as [[[t' r'] tr']|] eqn:Hrec;
      [|done].
    cbn [mbind option_bind]. intros [= <- <- <-].
    unfold SLEEP_ETHERNET_PHY_STATUS, wrap32 in Hrec.
    rewrite Z.mod_small in Hrec by lia.
    apply IH in Hrec as [Ht Hr]; [|lia]. split; [done|].
    destruct Hr as [-> | Hr]; [|by right].
    right. right. exists n. by rewrite Hphy.
Qed.

(** X24.  [cy_eth_driver_initialization] has no time-out result of its
    own: the counter of its link wait is at most 10000 when the loop is
    left, so the comparison [retry_count > MAX_WAIT_ETHERNET_PHY_STATUS]
    after the loop never holds, and the code returned is CY_RSLT_SUCCESS or
    the code a link-status query of the PHY returned. *)
Theorem cy_eth_driver_initialization_result (fuel : nat) (cfg : platform)
    (H : driver_headers) (E : collaborators) (D : driver_collaborators)
    (s s1 : driver_statics) (i : cy_ecm_interface_t) (reg_base : ETH_Type)
    (config config1 : cy_ecm_phy_config_t) (r : cy_rslt_t)
    (tr : list driver_call) :
  cy_eth_driver_initialization fuel cfg H E D s i reg_base config
  = Some (r, s1, config1, tr) ->
  success_or_phy_code E i r.
Proof.
  unfold cy_eth_driver_initialization.
  destruct (cy_eth_phy_initialization fuel cfg H E D s i reg_base config)
    as [[[s' c'] tr1]|]; [|done].
  cbn [mbind option_bind].
  destruct (driver_link_wait fuel E i 0 0 CY_RSLT_SUCCESS)
    as [[[t r'] tr2]|] eqn:Hw; [|done].
  cbn [mbind option_bind].
  apply driver_link_wait_bound in Hw as [Ht Hr];
    [|unfold MAX_WAIT_ETHERNET_PHY_STATUS; lia].
  rewrite bool_decide_false by lia. intros [= <- <- <- <-].
  destruct Hr as [-> | Hr]; [by left | done].
Qed.

Lemma cy_eth_driver_initialization_result_witness :
  success_or_phy_code cooperative CY_ECM_INTERFACE_ETH0 CY_RSLT_SUCCESS.
Proof.
  exact (cy_eth_driver_initialization_result 5 sample_platform sample_headers
           cooperative sample_driver initial_driver_statics _
           CY_ECM_INTERFACE_ETH0 ETH0 sample_phy_config _ CY_RSLT_SUCCESS _
           eq_refl).
Defined.

Lemma driver_wait_next (k : nat) :
  (S k <= driver_wait_turns)%nat ->
  let t := MAX_WAIT_ETHERNET_PHY_STATUS
           - SLEEP_ETHERNET_PHY_STATUS * Z.of_nat (S k) in
  t < MAX_WAIT_ETHERNET_PHY_STATUS
  /\ wrap32 (t + SLEEP_ETHERNET_PHY_STATUS)
     = MAX_WAIT_ETHERNET_PHY_STATUS - SLEEP_ETHERNET_PHY_STATUS * Z.of_nat k.
Proof.
  unfold driver_wait_turns, MAX_WAIT_ETHERNET_PHY_STATUS,
    SLEEP_ETHERNET_PHY_STATUS, wrap32.
  rewrite Z.div_1_r. intros Hk. cbv zeta.
  split; [lia|]. rewrite Z.mod_small; lia.
Qed.

Lemma driver_link_wait_never_up (E : collaborators) (i : cy_ecm_interface_t) :
  link_never_up E i ->
  forall (k fuel n : nat) (result : cy_rslt_t),
    (k <= driver_wait_turns)%nat -> (k <= fuel)%nat ->
    exists r,
      driver_link_wait fuel E i n
        (MAX_WAIT_ETHERNET_PHY_STATUS - SLEEP_ETHERNET_PHY_STATUS * Z.of_nat k)
        result
      = Some (MAX_WAIT_ETHERNET_PHY_STATUS, r, driver_polls i k)
      /\ (r = result \/ exists m, r = (on_phy_get_linkstatus E m i).1).
Proof.
  intros Hnever. induction k as [|k IH]; intros fuel n result Hk Hfuel.
  - exists result. change (Z.of_nat 0) with 0. rewrite Z.mul_0_r, Z.sub_0_r.
    split; [destruct fuel; reflexivity | by left].
  - destruct fuel as [|fuel]; [lia|].
    destruct (driver_wait_next k Hk) as [Hlt Hnext].
    cbn [driver_link_wait]. rewrite (bool_decide_true _ Hlt).
    destruct (on_phy_get_linkstatus E n i) as [r0 ls] eqn:Hphy.
    rewrite (link_never_up_test E i n r0 ls Hnever Hphy). rewrite Hnext.
    destruct (IH fuel (S n) r0 ltac:(lia) ltac:(lia)) as (r & -> & Hr).
    exists r. split; [done|]. right.
    destruct Hr as [-> | Hr]; [|done]. exists n. by rewrite Hphy.
Qed.

(** The auto-negotiation wait returns once one of its queries ends it. *)
Lemma auto_negotiation_wait_ends (D : driver_collaborators)
    (i : cy_ecm_interface_t) :
  forall (k fuel n : nat),
    negotiation_ends_at D (n + k) -> (k < fuel)%nat ->
    is_Some (auto_negotiation_wait fuel D i n).
Proof.
  induction k as [|k IH]; intros fuel n Hend Hfuel;
    (destruct fuel as [|fuel]; [lia|]); cbn [auto_negotiation_wait].
  - rewrite Nat.add_0_r in Hend. unfold negotiation_ends_at in Hend.
    destruct (on_phy_get_auto_neg_status D n) as [r neg_status].
    simpl in Hend. unfold succeeded.
    destruct Hend as [Hr | Hs].
    + by rewrite (bool_decide_false _ Hr).
    + rewrite (bool_decide_false _ Hs). by destruct (negb _).
  - destruct (on_phy_get_auto_neg_status D n) as [r neg_status].
    destruct (negb (succeeded r)); [done|].
    destruct (bool_decide (neg_status = 0)); [|done].
    destruct (IH fuel (S n)) as [tr ->]; [|lia|done].
    by rewrite Nat.add_succ_comm.
Qed.

(** [cy_eth_phy_initialization] returns when its auto-negotiation wait is
    not entered or ends within the fuel. *)
Lemma cy_eth_phy_initialization_returns (fuel : nat) (cfg : platform)
    (H : driver_headers) (E : collaborators) (D : driver_collaborators)
    (s : driver_statics) (i : cy_ecm_interface_t) (reg_base : ETH_Type)
    (config : cy_ecm_phy_config_t) :
  negotiation_wait_ends fuel H D s config ->
  is_Some (cy_eth_phy_initialization fuel cfg H E D s i reg_base config).
Proof.
  intros Hends. unfold cy_eth_phy_initialization.
  destruct (is_driver_configured s) eqn:Hs.
  { destruct (auto_negotiation_enabled H config); [|done].
    by destruct (on_phy_get_linkspeed E 0%nat i) as [[r duplex] speed]. }
  destruct (auto_negotiation_enabled H config) eqn:Hauto.
  2: { by destruct (on_Cy_ETHIF_Init D). }
  destruct (on_Cy_ETHIF_MdioInit D) eqn:Hmdio; [|done]. cbn [negb].
  destruct Hends as [Hc | [Hc | [Hc | (n & Hn & Hend)]]]; [congruence..|].
  destruct (auto_negotiation_wait_ends D i n fuel 0%nat Hend Hn) as [tr ->].
  cbn [mbind option_bind].
  destruct (on_phy_get_link_partner_cap D) as [[r duplex] speed].
  by destruct (on_Cy_ETHIF_Init D).
Qed.

(** X25.  With a PHY that answers every link-status query with success but
    never reports link up, [cy_eth_driver_initialization] makes 10000
    queries 1 ms apart and then returns CY_RSLT_SUCCESS: its caller is not
    told that the link did not come up.  This is for a call whose PHY
    initialization gets to the link wait: one that does not enter the
    auto-negotiation wait (the driver is configured already, no
    auto-negotiation is asked for, or [Cy_ETHIF_MdioInit] fails), or whose
    auto-negotiation wait is ended by one of its first [fuel] queries (the
    query fails or stores a status other than 0).  The PHY initialization
    then returns, and fuel for 10000 turns is enough for the link wait to
    return. *)
Theorem cy_eth_driver_initialization_link_down (fuel : nat) (cfg : platform)
    (H : driver_headers) (E : collaborators) (D : driver_collaborators)
    (s : driver_statics) (i : cy_ecm_interface_t) (reg_base : ETH_Type)
    (config : cy_ecm_phy_config_t) :
  negotiation_wait_ends fuel H D s config ->
  link_never_up E i ->
  (forall m, (on_phy_get_linkstatus E m i).1 = CY_RSLT_SUCCESS) ->
  (driver_wait_turns <= fuel)%nat ->
  Z.of_nat driver_wait_turns = 10000
  /\ exists (s1 : driver_statics) (config1 : cy_ecm_phy_config_t)
       (tr1 : list driver_call),
       cy_eth_phy_initialization fuel cfg H E D s i reg_base config
       = Some (s1, config1, tr1)
       /\ cy_eth_driver_initialization fuel cfg H E D s i reg_base config
          = Some (CY_RSLT_SUCCESS, s1, config1,
                  interrupt_setup cfg H i ++ tr1
                    ++ driver_polls i driver_wait_turns
                    ++ [Ev_Cy_ETHIF_RegisterCallbacks reg_base (rxframecb s1)]).
Proof.
  intros Hends Hnever Hok Hfuel. split; [reflexivity|].
  destruct (cy_eth_phy_initialization_returns fuel cfg H E D s i reg_base
              config Hends) as [[[s1 config1] tr1] Hphy].
  exists s1, config1, tr1. split; [exact Hphy|].
  unfold cy_eth_driver_initialization. rewrite Hphy. cbn [mbind option_bind].
  destruct (driver_link_wait_never_up E i Hnever driver_wait_turns fuel 0
              CY_RSLT_SUCCESS (Nat.le_refl _) Hfuel) as (r & Hw & Hr).
  change (MAX_WAIT_ETHERNET_PHY_STATUS
          - SLEEP_ETHERNET_PHY_STATUS * Z.of_nat driver_wait_turns)
    with 0 in Hw.
  rewrite Hw. cbn [mbind option_bind].
  rewrite bool_decide_false by lia.
  assert (r = CY_RSLT_SUCCESS) as ->; [|done].
  destruct Hr as [-> | [m ->]]; [done | apply Hok].
Qed.

Lemma cy_eth_driver_initialization_link_down_witness :
  Z.of_nat driver_wait_turns = 10000
  /\ exists (s1 : driver_statics) (config1 : cy_ecm_phy_config_t)
       (tr1 : list driver_call),
       cy_eth_phy_initialization driver_wait_turns sample_platform
         sample_headers link_down sample_driver initial_driver_statics
         CY_ECM_INTERFACE_ETH0 ETH0 auto_phy_config
       = Some (s1, config1, tr1)
       /\ cy_eth_driver_initialization driver_wait_turns sample_platform
            sample_headers link_down sample_driver initial_driver_statics
            CY_ECM_INTERFACE_ETH0 ETH0 auto_phy_config
          = Some (CY_RSLT_SUCCESS, s1, config1,
                  interrupt_setup sample_platform sample_headers
                    CY_ECM_INTERFACE_ETH0
                    ++ tr1
                    ++ driver_polls CY_ECM_INTERFACE_ETH0 driver_wait_turns
                    ++ [Ev_Cy_ETHIF_RegisterCallbacks ETH0 (rxframecb s1)]).
Proof.
  apply (cy_eth_driver_initialization_link_down driver_wait_turns
           sample_platform sample_headers link_down sample_driver
           initial_driver_statics CY_ECM_INTERFACE_ETH0 ETH0 auto_phy_config).
  - right. right. right. exists 2%nat. split.
    + apply Nat.ltb_lt. vm_compute. reflexivity.
    + right. simpl. discriminate.
  - exact (link_down_never_up CY_ECM_INTERFACE_ETH0).
  - intros m. reflexivity.
  - apply Nat.le_refl.
Defined.


(** ** The MAC is configured once *)

Lemma auto_negotiation_wait_calls (D : driver_collaborators)
    (i : cy_ecm_interface_t) :
  forall (fuel n : nat) (tr : list driver_call),
    auto_negotiation_wait fuel D i n = Some tr ->
    Forall (fun c => is_phy_bring_up c = false) tr.
Proof.
  induction fuel as [|fuel IH]; intros n tr; [done|].
  cbn [auto_negotiation_wait].
  destruct (on_phy_get_auto_neg_status D n) as [r neg_status].
  destruct (negb (succeeded r)); [intros [= <-]; by repeat constructor|].
  destruct (bool_decide (neg_status = 0));
    [|intros [= <-]; by repeat constructor].
  destruct (auto_negotiation_wait fuel D i (S n)) as [tr'|] eqn:Hrec; [|done].
  cbn [mbind option_bind]. intros [= <-].
  repeat (constructor; [done|]). by eapply IH.
Qed.

(** X26.  [cy_eth_phy_initialization] initializes the MAC at most once per
    program run.  Once [is_driver_configured] is set, a call returns
    whatever the fuel, calls neither [Cy_ETHIF_MdioInit] nor [Cy_ETHIF_Init],
    leaves the clock configuration alone and sets the receive callback
    again.  Before that, a call that returns sets the flag exactly when
    [Cy_ETHIF_Init] succeeds (and [Cy_ETHIF_MdioInit] too, where
    auto-negotiation is asked for); when it does not, the function returns
    early: the receive callback is as it was and the PHY is not reset,
    discovered or given its extended registers, and the caller, the function
    being [void], cannot tell. *)
Theorem cy_eth_phy_initialization_configures_once (fuel : nat) (cfg : platform)
    (H : driver_headers) (E : collaborators) (D : driver_collaborators)
    (s : driver_statics) (i : cy_ecm_interface_t) (reg_base : ETH_Type)
    (config : cy_ecm_phy_config_t) :
  (is_driver_configured s = true ->
   exists s1 config1 tr1,
     cy_eth_phy_initialization fuel cfg H E D s i reg_base config
     = Some (s1, config1, tr1)
     /\ Forall (fun c => is_mac_initialization c = false) tr1
     /\ s1 = set_rxframecb s true)
  /\ (is_driver_configured s = false ->
      forall s1 config1 tr1,
        cy_eth_phy_initialization fuel cfg H E D s i reg_base config
        = Some (s1, config1, tr1) ->
        (is_driver_configured s1 = true
         <-> on_Cy_ETHIF_Init D = true
             /\ (auto_negotiation_enabled H config = true ->
                 on_Cy_ETHIF_MdioInit D = true))
        /\ (is_driver_configured s1 = true -> rxframecb s1 = true)
        /\ (is_driver_configured s1 = false ->
            rxframecb s1 = rxframecb s
            /\ Forall (fun c => is_phy_bring_up c = false) tr1)).
Proof.
  unfold cy_eth_phy_initialization, phy_bring_up. split.
  - intros ->.
    destruct (auto_negotiation_enabled H config).
    + destruct (on_phy_get_linkspeed E 0 i) as [[r duplex] speed].
      eexists _, _, _. split; [done|]. split; [by repeat constructor | done].
    + eexists _, _, _. split; [done|]. split; [by repeat constructor | done].
  - intros Hs. rewrite Hs. intros s1 config1 tr1.
    assert (Hconfigure : forall c0 tr0 tr2,
              Forall (fun c => is_phy_bring_up c = false) tr0 ->
              (let speed_sel := ecm_config_to_speed_sel H c0 in
               let s2 := eth_clock_config cfg H s i speed_sel (phy_speed c0) in
               if negb (on_Cy_ETHIF_Init D)
               then Some (s2, c0, tr0 ++ [Ev_Cy_ETHIF_Init reg_base])
               else
                 let '(s3, tr3) :=
                   (set_rxframecb (set_is_driver_configured s2 true) true,
                    [Ev_phy_reset i reg_base; Ev_phy_discover i;
                     Ev_phy_configure i (mode c0) (phy_speed c0);
                     Ev_phy_enable_ext_reg reg_base (phy_speed c0)]) in
                 Some (s3, c0, tr0 ++ Ev_Cy_ETHIF_Init reg_base :: tr2 ++ tr3))
              = Some (s1, config1, tr1) ->
              (is_driver_configured s1 = true <-> on_Cy_ETHIF_Init D = true)
              /\ (is_driver_configured s1 = true -> rxframecb s1 = true)
              /\ (is_driver_configured s1 = false ->
                  rxframecb s1 = rxframecb s
                  /\ Forall (fun c => is_phy_bring_up c = false) tr1)).
    { intros c0 tr0 tr2 Htr0. cbv zeta.
      destruct (on_Cy_ETHIF_Init D); cbn [negb]; intros [= <- <- <-]; cbn.
      - by repeat split.
      - rewrite Hs. repeat split; try done.
        apply Forall_app. split; [done | by repeat constructor]. }
    destruct (auto_negotiation_enabled H config) eqn:Hauto.
    + destruct (on_Cy_ETHIF_MdioInit D); cbn [negb].
      * destruct (auto_negotiation_wait fuel D i 0) as [tr|] eqn:Hw; [|done].
        cbn [mbind option_bind].
        destruct (on_phy_get_link_partner_cap D) as [[r duplex] speed].
        intros Hc.
        assert (Htr0 : Forall (fun c => is_phy_bring_up c = false)
                         ([Ev_Cy_ETHIF_MdioInit reg_base; Ev_phy_init i reg_base;
                           Ev_phy_configure i (CY_ECM_DUPLEX_AUTO H)
                             (CY_ECM_PHY_SPEED_AUTO H);
                           Dv (Ev_cy_rtos_delay_milliseconds 100)]
                          ++ tr ++ [Ev_phy_get_link_partner_cap i])).
        { repeat (constructor; [done|]). apply Forall_app. split.
          - by eapply auto_negotiation_wait_calls.
          - by repeat constructor. }
        destruct (Hconfigure _ _ _ Htr0 Hc) as (Hiff & Hrx & Hearly).
        split; [|done]. rewrite Hiff. split; [by intros -> | by intros [-> _]].
      * intros [= <- <- <-]. rewrite Hs. split; [|split].
        -- split; [done|]. intros [_ Hm]. by specialize (Hm eq_refl).
        -- done.
        -- intros _. split; [done | by repeat constructor].
    + intros Hc.
      destruct (Hconfigure config [] _ (Forall_nil _) Hc) as (Hiff & Hrx & Hearly).
      split; [|done]. rewrite Hiff. split; [by intros -> | by intros [-> _]].
Qed.

Lemma cy_eth_phy_initialization_configures_once_witness :
  exists s1 config1 tr1,
    cy_eth_phy_initialization 0 sample_platform sample_headers cooperative
      failing_driver (deregister_cb configured_statics ETH0).1
      CY_ECM_INTERFACE_ETH0 ETH0 sample_phy_config
    = Some (s1, config1, tr1)
    /\ Forall (fun c => is_mac_initialization c = false) tr1
    /\ s1 = set_rxframecb (deregister_cb configured_statics ETH0).1 true.
Proof.
  apply (proj1 (cy_eth_phy_initialization_configures_once 0 sample_platform
                  sample_headers cooperative failing_driver
                  (deregister_cb configured_statics ETH0).1
                  CY_ECM_INTERFACE_ETH0 ETH0 sample_phy_config)).
  reflexivity.
Defined.

(** ** The auto-negotiation wait *)




(** ** Interface selection *)

(** X28.  What [eth_clock_config] stores as the interface of the wrapper
    when it is fed by [ecm_config_to_speed_sel], for the interface types
    other than MII: an RGMII configuration gets the RGMII selection of its
    speed, 1000 Mbit/s for any speed other than 10 and 100; a GMII
    configuration gets GMII only at 1000 Mbit/s, and an RMII configuration
    gets RMII only at 10 and 100 Mbit/s: at any other speed both fall into
    the error branch and are given RGMII at 1000 Mbit/s, silently. *)
Theorem eth_clock_config_interface_selection (cfg : platform)
    (H : driver_headers) (s : driver_statics) (i : cy_ecm_interface_t)
    (config : cy_ecm_phy_config_t) :
  headers_distinct H ->
  interface_speed_type config <> CY_ECM_SPEED_TYPE_MII H ->
  interface_selected cfg H s i config
  = if bool_decide (interface_speed_type config = CY_ECM_SPEED_TYPE_GMII H) then
      if bool_decide (phy_speed config = CY_ECM_PHY_SPEED_1000M H)
      then CY_ETHIF_CTL_GMII_1000 H else CY_ETHIF_CTL_RGMII_1000 H
    else if bool_decide (interface_speed_type config = CY_ECM_SPEED_TYPE_RGMII H)
    then
      if bool_decide (phy_speed config = CY_ECM_PHY_SPEED_10M H)
      then CY_ETHIF_CTL_RGMII_10 H
      else if bool_decide (phy_speed config = CY_ECM_PHY_SPEED_100M H)
      then CY_ETHIF_CTL_RGMII_100 H
      else CY_ETHIF_CTL_RGMII_1000 H
    else
      if bool_decide (phy_speed config = CY_ECM_PHY_SPEED_10M H)
      then CY_ETHIF_CTL_RMII_10 H
      else if bool_decide (phy_speed config = CY_ECM_PHY_SPEED_100M H)
      then CY_ETHIF_CTL_RMII_100 H
      else CY_ETHIF_CTL_RGMII_1000 H.
Proof.
  unfold headers_distinct. intros Hnd Hmii.
  repeat (apply list.NoDup_cons in Hnd as [?Hn Hnd]).
  rewrite ?not_elem_of_cons in *. destruct_and?.
  unfold interface_selected, eth_clock_config, ecm_config_to_speed_sel.
  cbn [stcInterfaceSel].
  rewrite (bool_decide_false _ Hmii).
  repeat match goal with
         | |- context [bool_decide (?a = ?b)] =>
             first [ rewrite (bool_decide_true (a = b)) by congruence
                   | rewrite (bool_decide_false (a = b)) by congruence
                   | destruct (bool_decide_reflect (a = b)) ];
             cbn [andb]
         end;
    first [reflexivity | congruence].
Qed.

Lemma eth_clock_config_interface_selection_witness :
  interface_selected sample_platform sample_headers initial_driver_statics
    CY_ECM_INTERFACE_ETH0
    {| interface_speed_type := 3; phy_speed := 2; mode := 1 |}
  = 5.
Proof.
  refine (eth_clock_config_interface_selection sample_platform sample_headers
            initial_driver_statics CY_ECM_INTERFACE_ETH0
            {| interface_speed_type := 3; phy_speed := 2; mode := 1 |} _ _).
  - unfold headers_distinct. cbn.
    repeat (apply NoDup_cons_2; [compute_done|]). apply NoDup_nil_2.
  - discriminate.
Defined.


(** ** Detaching and attaching the driver callbacks *)

(** X29.  [deregister_cb] and a later [cy_eth_driver_initialization] are a
    round trip on the statics of a configured driver: the first registers
    the callback table with the receive callback cleared, the second, when
    it returns, has set the receive callback again, ends with registering
    the table that holds it, and has not initialized the MAC a second
    time. *)
Theorem deregister_cb_round_trip (fuel : nat) (cfg : platform)
    (H : driver_headers) (E : collaborators) (D : driver_collaborators)
    (s s1 : driver_statics) (i : cy_ecm_interface_t) (reg_base : ETH_Type)
    (config config1 : cy_ecm_phy_config_t) (r : cy_rslt_t)
    (tr : list driver_call) :
  is_driver_configured s = true ->
  rxframecb s = true ->
  cy_eth_driver_initialization fuel cfg H E D (deregister_cb s reg_base).1 i
    reg_base config
  = Some (r, s1, config1, tr) ->
  (deregister_cb s reg_base).2 = [Ev_Cy_ETHIF_RegisterCallbacks reg_base false]
  /\ s1 = s
  /\ list.last tr = Some (Ev_Cy_ETHIF_RegisterCallbacks reg_base true)
  /\ Forall (fun c => is_mac_initialization c = false)
       (drop (length (interrupt_setup cfg H i)) tr).
Proof.
  intros Hs Hrx. unfold cy_eth_driver_initialization, deregister_cb.
  cbn [fst snd].
  unfold cy_eth_phy_initialization, phy_bring_up.
  cbn [is_driver_configured set_rxframecb]. rewrite Hs.
  assert (Hback : set_rxframecb (set_rxframecb s false) true = s).
  { destruct s. cbn in *. by subst. }
  assert (Hwait : forall n t res t' r' tr',
            driver_link_wait fuel E i n t res = Some (t', r', tr') ->
            Forall (fun c => is_mac_initialization c = false) tr').
  { clear. induction fuel as [|fuel IH]; intros n t res t' r' tr';
      cbn [driver_link_wait]; (destruct (bool_decide _);
                               [|intros [= <- <- <-]; constructor]); [done|].
    destruct (on_phy_get_linkstatus E n i) as [r0 ls].
    destruct (succeeded r0 && bool_decide (ls = 1));
      [intros [= <- <- <-]; by repeat constructor|].
    destruct (driver_link_wait fuel E i (S n) _ r0) as [[[t0 r1] tr1]|] eqn:Hrec;
      [|done].
    cbn [mbind option_bind]. intros [= <- <- <-].
    repeat (constructor; [done|]). by eapply IH. }
  assert (Hend : forall (config0 : cy_ecm_phy_config_t) (tr1 : list driver_call),
            Forall (fun c => is_mac_initialization c = false) tr1 ->
            ('(retry_count, result, tr2) ←
               driver_link_wait fuel E i 0 0 CY_RSLT_SUCCESS;
             Some (if bool_decide (retry_count > MAX_WAIT_ETHERNET_PHY_STATUS)
                   then CY_RSLT_ECM_ERROR else result,
                   set_rxframecb (set_rxframecb s false) true, config0,
                   interrupt_setup cfg H i ++ tr1 ++ tr2
                     ++ [Ev_Cy_ETHIF_RegisterCallbacks reg_base
                           (rxframecb
                              (set_rxframecb (set_rxframecb s false) true))]))
            = Some (r, s1, config1, tr) ->
            [Ev_Cy_ETHIF_RegisterCallbacks reg_base false]
            = [Ev_Cy_ETHIF_RegisterCallbacks reg_base false]
            /\ s1 = s
            /\ list.last tr = Some (Ev_Cy_ETHIF_RegisterCallbacks reg_base true)
            /\ Forall (fun c => is_mac_initialization c = false)
                 (drop (length (interrupt_setup cfg H i)) tr)).
  { intros config0 tr1 Htr1.
    destruct (driver_link_wait fuel E i 0 0 CY_RSLT_SUCCESS)
      as [[[t r'] tr2]|] eqn:Hw; [|done].
    cbn [mbind option_bind]. intros [= <- <- <- <-].
    split; [done|]. split; [done|]. split.
    - rewrite !app_assoc. by rewrite last_snoc.
    - rewrite drop_app_length. apply Forall_app. split; [done|].
      apply Forall_app. split; [by eapply Hwait | by repeat constructor]. }
  destruct (auto_negotiation_enabled H config).
  - destruct (on_phy_get_linkspeed E 0 i) as [[r0 duplex] speed].
    cbn [mbind option_bind]. apply Hend. by repeat constructor.
  - cbn [mbind option_bind]. apply Hend. by repeat constructor.
Qed.

Lemma deregister_cb_round_trip_witness :
  (deregister_cb configured_statics ETH0).2
  = [Ev_Cy_ETHIF_RegisterCallbacks ETH0 false]
  /\ configured_statics = configured_statics
  /\ list.last (interrupt_setup sample_platform sample_headers CY_ECM_INTERFACE_ETH0
             ++ [Ev_phy_init CY_ECM_INTERFACE_ETH0 ETH0;
                 Ev_phy_reset CY_ECM_INTERFACE_ETH0 ETH0;
                 Ev_phy_discover CY_ECM_INTERFACE_ETH0;
                 Ev_phy_configure CY_ECM_INTERFACE_ETH0 1 1;
                 Ev_phy_enable_ext_reg ETH0 1;
                 Dv (Ev_phy_get_linkstatus CY_ECM_INTERFACE_ETH0);
                 Ev_Cy_ETHIF_RegisterCallbacks ETH0 true])
     = Some (Ev_Cy_ETHIF_RegisterCallbacks ETH0 true)
  /\ Forall (fun c => is_mac_initialization c = false)
       (drop (length (interrupt_setup sample_platform sample_headers
                        CY_ECM_INTERFACE_ETH0))
          (interrupt_setup sample_platform sample_headers CY_ECM_INTERFACE_ETH0
             ++ [Ev_phy_init CY_ECM_INTERFACE_ETH0 ETH0;
                 Ev_phy_reset CY_ECM_INTERFACE_ETH0 ETH0;
                 Ev_phy_discover CY_ECM_INTERFACE_ETH0;
                 Ev_phy_configure CY_ECM_INTERFACE_ETH0 1 1;
                 Ev_phy_enable_ext_reg ETH0 1;
                 Dv (Ev_phy_get_linkstatus CY_ECM_INTERFACE_ETH0);
                 Ev_Cy_ETHIF_RegisterCallbacks ETH0 true])).
Proof.
  apply (deregister_cb_round_trip 5 sample_platform sample_headers cooperative
           sample_driver configured_statics configured_statics
           CY_ECM_INTERFACE_ETH0 ETH0 sample_phy_config sample_phy_config
           CY_RSLT_SUCCESS); reflexivity.
Defined.
